(** * The query helper of ggrc-core: a shallow embedding

    This development embeds [src/ggrc/converters/query_helper.py] (class
    [QueryHelper]) and proves properties of its sanitizer
    ([_clean_query], [_clean_filters], [_macro_expand_object_query]),
    its expression compiler ([_build_expression]) and its driver
    ([get_ids], [_get_objects], [_apply_order_by], [_apply_limit]).

    The program is Python 2 and works on JSON-shaped data: nested
    dictionaries and lists that it reads with [dict.get] and subscripts
    and that it updates in place.  Python values are embedded as the type
    [value]; a dictionary is a finite map from strings to values.  A call
    that may raise returns a [result]; the part of the program that reads
    and writes [flask.g] lives in the state and error monad [Py]. *)

From Stdlib Require Import ZArith Ascii String.
From stdpp Require Import gmap strings list fin_maps.

#[local] Set Warnings "-register-all".
#[local] Open Scope Z_scope.

(** ** Python values *)

(** The JSON documents of a request, plus [datetime.date], which the
    macro expansion stores into an expression. *)
Inductive value :=
| VNone
| VBool (b : bool)
| VInt (z : Z)
| VStr (s : string)
| VDate (year month day : Z)
| VList (l : list value)
| VDict (d : gmap string value).

(** ** Exceptions *)

(** [BadQueryException] is the class declared by the module; the others
    are the built-in exceptions the modelled operations raise.  A message
    built with [str.format] is kept as its template and the values
    formatted into it.  [ArgumentError] is SQLAlchemy's.
    [UnicodeEncodeError] is a subclass of [ValueError]: a handler of
    [ValueError] catches it; [OverflowError] is not. *)
Inductive exn :=
| BadQueryException (msg : string) (args : list value)
| ValueError
| TypeError
| KeyError
| AttributeError
| IndexError
| NotImplementedError (msg : string) (args : list value)
| ArgumentError
| OverflowError
| UnicodeEncodeError.

Inductive result (A : Type) :=
| Ok (a : A)
| Raise (e : exn).
Arguments Ok {A} a.
Arguments Raise {A} e.

#[global] Instance result_ret : MRet result := λ A a, Ok a.
#[global] Instance result_bind : MBind result := λ A B f m,
  match m with
  | Ok a => f a
  | Raise e => Raise e
  end.
#[global] Instance result_fmap : FMap result := λ A B f m,
  match m with
  | Ok a => Ok (f a)
  | Raise e => Raise e
  end.

(** [try: m except ValueError as error: h(error)] *)
Definition except_ValueError {A} (m : result A) (h : exn → result A)
    : result A :=
  match m with
  | Raise ValueError => h ValueError
  | Raise UnicodeEncodeError => h UnicodeEncodeError
  | _ => m
  end.

(** [try: m except Exception: raise e] and the bare [except:] *)
Definition except_Exception {A} (m : result A) (e : exn) : result A :=
  match m with
  | Ok a => Ok a
  | Raise _ => Raise e
  end.

(** ** Strings *)

Definition dquote : string := String "034"%char EmptyString.

Definition lower_ascii (c : ascii) : ascii :=
  let n := N_of_ascii c in
  if ((65 <=? n) && (n <=? 90))%N then ascii_of_N (n + 32) else c.

(** [s.lower()] *)
Fixpoint lower (s : string) : string :=
  match s with
  | EmptyString => EmptyString
  | String c s' => String (lower_ascii c) (lower s')
  end.

(** [p in s] on strings *)
Fixpoint str_contains (p s : string) : bool :=
  String.prefix p s ||
  match s with
  | EmptyString => false
  | String _ s' => str_contains p s'
  end.

(** [s.split(sep)] for a one-character separator: never an empty list. *)
Fixpoint split_go (sep : ascii) (cur : string) (s : string) : list string :=
  match s with
  | EmptyString => [String.rev cur]
  | String c s' =>
    if Ascii.eqb c sep then String.rev cur :: split_go sep EmptyString s'
    else split_go sep (String c cur) s'
  end.

Definition split (sep : ascii) (s : string) : list string :=
  split_go sep EmptyString s.

(** ** [int(x)] *)

(** The strings of a request are [unicode] objects.  A [string] holds the
    UTF-8 encoding of the text: [utf8_decode] gives its code points, as
    the interpreter holds them in a build with four-byte characters (a
    string that is no such encoding stands for no text).  A code point
    has one encoding, the shortest: [lo] is the least code point of the
    form being read.  The three-byte form is read for every code point,
    a surrogate included. *)
Fixpoint utf8_go (need : nat) (lo acc : N) (s : string) : option (list N) :=
  match s with
  | EmptyString => match need with O => Some [] | S _ => None end
  | String c s' =>
    let b := N_of_ascii c in
    match need with
    | O =>
      if (b <? 128)%N then cons b <$> utf8_go 0 0 0 s'
      else if ((192 <=? b) && (b <? 224))%N then utf8_go 1 128 (b - 192) s'
      else if ((224 <=? b) && (b <? 240))%N then utf8_go 2 2048 (b - 224) s'
      else if ((240 <=? b) && (b <? 248))%N then utf8_go 3 65536 (b - 240) s'
      else None
    | S n =>
      if ((128 <=? b) && (b <? 192))%N then
        let acc' := (acc * 64 + (b - 128))%N in
        match n with
        | O =>
          if ((lo <=? acc') && (acc' <? 1114112))%N
          then cons acc' <$> utf8_go 0 0 0 s'
          else None
        | S _ => utf8_go n lo acc' s'
        end
      else None
    end
  end.

Definition utf8_decode (s : string) : option (list N) := utf8_go 0 0 0 s.

(** [Py_UNICODE_ISSPACE]: the white space of Python 2.7. *)
Definition unicode_space (c : N) : bool :=
  (((9 <=? c) && (c <=? 13)) || ((28 <=? c) && (c <=? 32))
   || (c =? 133) || (c =? 160) || (c =? 5760) || (c =? 6158)
   || ((8192 <=? c) && (c <=? 8202)) || (c =? 8232) || (c =? 8233)
   || (c =? 8239) || (c =? 8287) || (c =? 12288))%N.

(** The digits zero of the scripts with decimal digits in Unicode 5.2,
    the version of Python 2.7; the nine code points after each are its
    digits one to nine. *)
Definition decimal_zeros : list N :=
  [48; 1632; 1776; 1984; 2406; 2534; 2662; 2790; 2918; 3046; 3174; 3302;
   3430; 3664; 3792; 3872; 4160; 4240; 6112; 6160; 6470; 6608; 6784; 6800;
   6992; 7088; 7232; 7248; 42528; 43216; 43264; 43472; 43600; 44016; 65296;
   66720]%N.

(** [Py_UNICODE_TODECIMAL]: besides the scripts above, the mathematical
    digits (five runs of ten from U+1D7CE) and U+19DA, which is the
    decimal digit one in Unicode 5.2. *)
Definition unicode_decimal (c : N) : option N :=
  if (c =? 6618)%N then Some 1%N
  else if ((120782 <=? c) && (c <=? 120831))%N
  then Some ((c - 120782) mod 10)%N
  else
    match List.find (λ z, (z <=? c) && (c <? z + 10))%N decimal_zeros with
    | Some z => Some (c - z)%N
    | None => None
    end.

(** The characters [PyUnicode_EncodeDecimal] accepts: white space,
    decimal digits and the other characters from 1 to 255. *)
Definition encodable (c : N) : bool :=
  unicode_space c
  || match unicode_decimal c with Some _ => true | None => false end
  || ((0 <? c) && (c <? 256))%N.

(** The byte it writes: a space for white space, the ASCII digit for a
    decimal digit, the character itself otherwise. *)
Definition encode_decimal (c : N) : N :=
  if unicode_space c then 32%N
  else match unicode_decimal c with
       | Some d => (48 + d)%N
       | None => c
       end.

(** [isspace] of C on a byte. *)
Definition is_space (c : N) : bool :=
  ((c =? 32) || ((9 <=? c) && (c <=? 13)))%N.

Definition digit_of (c : N) : option Z :=
  if ((48 <=? c) && (c <=? 57))%N then Some (Z.of_N c - 48) else None.

Fixpoint lstrip (l : list N) : list N :=
  match l with
  | [] => []
  | c :: l' => if is_space c then lstrip l' else l
  end.

(** One or more decimal digits, then only white space. *)
Fixpoint read_digits (seen : bool) (acc : Z) (l : list N) : option Z :=
  match l with
  | [] => if seen then Some acc else None
  | c :: l' =>
    match digit_of c with
    | Some d => read_digits true (10 * acc + d) l'
    | None => if seen && forallb is_space l then Some acc else None
    end
  end.

(** The decimal literals [int] accepts in a string: white space around
    an optional sign and at least one digit, in text all of whose
    characters are encodable. *)
Definition int_of_str (s : string) : option Z :=
  text ← utf8_decode s;
  if forallb encodable text then
    match lstrip (encode_decimal <$> text) with
    | 43%N :: l => read_digits false 0 l
    | 45%N :: l => Z.opp <$> read_digits false 0 l
    | l => read_digits false 0 l
    end
  else None.

(** What [int] raises on a string it rejects: [UnicodeEncodeError] when
    a character is not encodable, [ValueError] for an invalid literal. *)
Definition int_error (s : string) : exn :=
  match utf8_decode s with
  | Some text => if forallb encodable text then ValueError
                 else UnicodeEncodeError
  | None => ValueError
  end.

(** [int(v)]: a value that is neither a number nor a string raises
    [TypeError]. *)
Definition py_int (v : value) : result Z :=
  match v with
  | VInt z => Ok z
  | VBool b => Ok (if b then 1 else 0)
  | VStr s =>
    match int_of_str s with
    | Some z => Ok z
    | None => Raise (int_error s)
    end
  | VNone | VDate _ _ _ | VList _ | VDict _ => Raise TypeError
  end.

(** ** [datetime.date] *)

Definition is_leap (y : Z) : bool :=
  ((y mod 4 =? 0) && negb (y mod 100 =? 0)) || (y mod 400 =? 0).

Definition days_in_month (y m : Z) : Z :=
  if m =? 2 then (if is_leap y then 29 else 28)
  else if (m =? 4) || (m =? 6) || (m =? 9) || (m =? 11) then 30
  else 31.

(** An integer that fits the C type [int], to which [datetime.date]
    converts its arguments. *)
Definition c_int (z : Z) : bool := (- 2 ^ 31 <=? z) && (z <? 2 ^ 31).

(** [datetime.date(year, month, day)] raises [OverflowError] for an
    argument beyond the range of [int], and [ValueError] outside the
    proleptic Gregorian calendar of the years 1 to 9999. *)
Definition date (year month day : Z) : result value :=
  if c_int year && c_int month && c_int day then
    if (1 <=? year) && (year <=? 9999) && (1 <=? month) && (month <=? 12)
       && (1 <=? day) && (day <=? days_in_month year month)
    then Ok (VDate year month day)
    else Raise ValueError
  else Raise OverflowError.

(** ** Operations on values *)

(** The truth value of [v] in [if v:] and [not v]. *)
Definition py_truthy (v : value) : bool :=
  match v with
  | VNone => false
  | VBool b => b
  | VInt z => negb (z =? 0)
  | VStr s => negb (String.eqb s EmptyString)
  | VDate _ _ _ => true
  | VList l => match l with [] => false | _ => true end
  | VDict d => if decide (d = ∅) then false else true
  end.

(** [v == s] for a string literal [s] *)
Definition str_eq (v : value) (s : string) : bool :=
  match v with
  | VStr s' => String.eqb s' s
  | _ => false
  end.

(** [v.get(k, dflt)]: only a dictionary has [get]. *)
Definition py_get (v : value) (k : string) (dflt : value) : result value :=
  match v with
  | VDict d => Ok (default dflt (d !! k))
  | _ => Raise AttributeError
  end.

(** [v[k]] for a string [k] *)
Definition py_getitem (v : value) (k : string) : result value :=
  match v with
  | VDict d =>
    match d !! k with
    | Some x => Ok x
    | None => Raise KeyError
    end
  | _ => Raise TypeError
  end.

(** [v[k] = x] on a dictionary held in [v] *)
Definition py_setitem (v : value) (k : string) (x : value) : value :=
  match v with
  | VDict d => VDict (<[k := x]> d)
  | _ => v
  end.

(** The items [for x in v] visits.  The keys of a dictionary come in the
    order of the map, Python 2 fixes none. *)
Definition py_iter (v : value) : result (list value) :=
  match v with
  | VList l => Ok l
  | VStr s => Ok ((λ c, VStr (String c EmptyString)) <$> list_ascii_of_string s)
  | VDict d => Ok ((λ kv, VStr kv.1) <$> map_to_list d)
  | VNone | VBool _ | VInt _ | VDate _ _ _ => Raise TypeError
  end.

(** [isinstance(v, collections.Hashable)] *)
Definition py_hashable (v : value) : bool :=
  match v with
  | VList _ | VDict _ => false
  | _ => true
  end.

(** [operator in ["AND", "OR"]] *)
Definition is_and_or (operator : value) : bool :=
  str_eq operator "AND" || str_eq operator "OR".

(** ** Storage rows, SQL expressions, classes *)

(** A row of the store: an instance of a model class. *)
Record obj := Obj { obj_id : Z; obj_fields : gmap string value }.

(** What [getattr(object_class, key, None)] finds: a column, or a
    relationship to a Titled model, to Person or to another model. *)
Inductive attr_kind :=
| Scalar
| RelTitled
| RelPerson
| RelOther (related_model : string).

Record pyattr := Attr {
  attr_owner : string;
  attr_name : string;
  attr_kind_of : attr_kind
}.

(** The Python object [_build_expression] returns: [None], an SQLAlchemy
    clause, or (see [similar]) an exception instance.  [PILike a v] is
    [a.ilike("%{}%".format(v))]. *)
Inductive pyexpr :=
| PNone
| PExc (e : exn)
| PEq (a : pyattr) (v : value)
| PLt (a : pyattr) (v : value)
| PGt (a : pyattr) (v : value)
| PILike (a : pyattr) (v : value)
| PNot (e : pyexpr)
| PAnd (es : list pyexpr)
| POr (es : list pyexpr)
| PIdIn (ids : list Z).

(** The query a class's [get_similar_objects_query] returns: rows of
    (id, weight). *)
Definition similar_query : Type := list (Z * Z).

(** [flask.g], of which only the attribute [similar_objects_query] is
    used: [None] when [hasattr(flask.g, "similar_objects_query")] is
    false. *)
Record flask_g := FlaskG { similar_objects_query : option similar_query }.

(** Computations that read and write [flask.g] and may raise. *)
Definition Py (A : Type) : Type := flask_g → result (A * flask_g).

#[global] Instance Py_ret : MRet Py := λ A a g, Ok (a, g).
#[global] Instance Py_bind : MBind Py := λ A B f m g,
  match m g with
  | Ok (a, g') => f a g'
  | Raise e => Raise e
  end.

Definition lift {A} (r : result A) : Py A := λ g,
  match r with
  | Ok a => Ok (a, g)
  | Raise e => Raise e
  end.

Definition raise {A} (e : exn) : Py A := λ _, Raise e.

(** A custom [filter_by] of a class: called with the predicate builder
    [p], it returns the clause to filter by. *)
Definition custom_filter : Type := (pyattr → Py pyexpr) → Py pyexpr.

(** A model class as the query helper sees it.  [cls_attr_name_map] is
    the entry [attr_name_map[object_class]] that [_set_attr_name_map]
    builds from [AttributeInfo], which is not part of this module; each
    entry maps a lower-cased display name to the attribute name and the
    optional custom filter. *)
Record pyclass := PyClass {
  cls_name : string;
  cls_getattr : string → option pyattr;
  cls_query : list obj;
  cls_slug_in : value → list Z;
  get_similar_objects_query : option (value → list string → similar_query);
  cls_attr_name_map : gmap string (string * option custom_filter)
}.

(** * The class [QueryHelper] *)

Section QueryHelper.

(** [self.object_map]: the exportable classes by name. *)
Variable object_map : gmap string pyclass.

(** [self.object_map.get(name)] and [self.object_map[name]] for a value
    used as the key. *)
Definition object_map_get (name : value) : result (option pyclass) :=
  match name with
  | VStr s => Ok (object_map !! s)
  | VList _ | VDict _ => Raise TypeError
  | _ => Ok None
  end.

Definition object_map_getitem (name : value) : result pyclass :=
  c ← object_map_get name;
  match c with
  | Some cls => Ok cls
  | None => Raise KeyError
  end.

(** ** Sanitizer *)

Definition _slugs_to_ids (object_name slugs : value) : result (list Z) :=
  object_class ← object_map_get object_name;
  match object_class with
  | None => Ok []
  | Some cls => Ok (cls_slug_in cls slugs)
  end.

(** The handler [except ValueError as error] of [_clean_filters]. *)
Definition clean_filters_handler (expression : value) (error : exn)
    : result (list Z) :=
  op ← py_get expression "op" (VDict ∅);
  name ← py_get op "name" (VStr "");
  if str_eq name "relevant" then
    object_name ← py_get expression "object_name" (VStr "");
    Raise (BadQueryException "Invalid relevant filter for {}" [object_name])
  else Raise error.

(** The [if slugs:] block of [_clean_filters] on the dictionary [d]. *)
Definition resolve_slugs (d : gmap string value)
    : result (gmap string value) :=
  let slugs := default VNone (d !! "slugs") in
  if py_truthy slugs then
    ids ← match default (VList []) (d !! "ids") with
          | VList l => Ok l
          | _ => Raise AttributeError
          end;
    object_name ← py_getitem (VDict d) "object_name";
    new_ids ← _slugs_to_ids object_name slugs;
    Ok (<["ids" := VList (ids ++ (VInt <$> new_ids))]> d)
  else Ok d.

(** The [try] block of [_clean_filters]: the list comprehension and its
    handler. *)
Definition coerce_ids (d : gmap string value) : result (list Z) :=
  except_ValueError
    (ids ← py_iter (default (VList []) (d !! "ids")); mapM py_int ids)
    (clean_filters_handler (VDict d)).

(** [_clean_filters] updates the dictionary [expression] in place and
    returns nothing; the embedding returns the updated value.  The call
    on [expression.get(k)] is read off [cleaned], the map of the results
    of the recursive calls, which keeps the recursion structural:
    [cleaned !! k] is [_clean_filters <$> d !! k]
    (lemma [_clean_filters_unfold]).  The updates of [ids] and of [left]
    that precede a call leave the entry it reads as it is in [d]. *)
Fixpoint _clean_filters (expression : value) : result value :=
  match expression with
  | VDict d =>
    if negb (py_truthy expression) then Ok expression else
    let cleaned := _clean_filters <$> d in
    d1 ← resolve_slugs d;
    ints ← coerce_ids d1;
    let d2 := <["ids" := VList (VInt <$> ints)]> d1 in
    d3 ← match cleaned !! "left" with
         | Some r => left_ ← r; Ok (<["left" := left_]> d2)
         | None => Ok d2
         end;
    d4 ← match cleaned !! "right" with
         | Some r => right_ ← r; Ok (<["right" := right_]> d3)
         | None => Ok d3
         end;
    Ok (VDict d4)
  | _ => Ok expression
  end.

(** The set [_expression_keys] returns, as the list of its elements. *)
Fixpoint _expression_keys (exp : value) : result (list value) :=
  match exp with
  | VDict d =>
    let keys := _expression_keys <$> d in
    op ← py_get exp "op" (VDict ∅);
    operator ← py_get op "name" VNone;
    if is_and_or operator then
      l ← default (Raise KeyError) (keys !! "left");
      r ← default (Raise KeyError) (keys !! "right");
      Ok (l ++ r)
    else
      match default VNone (d !! "left") with
      | VNone => Ok []
      | left_ => if py_hashable left_ then Ok [left_] else Ok []
      end
  | _ => Raise AttributeError
  end.

(** [s in keys] for a string literal [s] *)
Definition key_in (s : string) (keys : list value) : bool :=
  existsb (λ k, str_eq k s) keys.

(** The leaf left by the [MM/DD] form. *)
Definition relative_leaf (operator : value) (left_ right_ : string) : value :=
  VDict {[ "op" := VDict {[ "name" := operator ]};
           "left" := VStr left_;
           "right" := VStr right_ ]}.

(** The inner function of [_macro_expand_object_query]; it updates [exp]
    in place, the embedding returns the updated value. *)
Fixpoint expand_task_dates (exp : value) : result value :=
  match exp with
  | VDict d =>
    if bool_decide (is_Some (d !! "op")) then
      let expanded := expand_task_dates <$> d in
      op ← py_getitem exp "op";
      operator ← py_getitem op "name";
      if is_and_or operator then
        left_ ← default (Raise KeyError) (expanded !! "left");
        right_ ← default (Raise KeyError) (expanded !! "right");
        Ok (VDict (<["right" := right_]> (<["left" := left_]> d)))
      else
        left_ ← py_getitem exp "left";
        match left_ with
        | VStr key =>
          if String.eqb key "start" || String.eqb key "end" then
            right_ ← py_getitem exp "right";
            parts ← match right_ with
                    | VStr s => Ok (split "/" s)
                    | _ => Raise AttributeError
                    end;
            match parts with
            | [_; _; _] =>
              mdy ← except_Exception (mapM py_int (VStr <$> parts))
                      (BadQueryException "Date must consist of numbers" []);
              match mdy with
              | [month; day; year] =>
                d' ← date year month day;
                Ok (VDict (<["right" := d']>
                             (<["left" := VStr (key +:+ "_date")]> d)))
              | _ => Raise ValueError
              end
            | [month; day] =>
              Ok (VDict
                (<["right" := relative_leaf operator
                                ("relative_" +:+ key +:+ "_day") day]>
                (<["left" := relative_leaf operator
                                ("relative_" +:+ key +:+ "_month") month]>
                (<["op" := VDict {[ "name" := VStr "AND" ]}]> d))))
            | [_] =>
              Ok (VDict (<["left" := VStr ("relative_" +:+ key +:+ "_day")]> d))
            | _ =>
              Raise (BadQueryException
                ("Field {} should be a date of one of the" +:+
                 " following forms: DD, MM/DD, MM/DD/YYYY") [VStr key])
            end
          else Ok exp
        | _ => Ok exp
        end
    else Ok exp
  | _ => Ok exp
  end.

Definition _macro_expand_object_query (object_query : value) : result value :=
  object_name ← py_getitem object_query "object_name";
  if str_eq object_name "TaskGroupTask" then
    filters ← py_get object_query "filters" VNone;
    match filters with
    | VNone => Ok object_query
    | _ =>
      exp ← py_getitem filters "expression";
      keys ← _expression_keys exp;
      if key_in "start" keys || key_in "end" keys then
        exp' ← expand_task_dates exp;
        Ok (py_setitem object_query "filters"
              (py_setitem filters "expression" exp'))
      else Ok object_query
    end
  else Ok object_query.

(** The body of the loop of [_clean_query] for one [object_query]. *)
Definition clean_object_query (object_query : value) : result value :=
  filters ← py_get object_query "filters" (VDict ∅);
  expression ← py_get filters "expression" VNone;
  expression' ← _clean_filters expression;
  let object_query' :=
    match expression with
    | VDict _ =>
      py_setitem object_query "filters"
        (py_setitem filters "expression" expression')
    | _ => object_query
    end in
  _macro_expand_object_query object_query'.

Definition _clean_query (query : list value) : result (list value) :=
  mapM clean_object_query query.


(** [_set_attr_name_map] looks every [object_name] of the query up in
    [self.object_map] and fills [self.attr_name_map] from [AttributeInfo];
    the filled entry is the field [cls_attr_name_map] of the class. *)
Definition _set_attr_name_map (query : list value) : result (list pyclass) :=
  mapM (λ object_query,
          object_name ← py_getitem object_query "object_name";
          object_map_getitem object_name) query.

(** [QueryHelper(query)]: the value of [self.query] after [__init__]. *)
Definition QueryHelper_init (query : list value) : result (list value) :=
  query' ← _clean_query query;
  _ ← _set_attr_name_map query';
  Ok query'.

(** ** Expression compiler *)

(** [RelationshipHelper.get_ids_related_to(object_type, related_type,
    related_ids)], an external collaborator. *)
Variable get_ids_related_to : string → value → value → list Z.

(** [self.attr_name_map[object_class].get(key, (key, None))] *)
Definition attr_name_map_get (object_class : pyclass) (key : string)
    : string * option custom_filter :=
  default (key, None) (cls_attr_name_map object_class !! key).

(** ["op" in exp] *)
Definition has_op (exp : value) : result bool :=
  match exp with
  | VDict d => Ok (bool_decide (is_Some (d !! "op")))
  | VStr s => Ok (str_contains "op" s)
  | VList l => Ok (existsb (λ v, str_eq v "op") l)
  | VNone | VBool _ | VInt _ | VDate _ _ _ => Raise TypeError
  end.

(** [v[0]] *)
Definition py_first (v : value) : result value :=
  match v with
  | VList (x :: _) => Ok x
  | VList [] => Raise IndexError
  | VStr (String c _) => Ok (VStr (String c EmptyString))
  | VStr EmptyString => Raise IndexError
  | VDict _ => Raise KeyError
  | VNone | VBool _ | VInt _ | VDate _ _ _ => Raise TypeError
  end.

(** [l[i]] on a list: a negative index counts from the end. *)
Definition list_getitem {A} (l : list A) (i : value) : result A :=
  match i with
  | VInt _ | VBool _ =>
    let z := match i with VInt z => z | VBool true => 1 | _ => 0 end in
    let n := Z.of_nat (length l) in
    let z' := if z <? 0 then z + n else z in
    if (0 <=? z') && (z' <? n) then
      match l !! Z.to_nat z' with
      | Some x => Ok x
      | None => Raise IndexError
      end
    else Raise IndexError
  | _ => Raise TypeError
  end.

Definition date_key (key : string) : bool :=
  (str_contains "date" key && negb (str_contains "relative" key))
  || String.eqb key "end_date" || String.eqb key "start_date".

(** The [MM/DD/YYYY] parse inside the [try] of [autocast]. *)
Definition parse_date (value_ : value) : result value :=
  parts ← match value_ with
          | VStr s => Ok (split "/" s)
          | _ => Raise AttributeError
          end;
  ints ← mapM py_int (VStr <$> parts);
  match ints with
  | [month; day; year] => date year month day
  | _ => Raise ValueError
  end.

Definition autocast (object_class : pyclass) (o_key value_ : value)
    : result value :=
  match o_key with
  | VStr o_key_s =>
    let key := (attr_name_map_get object_class o_key_s).1 in
    if date_key key then
      match value_ with
      | VDate _ _ _ => Ok value_
      | _ =>
        except_Exception (parse_date value_)
          (BadQueryException
             ("Field " +:+ dquote +:+ "{}" +:+ dquote +:+
              " expects a MM/DD/YYYY date") [o_key])
      end
    else Ok value_
  | _ => Ok value_
  end.

Definition relevant (query : list value) (exp : value) (object_class : pyclass)
    : result pyexpr :=
  object_name ← py_getitem exp "object_name";
  query_ ← (if str_eq object_name "__previous__" then
              ids ← py_getitem exp "ids";
              i ← py_first ids;
              list_getitem query i
            else Ok exp);
  related_type ← py_getitem query_ "object_name";
  related_ids ← py_getitem query_ "ids";
  Ok (PIdIn (get_ids_related_to (cls_name object_class)
               related_type related_ids)).

Definition set_similar_objects_query (q : similar_query) : Py unit :=
  λ _, Ok ((), FlaskG (Some q)).

Definition get_flask_g : Py flask_g := λ g, Ok (g, g).

Definition similar (exp : value) (object_class : pyclass) : Py pyexpr :=
  object_name ← lift (py_getitem exp "object_name");
  similar_class ← lift (object_map_getitem object_name);
  match get_similar_objects_query similar_class with
  | None =>
    mret (PExc (BadQueryException
                  ("{} does not define weights to count " +:+
                   "relationships similarity")
                  [VStr (cls_name similar_class)]))
  | Some get_query =>
    id_ ← lift (py_getitem exp "id");
    let similar_objects_query := get_query id_ [cls_name object_class] in
    _ ← set_similar_objects_query similar_objects_query;
    mret (PIdIn (similar_objects_query.*1))
  end.

Definition unknown (exp : value) : Py pyexpr :=
  op ← lift (py_getitem exp "op");
  name ← lift (py_getitem op "name");
  raise (BadQueryException
           ("Unknown operator " +:+ dquote +:+ "{}" +:+ dquote) [name]).

Definition with_key (object_class : pyclass) (key : value)
    (p : pyattr → Py pyexpr) : Py pyexpr :=
  match key with
  | VStr k =>
    let '(key, filter_by) := attr_name_map_get object_class (lower k) in
    match filter_by with
    | Some filter_by => filter_by p
    | None =>
      match cls_getattr object_class key with
      | None =>
        raise (BadQueryException
                 ("Bad query: object '{}' does " +:+
                  "not have attribute '{}'.")
                 [VStr (cls_name object_class); VStr key])
      | Some attr => p attr
      end
    end
  | _ => raise AttributeError
  end.

(** [field in existing_fields] *)
Definition field_in (object_class : pyclass) (field : value) : result bool :=
  match field with
  | VStr s => Ok (bool_decide (is_Some (cls_attr_name_map object_class !! s)))
  | VList _ | VDict _ => Raise TypeError
  | _ => Ok false
  end.

(** The generator handed to [or_] by [text_search]. *)
Fixpoint text_search_clauses (object_class : pyclass) (text : value)
    (fields : list value) : Py (list pyexpr) :=
  match fields with
  | [] => mret []
  | field :: fields' =>
    existing ← lift (field_in object_class field);
    if existing : bool then
      e ← with_key object_class field (λ f, mret (PILike f text));
      es ← text_search_clauses object_class text fields';
      mret (e :: es)
    else text_search_clauses object_class text fields'
  end.

Definition text_search (exp : value) (object_class : pyclass) (fields : value)
    : Py pyexpr :=
  text ← lift (py_getitem exp "text");
  fields' ← lift (py_iter fields);
  es ← text_search_clauses object_class text fields';
  mret (POr es).

(** [_build_expression]; [built] holds the results of the recursive
    calls on the entries of [exp], so [built !! k] is the call on
    [exp[k]] (lemma [build_expression_and_or]). *)
Fixpoint _build_expression (query : list value) (exp : value)
    (object_class : pyclass) (fields : value) : Py pyexpr :=
  match exp with
  | VDict d =>
    if bool_decide (is_Some (d !! "op")) then
      let built :=
        (λ e, _build_expression query e object_class fields) <$> d in
      let rhs : Py value :=
        lift (left_ ← py_getitem exp "left";
              right_ ← py_getitem exp "right";
              autocast object_class left_ right_) in
      let with_left (p : pyattr → Py pyexpr) : Py pyexpr :=
        left_ ← lift (py_getitem exp "left");
        with_key object_class left_ p in
      let lift_bin (f : list pyexpr → pyexpr) : Py pyexpr :=
        l ← default (raise KeyError) (built !! "left");
        r ← default (raise KeyError) (built !! "right");
        mret (f [l; r]) in
      op ← lift (py_getitem exp "op");
      name ← lift (py_getitem op "name");
      match name with
      | VStr s =>
        if String.eqb s "AND" then lift_bin PAnd
        else if String.eqb s "OR" then lift_bin POr
        else if String.eqb s "=" then
          with_left (λ l, v ← rhs; mret (PEq l v))
        else if String.eqb s "!=" then
          e ← with_left (λ l, v ← rhs; mret (PEq l v)); mret (PNot e)
        else if String.eqb s "~" then
          with_left (λ l, v ← rhs; mret (PILike l v))
        else if String.eqb s "!~" then
          e ← with_left (λ l, v ← rhs; mret (PILike l v)); mret (PNot e)
        else if String.eqb s "<" then
          with_left (λ l, v ← rhs; mret (PLt l v))
        else if String.eqb s ">" then
          with_left (λ l, v ← rhs; mret (PGt l v))
        else if String.eqb s "relevant" then
          lift (relevant query exp object_class)
        else if String.eqb s "text_search" then
          text_search exp object_class fields
        else if String.eqb s "similar" then similar exp object_class
        else unknown exp
      | VList _ | VDict _ => raise TypeError
      | _ => unknown exp
      end
    else mret PNone
  | _ =>
    b ← lift (has_op exp);
    if b : bool then raise TypeError else mret PNone
  end.

(** ** Ordering *)

Inductive join_target :=
| JoinSimilar (q : similar_query)
| JoinAlias (a : pyattr).

Inductive order_key :=
| OrdSimilarityWeight
| OrdAttr (a : pyattr)
| OrdTitle (a : pyattr)
| OrdPersonNameOrEmail (a : pyattr).

(** The pair (join, order) of one clause; [ord_desc] records
    [order.desc()]. *)
Record order_item := OrderItem {
  ord_join : option join_target;
  ord_key : order_key;
  ord_desc : bool
}.

(** The store: what [query.filter(clause)] selects (it raises when the
    argument is no clause), and the rows in the order
    [query.outerjoin(...).order_by(...)] yields. *)
Variable db_filter : pyclass → pyexpr → list obj → result (list obj).
Variable db_order_by : list order_item → list obj → list obj.

(** [permissions.is_allowed_read_for], [permissions.is_allowed_update_for] *)
Variable is_allowed_read_for : obj → bool.
Variable is_allowed_update_for : obj → bool.

Definition join_and_order (model : pyclass) (clause : value)
    : Py order_item :=
  name ← lift (py_getitem clause "name");
  key ← match name with
        | VStr s => mret (lower s)
        | _ => raise AttributeError
        end;
  '(join, order) ←
    (if String.eqb key "__similarity__" then
       g ← get_flask_g;
       match similar_objects_query g with
       | Some q => mret (Some (JoinSimilar q), OrdSimilarityWeight)
       | None =>
         raise (BadQueryException "Can't order by '__similarity__' when no "
                  [VStr "'similar' filter was applied."])
       end
     else
       let key := (attr_name_map_get model key).1 in
       match cls_getattr model key with
       | None =>
         raise (BadQueryException
                  ("Model '{model.__name__}' does not have " +:+
                   "'{key}' attribute")
                  [VStr (cls_name model); VStr key])
       | Some attr =>
         match attr_kind_of attr with
         | RelTitled => mret (Some (JoinAlias attr), OrdTitle attr)
         | RelPerson => mret (Some (JoinAlias attr), OrdPersonNameOrEmail attr)
         | RelOther related_model =>
           raise (NotImplementedError
                    ("Sorting by {model.__name__} is " +:+
                     "not implemented yet.")
                    [VStr related_model])
         | Scalar => mret (None, OrdAttr attr)
         end
       end);
  desc ← lift (py_get clause "desc" (VBool false));
  mret (OrderItem join order (py_truthy desc)).

Definition _apply_order_by (model : pyclass) (query : list obj)
    (order_by : value) : Py (list obj) :=
  clauses ← lift (py_iter order_by);
  items ← mapM (join_and_order model) clauses;
  match items with
  | [] => raise ValueError
  | _ => mret (db_order_by items query)
  end.

(** ** Pagination *)

(** What [_get_objects] returns: the empty [set()] or a list. *)
Inductive objects :=
| EmptySet
| ObjList (l : list obj).

(** A bound of a slice: [None] or an integer. *)
Definition slice_index (v : value) : result (option Z) :=
  match v with
  | VNone => Ok None
  | VInt z => Ok (Some z)
  | VBool b => Ok (Some (if b then 1 else 0))
  | VStr _ | VDate _ _ _ | VList _ | VDict _ => Raise TypeError
  end.

(** Python's clamping of a slice bound to a sequence of length [n]. *)
Definition clamp (n : Z) (dflt : Z) (i : option Z) : Z :=
  match i with
  | None => dflt
  | Some z => if z <? 0 then Z.max (z + n) 0 else Z.min z n
  end.

(** [l[from_:to_]] *)
Definition list_slice {A} (l : list A) (from_ to_ : option Z) : list A :=
  let n := Z.of_nat (length l) in
  let start := clamp n 0 from_ in
  let stop := clamp n n to_ in
  take (Z.to_nat (stop - start)) (drop (Z.to_nat start) l).

(** [from_, to_ = limit] *)
Definition unpack2 (limit : value) : result (value * value) :=
  items ← py_iter limit;
  match items with
  | [from_; to_] => Ok (from_, to_)
  | _ => Raise ValueError
  end.

(** [objects[from_:to_]]: a set has no subscript. *)
Definition objects_slice (objs : objects) (from_ to_ : value) : result objects :=
  match objs with
  | EmptySet => Raise TypeError
  | ObjList l =>
    a ← slice_index from_;
    b ← slice_index to_;
    Ok (ObjList (list_slice l a b))
  end.

Definition _apply_limit (objs : objects) (limit : value) : result objects :=
  if py_truthy limit then
    except_Exception
      ('(from_, to_) ← unpack2 limit; objects_slice objs from_ to_)
      (BadQueryException "Bad query: Invalid 'limit' parameter." [])
  else Ok objs.

(** ** Driver *)

(** The first part of [_get_objects]: [None] where it returns [set()],
    otherwise the rows of the local variable [query] when the permission
    checks begin. *)
Definition objects_query (query : list value) (object_query : value)
    : Py (option (list obj)) :=
  object_name ← lift (py_getitem object_query "object_name");
  filters ← lift (py_get object_query "filters" (VDict ∅));
  expression ← lift (py_get filters "expression" VNone);
  match expression with
  | VNone => mret None
  | _ =>
    object_class ← lift (object_map_getitem object_name);
    let rows := cls_query object_class in
    fields ← lift (py_get object_query "fields" (VList []));
    filter_expression ←
      _build_expression query expression object_class fields;
    rows ← match filter_expression with
           | PNone => mret rows
           | _ => lift (db_filter object_class filter_expression rows)
           end;
    order_by ← lift (py_get object_query "order_by" VNone);
    rows ← (if py_truthy order_by
            then _apply_order_by object_class rows order_by
            else mret rows);
    mret (Some rows)
  end.

Definition _get_objects (query : list value) (object_query : value)
    : Py objects :=
  rows ← objects_query query object_query;
  match rows with
  | None => mret EmptySet
  | Some rows =>
    requested_permissions ←
      lift (py_get object_query "permissions" (VStr "read"));
    if str_eq requested_permissions "update"
    then mret (ObjList (List.filter is_allowed_update_for rows))
    else mret (ObjList (List.filter is_allowed_read_for rows))
  end.

(** [[o.id for o in objects]] *)
Definition ids_of (objs : objects) : list Z :=
  match objs with
  | EmptySet => []
  | ObjList l => obj_id <$> l
  end.

(** The loop of [get_ids] over [self.query], which is [done ++ todo]:
    the entries of [done] carry their [ids] already. *)
Fixpoint get_ids_loop (done todo : list value) : Py (list value) :=
  match todo with
  | [] => mret done
  | object_query :: rest =>
    objs ← _get_objects (done ++ todo) object_query;
    limit ← lift (py_get object_query "limit" VNone);
    objs ← lift (_apply_limit objs limit);
    let object_query' :=
      py_setitem object_query "ids" (VList (VInt <$> ids_of objs)) in
    get_ids_loop (done ++ [object_query']) rest
  end.

Definition get_ids (query : list value) : Py (list value) :=
  get_ids_loop [] query.

End QueryHelper.


(** * A small store, used by the examples *)

Definition ex_getattr (owner : string) (names : list string) (key : string)
    : option pyattr :=
  if existsb (String.eqb key) names then Some (Attr owner key Scalar)
  else None.

(** [Program] declares a similarity query, [Facility] (see
    [src/ggrc/models/facility.py]) and [TaskGroupTask] declare none. *)
Definition ex_Program : pyclass :=
  PyClass "Program"
    (ex_getattr "Program" ["title"; "slug"; "start_date"; "end_date"])
    [Obj 1 ∅; Obj 2 ∅; Obj 3 ∅]
    (λ _, [])
    (Some (λ _ _, [(2, 10); (3, 5)]))
    {[ "title" := ("title", None); "code" := ("slug", None);
       "effective date" := ("start_date", None) ]}.

Definition ex_Facility : pyclass :=
  PyClass "Facility"
    (ex_getattr "Facility" ["title"; "slug"; "url"; "start_date"; "end_date"])
    [Obj 11 ∅; Obj 12 ∅]
    (λ _, [])
    None
    {[ "facility url" := ("url", None); "title" := ("title", None) ]}.

Definition ex_TaskGroupTask : pyclass :=
  PyClass "TaskGroupTask"
    (ex_getattr "TaskGroupTask"
       ["title"; "start_date"; "end_date";
        "relative_start_month"; "relative_start_day";
        "relative_end_month"; "relative_end_day"])
    [Obj 21 ∅]
    (λ _, [])
    None
    {[ "title" := ("title", None) ]}.

Definition ex_object_map : gmap string pyclass :=
  {[ "Program" := ex_Program; "Facility" := ex_Facility;
     "TaskGroupTask" := ex_TaskGroupTask ]}.

(** Relationships of the example store: every object is related to the
    objects whose id is ten more than one of [related_ids]. *)
Definition ex_get_ids_related_to (object_type : string)
    (related_type related_ids : value) : list Z :=
  match related_ids with
  | VList l =>
    omap (λ v, match v with VInt z => Some (z + 10) | _ => None end) l
  | _ => []
  end.

Definition ex_db_filter (object_class : pyclass) (clause : pyexpr)
    (rows : list obj) : result (list obj) :=
  match clause with
  | PIdIn ids => Ok (List.filter (λ o, bool_decide (obj_id o ∈ ids)) rows)
  | PExc _ => Raise ArgumentError
  | _ => Ok rows
  end.

Definition ex_db_order_by (items : list order_item) (rows : list obj)
    : list obj := rows.

Definition ex_is_allowed_read_for (o : obj) : bool := negb (obj_id o =? 2).
Definition ex_is_allowed_update_for (o : obj) : bool := obj_id o =? 1.

(** [QueryHelper(query).get_ids()] on the example store, [flask.g] being
    fresh. *)
Definition ex_run (query : list value) : result (list value) :=
  query' ← QueryHelper_init ex_object_map query;
  fst <$> get_ids ex_object_map ex_get_ids_related_to ex_db_filter
            ex_db_order_by ex_is_allowed_read_for ex_is_allowed_update_for
            query' (FlaskG None).

(** An expression leaf [{"op": {"name": op}, "left": left, "right": right}] *)
Definition leaf (op left_ : string) (right_ : value) : value :=
  VDict {[ "op" := VDict {[ "name" := VStr op ]};
           "left" := VStr left_; "right" := right_ ]}.

(** An object query with the given filter expression. *)
Definition object_query_of (object_name : string) (expression : value)
    : value :=
  VDict {[ "object_name" := VStr object_name;
           "filters" := VDict {[ "expression" := expression ]} ]}.

(** A batch of two object queries, the batch after [__init__] and the
    batch [get_ids] returns for it. *)
Definition ex_batch : list value :=
  [object_query_of "Program" (VDict {[ "left" := VStr "title" ]});
   VDict {[ "object_name" := VStr "Facility" ]}].

Definition ex_batch_clean : list value :=
  [object_query_of "Program"
     (VDict {[ "left" := VStr "title"; "ids" := VList [] ]});
   VDict {[ "object_name" := VStr "Facility" ]}].

Definition ex_batch_ids : list value :=
  [py_setitem
     (object_query_of "Program"
        (VDict {[ "left" := VStr "title"; "ids" := VList [] ]}))
     "ids" (VList [VInt 1; VInt 3]);
   VDict {[ "object_name" := VStr "Facility"; "ids" := VList [] ]}].

(** The entries of an object query of type [Program] whose expression
    has no operator. *)
Definition ex_no_op_query : gmap string value :=
  {[ "object_name" := VStr "Program";
     "filters" := VDict {[ "expression" := VDict {[ "left" := VStr "title" ]} ]} ]}.

(** The [ids] of the object queries of a batch. *)
Definition ids_fields (batch : result (list value))
    : result (list (result value)) :=
  match batch with
  | Ok l => Ok ((λ oq, py_getitem oq "ids") <$> l)
  | Raise e => Raise e
  end.

(** ** Notions used in the statements *)

(** A bound a slice accepts: [None] or an integer. *)
Definition slice_bound (v : value) : bool :=
  match v with
  | VNone | VInt _ | VBool _ => true
  | _ => false
  end.

(** The error of [_apply_limit]. *)
Definition bad_limit : exn :=
  BadQueryException "Bad query: Invalid 'limit' parameter." [].

(** The error of [autocast] on the field [o_key]. *)
Definition date_field_error (o_key : value) : exn :=
  BadQueryException
    ("Field " +:+ dquote +:+ "{}" +:+ dquote +:+ " expects a MM/DD/YYYY date")
    [o_key].

(** Ten rows, with the ids 0 to 9. *)
Definition ex_ten : list obj := (λ i, Obj i ∅) <$> seqZ 0 10.

(** An object query without filter expression: no [filters], or
    [filters] without [expression] or with the expression [None]. *)
Definition no_expression (q : gmap string value) : Prop :=
  q !! "filters" = None
  ∨ ∃ f, q !! "filters" = Some (VDict f)
         ∧ (f !! "expression" = None ∨ f !! "expression" = Some VNone).

(** The permission check [_get_objects] applies for the object query
    [q], [read] and [update] being the two checks. *)
Definition permission_check (read update : obj → bool)
    (q : gmap string value) : obj → bool :=
  if str_eq (default (VStr "read") (q !! "permissions")) "update"
  then update else read.

(** Whether the operator of the dictionary [d] is [AND] or [OR]. *)
Definition and_or_node (d : gmap string value) : bool :=
  match d !! "op" with
  | Some (VDict o) =>
    match o !! "name" with
    | Some operator => is_and_or operator
    | None => false
    end
  | _ => false
  end.

(** The operand reached from the expression [e] by the path [p] through
    nodes [AND] and [OR]: [false] descends into [left], [true] into
    [right]. *)
Fixpoint operand_at (p : list bool) (e : value) : option value :=
  match p with
  | [] => Some e
  | b :: p' =>
    match e with
    | VDict d =>
      if and_or_node d
      then d !! (if b : bool then "right" else "left") ≫= operand_at p'
      else None
    | _ => None
    end
  end.

(** A leaf on the key [start] or [end], with an operator other than
    [AND] and [OR] and a string on its right-hand side. *)
Definition task_date_leaf (d : gmap string value) (operator : value)
    (key s : string) : Prop :=
  (∃ o : gmap string value,
     d !! "op" = Some (VDict o) ∧ o !! "name" = Some operator)
  ∧ is_and_or operator = false
  ∧ d !! "left" = Some (VStr key)
  ∧ (key = "start" ∨ key = "end")
  ∧ d !! "right" = Some (VStr s).

(** The operands that [expand_task_dates] visits before the operand at
    the path [p] expand: the left operand of every node where the path
    turns right. *)
Definition left_operands_expand (p : list bool) (e : value) : Prop :=
  ∀ p1 p2, p = p1 ++ true :: p2 →
    ∃ l l', operand_at (p1 ++ [false]) e = Some l
            ∧ expand_task_dates l = Ok l'.

(** An expression with two leaves, on [end] and on [start]. *)
Definition ex_task_expression (right_ : string) : value :=
  VDict {[ "op" := VDict {[ "name" := VStr "AND" ]};
           "left" := leaf "<" "end" (VStr "12/31");
           "right" := leaf "=" "start" (VStr right_) ]}.

(** The comparison operators of [ops], and the clause each builds from
    the attribute [a] and the literal [v]. *)
Definition comparison_operators : list string :=
  ["="; "!="; "~"; "!~"; "<"; ">"].

Definition comparison_clause (s : string) (a : pyattr) (v : value) : pyexpr :=
  if String.eqb s "=" then PEq a v
  else if String.eqb s "!=" then PNot (PEq a v)
  else if String.eqb s "~" then PILike a v
  else if String.eqb s "!~" then PNot (PILike a v)
  else if String.eqb s "<" then PLt a v
  else PGt a v.



(** A day of the calendar [datetime.date] accepts. *)
Definition valid_date (year month day : Z) : Prop :=
  1 ≤ year ≤ 9999 ∧ 1 ≤ month ≤ 12 ∧ 1 ≤ day ≤ days_in_month year month.

(** The clause of the comparison operators [=], [<] and [>]. *)
Definition comparison (s : string) : pyattr → value → pyexpr :=
  if String.eqb s "=" then PEq else if String.eqb s "<" then PLt else PGt.


(** The ids [get_ids] may store for the object query [q]: each is the id
    of a row that the query of [q] selected, at some state of the batch,
    and that the permission check of [q] accepts. *)
Definition permitted_ids (object_map : gmap string pyclass)
    (get_ids_related_to : string → value → value → list Z)
    (db_filter : pyclass → pyexpr → list obj → result (list obj))
    (db_order_by : list order_item → list obj → list obj)
    (read update : obj → bool)
    (q : gmap string value) (ids : list Z) : Prop :=
  ∀ z, z ∈ ids →
    ∃ o rows query g g',
      objects_query object_map get_ids_related_to db_filter db_order_by
        query (VDict q) g = Ok (Some rows, g')
      ∧ o ∈ rows ∧ obj_id o = z ∧ permission_check read update q o = true.

(** A class whose slugs resolve: [MARKET-7] is the slug of the object 7,
    [MARKET-9] that of the object 9. *)
Definition ex_Market : pyclass :=
  PyClass "Market"
    (ex_getattr "Market" ["title"; "slug"])
    [Obj 7 ∅; Obj 9 ∅]
    (λ slugs,
       match slugs with
       | VList l =>
         omap (λ v, if str_eq v "MARKET-7" then Some 7
                    else if str_eq v "MARKET-9" then Some 9 else None) l
       | _ => []
       end)
    None
    {[ "title" := ("title", None); "code" := ("slug", None) ]}.

Definition ex_market_map : gmap string pyclass := {[ "Market" := ex_Market ]}.

(** The number of dictionaries nested in a value, a measure for
    induction on expression trees. *)
Fixpoint value_size (v : value) : nat :=
  match v with
  | VDict d => S (map_fold (λ _ n acc, (n + acc)%nat) 0%nat (value_size <$> d))
  | _ => 0%nat
  end.

(** Whether a node of the expression [e] carries slugs that
    [_clean_filters] would resolve. *)
Fixpoint has_slugs (e : value) : bool :=
  match e with
  | VDict d =>
    let below := has_slugs <$> d in
    py_truthy (default VNone (d !! "slugs"))
    || default false (below !! "left") || default false (below !! "right")
  | _ => false
  end.

(** ** [_set_attr_name_map]: the entry of one class *)

(** [v.lower()] *)
Definition py_lower (v : value) : result string :=
  match v with
  | VStr s => Ok (lower s)
  | _ => Raise AttributeError
  end.

(** [s in v] for a string literal [s] *)
Definition py_contains (s : string) (v : value) : result bool :=
  match v with
  | VDict d => Ok (bool_decide (is_Some (d !! s)))
  | VStr s' => Ok (str_contains s s')
  | VList l => Ok (existsb (λ x, str_eq x s) l)
  | VNone | VBool _ | VInt _ | VDate _ _ _ => Raise TypeError
  end.

(** [for x in l: s = f(s, x)] *)
Fixpoint for_each {A S} (f : S → A → result S) (s : S) (l : list A)
    : result S :=
  match l with
  | [] => Ok s
  | x :: l' => s' ← f s x; for_each f s' l'
  end.

Section AttrNameMap.

(** [getattr(object_class, filter_name, None)], where it is callable,
    and [CustomAttributeValue.mk_filter_by_custom(object_class,
    attr_id)], both outside this module. *)
Variable class_getattr : string → option custom_filter.
Variable mk_filter_by_custom : value → custom_filter.

(** The body of the loop over [aliases.items()]. *)
Definition alias_step (m : gmap string (string * option custom_filter))
    (item : string * value)
    : result (gmap string (string * option custom_filter)) :=
  let '(key, value_) := item in
  '(filter_by, value_) ←
    match value_ with
    | VDict _ =>
      filter_name ← py_get value_ "filter_by" VNone;
      filter_by ← match filter_name with
                  | VNone => Ok None
                  | VStr s => Ok (class_getattr s)
                  | _ => Raise TypeError
                  end;
      display_name ← py_getitem value_ "display_name";
      Ok (filter_by, display_name)
    | _ => Ok (None, value_)
    end;
  if py_truthy value_ then
    name ← py_lower value_;
    Ok (<[name := (lower key, filter_by)]> m)
  else Ok m.

(** The body of the loop over [custom_attrs.items()]. *)
Definition custom_attr_step (m : gmap string (string * option custom_filter))
    (item : string * value)
    : result (gmap string (string * option custom_filter)) :=
  let '(key, definition) := item in
  if negb (String.prefix "__custom__:" key) then Ok m else
  named ← py_contains "display_name" definition;
  if negb named then Ok m else
  match ids ← py_getitem definition "definition_ids"; py_first ids with
  | Raise KeyError => Ok m
  | Raise e => Raise e
  | Ok attr_id =>
    let filter_by := mk_filter_by_custom attr_id in
    display_name ← py_getitem definition "display_name";
    name ← py_lower display_name;
    Ok (<[name := (name, Some filter_by)]> m)
  end.

(** [self.attr_name_map[object_class]] as [_set_attr_name_map] fills it,
    from the items of [AttributeInfo.gather_aliases(object_class)] and of
    [AttributeInfo.get_custom_attr_definitions(object_class)] in the
    order the loops visit them. *)
Definition class_attr_name_map (ca_disabled : bool)
    (aliases custom_attrs : list (string * value))
    : result (gmap string (string * option custom_filter)) :=
  m ← for_each alias_step ∅ aliases;
  for_each custom_attr_step m (if ca_disabled then [] else custom_attrs).

End AttrNameMap.

(** A map all of whose display names and attribute names are in lower
    case. *)
Definition lower_case_map (m : gmap string (string * option custom_filter))
    : Prop :=
  ∀ name key filter_by,
    m !! name = Some (key, filter_by) → lower name = name ∧ lower key = key.

(** Aliases and custom attribute definitions of the examples: the alias
    of [url] is the one [src/ggrc/models/facility.py] declares. *)
Definition ex_aliases : list (string * value) :=
  [("url", VStr "Facility URL");
   ("title", VDict {[ "display_name" := VStr "Title" ]});
   ("notes", VNone);
   ("risk", VStr "Risk Level")].

Definition ex_custom_attrs : list (string * value) :=
  [("__custom__:3",
    VDict {[ "display_name" := VStr "Risk Level";
             "definition_ids" := VList [VInt 3] ]})].

Definition ex_class_getattr (name : string) : option custom_filter := None.

Definition ex_mk_filter_by_custom (attr_id : value) : custom_filter :=
  λ p, mret (PEq (Attr "CustomAttributeValue" "custom_attribute_id" Scalar)
               attr_id).

(** * Properties of the sanitizer *)

(** Case analysis on the first computation a hypothesis scrutinises. *)
Ltac case_match_hyp H :=
  match type of H with
  | context [@mbind result _ _ _ _ ?m] => destruct m eqn:?
  | context [match ?x with _ => _ end] => destruct x eqn:?
  | context [if ?x then _ else _] => destruct x eqn:?
  end.

Ltac inv_result H :=
  repeat (case_match_hyp H; cbn [mbind result_bind] in H; try discriminate H).

Lemma py_truthy_dict d : py_truthy (VDict d) = true ↔ d ≠ ∅.
Proof. cbn. case_decide; naive_solver. Qed.

(** ** Macro expansion of task dates *)

Lemma expression_keys_leaf (d o : gmap string value) operator left_ :
  d !! "op" = Some (VDict o) →
  o !! "name" = Some operator →
  is_and_or operator = false →
  d !! "left" = Some left_ →
  _expression_keys (VDict d) =
    Ok (match left_ with
        | VNone => []
        | _ => if py_hashable left_ then [left_] else []
        end).
Proof.
  intros Hop Hname Hao Hleft. cbn [_expression_keys py_get].
  rewrite Hop. cbn. rewrite Hname. cbn. rewrite Hao, Hleft. cbn.
  by destruct left_.
Qed.

(** On [AND] and [OR] the keys are those of both operands. *)
Lemma expression_keys_and_or (d o : gmap string value) operator :
  d !! "op" = Some (VDict o) →
  o !! "name" = Some operator →
  is_and_or operator = true →
  _expression_keys (VDict d) =
    l ← default (Raise KeyError) (_expression_keys <$> d !! "left");
    r ← default (Raise KeyError) (_expression_keys <$> d !! "right");
    Ok (l ++ r).
Proof.
  intros Hop Hname Hao. cbn [_expression_keys py_get].
  rewrite Hop. cbn [default from_option id mbind result_bind py_get].
  rewrite Hname. cbn [default from_option id mbind result_bind].
  by rewrite Hao, !lookup_fmap.
Qed.

(** On a node whose operator is [AND] or [OR] the expansion descends
    into both operands, left first. *)
Lemma expand_task_dates_and_or (d o : gmap string value) operator :
  d !! "op" = Some (VDict o) →
  o !! "name" = Some operator →
  is_and_or operator = true →
  expand_task_dates (VDict d) =
    left_ ← default (Raise KeyError) (expand_task_dates <$> d !! "left");
    right_ ← default (Raise KeyError) (expand_task_dates <$> d !! "right");
    Ok (VDict (<["right" := right_]> (<["left" := left_]> d))).
Proof.
  intros Hop Hname Hao. cbn [expand_task_dates].
  rewrite bool_decide_true by (rewrite Hop; eauto).
  cbn [py_getitem]. rewrite Hop. cbn [mbind result_bind py_getitem].
  rewrite Hname. cbn [mbind result_bind]. by rewrite Hao, !lookup_fmap.
Qed.

(** The rewrite of one leaf on [start] or [end], by the number of parts
    of its right-hand side. *)
Lemma expand_task_dates_leaf (d o : gmap string value) operator key s :
  d !! "op" = Some (VDict o) →
  o !! "name" = Some operator →
  is_and_or operator = false →
  d !! "left" = Some (VStr key) →
  key = "start" ∨ key = "end" →
  d !! "right" = Some (VStr s) →
  expand_task_dates (VDict d) =
    match split "/" s with
    | [m; dd; y] =>
      mdy ← except_Exception (mapM py_int [VStr m; VStr dd; VStr y])
               (BadQueryException "Date must consist of numbers" []);
      match mdy with
      | [month; day; year] =>
        d' ← date year month day;
        Ok (VDict (<["right" := d']> (<["left" := VStr (key +:+ "_date")]> d)))
      | _ => Raise ValueError
      end
    | [month; day] =>
      Ok (VDict
        (<["right" := relative_leaf operator
                        ("relative_" +:+ key +:+ "_day") day]>
        (<["left" := relative_leaf operator
                        ("relative_" +:+ key +:+ "_month") month]>
        (<["op" := VDict {[ "name" := VStr "AND" ]}]> d))))
    | [_] => Ok (VDict (<["left" := VStr ("relative_" +:+ key +:+ "_day")]> d))
    | _ =>
      Raise (BadQueryException
               ("Field {} should be a date of one of the" +:+
                " following forms: DD, MM/DD, MM/DD/YYYY") [VStr key])
    end.
Proof.
  intros Hop Hname Hao Hleft Hkey Hright. cbn [expand_task_dates].
  rewrite bool_decide_true by (rewrite Hop; eauto).
  cbn [py_getitem]. rewrite Hop. cbn. rewrite Hname. cbn.
  rewrite Hao, Hleft. cbn.
  assert ((key =? "start")%string || (key =? "end")%string = true) as ->.
  { destruct Hkey as [-> | ->]; reflexivity. }
  rewrite Hright. cbn.
  destruct (split "/" s) as [|p1 [|p2 [|p3 [|p4 ps]]]]; reflexivity.
Qed.

(** A [TaskGroupTask] query whose expression is one leaf on [start] or
    [end] is expanded. *)
Lemma macro_expand_leaf (q f d o : gmap string value) operator key :
  q !! "object_name" = Some (VStr "TaskGroupTask") →
  d !! "op" = Some (VDict o) →
  o !! "name" = Some operator →
  is_and_or operator = false →
  d !! "left" = Some (VStr key) →
  key = "start" ∨ key = "end" →
  _macro_expand_object_query
    (VDict (<["filters" := VDict (<["expression" := VDict d]> f)]> q)) =
  exp' ← expand_task_dates (VDict d);
  Ok (VDict (<["filters" := VDict (<["expression" := exp']> f)]> q)).
Proof.
  intros Hq Hop Hname Hao Hleft Hkey.
  unfold _macro_expand_object_query. cbn [py_getitem py_get].
  rewrite (lookup_insert_ne _ "filters" "object_name"), Hq by done.
  rewrite lookup_insert_eq.
  cbn [mbind result_bind str_eq String.eqb Ascii.eqb Bool.eqb default
       from_option id py_getitem py_setitem].
  rewrite lookup_insert_eq. cbn [mbind result_bind].
  rewrite (expression_keys_leaf d o operator (VStr key)) by done.
  cbn [mbind result_bind py_hashable].
  assert (key_in "start" [VStr key] || key_in "end" [VStr key] = true) as ->.
  { destruct Hkey as [-> | ->]; reflexivity. }
  destruct (expand_task_dates (VDict d)) as [exp'|e]; cbn; [|done].
  by rewrite !insert_insert_eq.
Qed.

(** ** Coercion of identifiers *)

Section Sanitizer.

Variable object_map : gmap string pyclass.

(** The equation [_clean_filters] satisfies on a dictionary. *)
Lemma _clean_filters_unfold d :
  _clean_filters object_map (VDict d) =
    if negb (py_truthy (VDict d)) then Ok (VDict d) else
    d1 ← resolve_slugs object_map d;
    ints ← coerce_ids d1;
    let d2 := <["ids" := VList (VInt <$> ints)]> d1 in
    d3 ← match _clean_filters object_map <$> d !! "left" with
         | Some r => left_ ← r; Ok (<["left" := left_]> d2)
         | None => Ok d2
         end;
    d4 ← match _clean_filters object_map <$> d !! "right" with
         | Some r => right_ ← r; Ok (<["right" := right_]> d3)
         | None => Ok d3
         end;
    Ok (VDict d4).
Proof. cbn [_clean_filters]. by rewrite !lookup_fmap. Qed.

Lemma resolve_slugs_lookup d d1 k :
  resolve_slugs object_map d = Ok d1 → k ≠ "ids" → d1 !! k = d !! k.
Proof.
  unfold resolve_slugs. intros H Hk.
  cbv zeta in H. inv_result H; simplify_eq; try done.
  all: by rewrite lookup_insert_ne.
Qed.

(** What a successful call on a non-empty dictionary returns. *)
Lemma _clean_filters_Ok d e' :
  d ≠ ∅ →
  _clean_filters object_map (VDict d) = Ok e' →
  ∃ d1 ints d',
    e' = VDict d' ∧ resolve_slugs object_map d = Ok d1 ∧ coerce_ids d1 = Ok ints ∧
    d' !! "ids" = Some (VList (VInt <$> ints)) ∧
    (∀ k, k = "left" ∨ k = "right" →
       match d !! k with
       | Some c => ∃ c', _clean_filters object_map c = Ok c' ∧ d' !! k = Some c'
       | None => d' !! k = None
       end) ∧
    (∀ k, k ≠ "ids" → k ≠ "left" → k ≠ "right" → d' !! k = d !! k).
Proof.
  intros Hd. rewrite _clean_filters_unfold.
  apply py_truthy_dict in Hd as ->. cbn [negb].
  destruct (resolve_slugs object_map d) as [d1|] eqn:Hd1; [|done]. cbn [mbind result_bind].
  destruct (coerce_ids d1) as [ints|] eqn:Hints; [|done]. cbn [mbind result_bind].
  pose proof (resolve_slugs_lookup d d1 "left" Hd1 ltac:(done)) as Hl.
  pose proof (resolve_slugs_lookup d d1 "right" Hd1 ltac:(done)) as Hr.
  intros H. exists d1, ints.
  destruct (d !! "left") as [l|] eqn:Hdl; cbn in H;
    [destruct (_clean_filters object_map l) as [l'|] eqn:Hcl; [|done]|];
    (destruct (d !! "right") as [r|] eqn:Hdr; cbn in H;
     [destruct (_clean_filters object_map r) as [r'|] eqn:Hcr; [|done]|]);
    cbn in H; simplify_eq; eexists; (split; [done|]); (split; [done|]);
    (split; [done|]);
    (split; [by rewrite ?lookup_insert_ne, lookup_insert_eq by done|]);
    (split; [intros k [-> | ->]; rewrite ?Hdl, ?Hdr; eauto;
               try eexists; try split; try done;
               rewrite ?lookup_insert_eq, ?lookup_insert_ne, ?lookup_insert_eq by done; try done
            | intros k ???; rewrite !lookup_insert_ne by done;
              by apply resolve_slugs_lookup]).
Qed.







End Sanitizer.

(** [int] on the strings of a request: an Arabic-Indic digit three, a
    thin space and a full-width digit are read; the letter [x] is an
    invalid literal, a CJK ideograph cannot be encoded. *)
Lemma int_of_unicode :
  int_of_str (String "217" (String "163" "")) = Some 3
  ∧ int_of_str (String "226" (String "128" (String "137"
      (String "239" (String "188" (String "151" "")))))) = Some 7
  ∧ int_of_str " -12 " = Some (-12)
  ∧ py_int (VStr "x") = Raise ValueError
  ∧ py_int (VStr "1.5") = Raise ValueError
  ∧ py_int (VStr (String "228" (String "184" (String "173" "")))) =
      Raise UnicodeEncodeError.
Proof. repeat split; vm_compute; reflexivity. Qed.



(** * Properties of pagination *)

Lemma slice_index_bound v :
  slice_bound v = false → slice_index v = Raise TypeError.
Proof. by destruct v. Qed.

Lemma list_slice_lookup {A} (l : list A) (i j k : nat) :
  (i ≤ j)%nat →
  list_slice l (Some (Z.of_nat i)) (Some (Z.of_nat j)) !! k =
    if decide (k < j - i)%nat then l !! (i + k)%nat else None.
Proof.
  intros Hij. unfold list_slice, clamp.
  destruct (Z.ltb_spec (Z.of_nat i) 0); [lia|].
  destruct (Z.ltb_spec (Z.of_nat j) 0); [lia|].
  set (n := length l).
  replace (Z.to_nat (Z.of_nat i `min` Z.of_nat n)) with (i `min` n)%nat by lia.
  replace (Z.to_nat (Z.of_nat j `min` Z.of_nat n - Z.of_nat i `min` Z.of_nat n))
    with (j `min` n - i `min` n)%nat by lia.
  case_decide as Hk.
  - destruct (decide (i + k < n)%nat) as [Hn|Hn].
    + rewrite lookup_take_lt by lia. rewrite lookup_drop. f_equal. lia.
    + rewrite lookup_take_ge by lia. symmetry. apply lookup_ge_None_2. unfold n in *. lia.
  - apply lookup_take_ge. lia.
Qed.

Lemma apply_limit_unfit (objs : objects) (items : list value) :
  Forall (λ v, slice_bound v = false) items →
  except_Exception
    ('(from_, to_) ← match items with
                     | [from_; to_] => Ok (from_, to_)
                     | _ => Raise ValueError
                     end;
     objects_slice objs from_ to_) bad_limit = Raise bad_limit.
Proof.
  intros H. destruct items as [|a [|b [|c items]]]; try done.
  cbn. destruct objs; [done|]. cbn.
  inversion H as [|?? Ha _]; subst. by rewrite (slice_index_bound a).
Qed.

(** C7, as amended.  On a list of results, a limit of two integers
    [[from, to]] gives Python's slice [results[from:to]], which for
    [0 <= from <= to] holds exactly the elements at the positions [from]
    to [to - 1] that exist, in order; a limit that is false in a
    condition (absent, [None], the empty list, 0) returns the results
    unchanged, whatever they are; every other limit that is not a list
    of exactly two slice bounds (integers or [None]) raises
    [BadQueryException].  *)
Theorem C7_apply_limit (l : list obj) :
  (∀ from_ to_,
     _apply_limit (ObjList l) (VList [VInt from_; VInt to_]) =
       Ok (ObjList (list_slice l (Some from_) (Some to_))))
  ∧ (∀ i j k : nat, (i ≤ j)%nat →
       list_slice l (Some (Z.of_nat i)) (Some (Z.of_nat j)) !! k =
         if decide (k < j - i)%nat then l !! (i + k)%nat else None)
  ∧ (∀ objs limit, py_truthy limit = false → _apply_limit objs limit = Ok objs)
  ∧ (∀ limit,
       py_truthy limit = true →
       (∀ a b, limit = VList [a; b] → slice_bound a && slice_bound b = false) →
       _apply_limit (ObjList l) limit = Raise bad_limit).
Proof.
  split; [done|]. split; [apply list_slice_lookup|].
  split.
  { intros objs limit H. unfold _apply_limit. by rewrite H. }
  intros limit Ht Hbad. unfold _apply_limit. rewrite Ht. unfold unpack2.
  destruct limit as [| | | s | | items | d]; try done.
  - cbn [py_iter mbind result_bind].
    apply (apply_limit_unfit (ObjList l)).
    apply Forall_fmap, Forall_forall. by intros.
  - cbn [py_iter mbind result_bind].
    destruct items as [|a [|b [|c items]]]; try done.
    specialize (Hbad a b eq_refl). cbn.
    destruct (slice_index a) eqn:Ha; [|done]. cbn.
    destruct (slice_index b) eqn:Hb; [|done].
    destruct a, b; done.
  - cbn [py_iter mbind result_bind].
    apply (apply_limit_unfit (ObjList l)).
    apply Forall_fmap, Forall_forall. by intros.
Qed.

(** C7, as stated, fails: the empty list has not two elements and
    [[None, None]] holds no number, yet neither limit raises. *)
Lemma C7_counterexample :
  _apply_limit (ObjList ex_ten) (VList []) = Ok (ObjList ex_ten)
  ∧ _apply_limit (ObjList ex_ten) (VList [VNone; VNone]) = Ok (ObjList ex_ten)
  ∧ _apply_limit (ObjList ex_ten) (VList []) ≠ Raise bad_limit.
Proof. by vm_compute. Qed.

Lemma C7_apply_limit_witness :
  _apply_limit (ObjList ex_ten) (VList [VInt 2; VInt 5]) =
    Ok (ObjList [Obj 2 ∅; Obj 3 ∅; Obj 4 ∅])
  ∧ list_slice ex_ten (Some 2) (Some 5) !! 1%nat = ex_ten !! 3%nat
  ∧ _apply_limit (ObjList ex_ten) VNone = Ok (ObjList ex_ten)
  ∧ _apply_limit (ObjList ex_ten) (VList [VInt 2]) = Raise bad_limit
  ∧ _apply_limit (ObjList ex_ten) (VList [VInt 2; VStr "5"]) = Raise bad_limit.
Proof.
  destruct (C7_apply_limit ex_ten) as (Hslice & Hpos & Hfalse & Hbad).
  split; [by rewrite Hslice|].
  split; [apply (Hpos 2%nat 5%nat 1%nat); lia|].
  split; [apply Hfalse; reflexivity|].
  split; apply Hbad; try reflexivity; intros a b [=]; by subst.
Defined.

(** * Properties of the expression compiler *)

(** ** Date literals *)

(** On a date field [autocast] returns a date or raises the
    [BadQueryException] of the field: every exception of the parse and of
    the date constructor is caught. *)
Lemma autocast_date_field (object_class : pyclass) (o_key : string) v :
  date_key (attr_name_map_get object_class o_key).1 = true →
  (∃ y m d, autocast object_class (VStr o_key) v = Ok (VDate y m d))
  ∨ autocast object_class (VStr o_key) v =
      Raise (date_field_error (VStr o_key)).
Proof.
  intros Hkey. unfold autocast. rewrite Hkey.
  destruct v as [| | | s | y m d | |]; try (right; reflexivity).
  - unfold parse_date. cbn [mbind result_bind].
    destruct (mapM py_int (VStr <$> split "/" s)) as [ints|]; [|by right].
    cbn [mbind result_bind].
    destruct ints as [|m [|d [|y [|]]]]; try (right; reflexivity).
    destruct (date y m d) as [date_|] eqn:Hdate; [|by right].
    left. unfold date in Hdate. repeat case_match; simplify_eq; eauto.
  - left; eauto.
Qed.

(** ** Operators *)

Section Compiler.
Variable object_map : gmap string pyclass.
Variable get_ids_related_to : string → value → value → list Z.

Lemma Py_bind_lift_Ok {A B} (a : A) (f : A → Py B) :
  lift (Ok a) ≫= f = f a.
Proof. reflexivity. Qed.

(** An expression without [op] compiles to [None]. *)
Lemma build_expression_no_op query d object_class fields :
  d !! "op" = None →
  _build_expression object_map get_ids_related_to query (VDict d)
    object_class fields = mret PNone.
Proof.
  intros Hop. cbn [_build_expression].
  rewrite bool_decide_false; [done|]. rewrite Hop. by intros [].
Qed.

(** [AND] and [OR] compile both operands, the left one first, and
    combine the two clauses. *)
Lemma build_expression_and_or query (d o : gmap string value) s
    object_class fields :
  d !! "op" = Some (VDict o) →
  o !! "name" = Some (VStr s) →
  s = "AND" ∨ s = "OR" →
  let build e :=
    _build_expression object_map get_ids_related_to query e
      object_class fields in
  build (VDict d) =
    l ← default (raise KeyError) (build <$> d !! "left");
    r ← default (raise KeyError) (build <$> d !! "right");
    mret ((if String.eqb s "AND" then PAnd else POr) [l; r]).
Proof.
  intros Hop Hname Hs build. unfold build. cbn [_build_expression].
  rewrite bool_decide_true by (rewrite Hop; eauto).
  cbn [py_getitem]. rewrite Hop. rewrite Py_bind_lift_Ok.
  cbn [py_getitem]. rewrite Hname. rewrite Py_bind_lift_Ok.
  rewrite !lookup_fmap. by destruct Hs as [-> | ->].
Qed.
(** The dispatch on the operator names [similar] and [relevant]. *)
Lemma build_expression_similar query (d o : gmap string value) object_class fields :
  d !! "op" = Some (VDict o) →
  o !! "name" = Some (VStr "similar") →
  _build_expression object_map get_ids_related_to query (VDict d)
    object_class fields = similar object_map (VDict d) object_class.
Proof.
  intros Hop Hname. cbn [_build_expression].
  rewrite bool_decide_true by (rewrite Hop; eauto).
  cbn [py_getitem]. rewrite Hop. rewrite Py_bind_lift_Ok.
  cbn [py_getitem]. rewrite Hname. rewrite Py_bind_lift_Ok.
  reflexivity.
Qed.

Lemma build_expression_relevant query (d o : gmap string value) object_class fields :
  d !! "op" = Some (VDict o) →
  o !! "name" = Some (VStr "relevant") →
  _build_expression object_map get_ids_related_to query (VDict d)
    object_class fields =
  lift (relevant get_ids_related_to query (VDict d) object_class).
Proof.
  intros Hop Hname. cbn [_build_expression].
  rewrite bool_decide_true by (rewrite Hop; eauto).
  cbn [py_getitem]. rewrite Hop. rewrite Py_bind_lift_Ok.
  cbn [py_getitem]. rewrite Hname. rewrite Py_bind_lift_Ok.
  reflexivity.
Qed.

(** Without [get_similar_objects_query] on the class, [similar]
    returns an instance of [BadQueryException]: nothing is raised. *)
Lemma similar_no_contract (d : gmap string value) name similar_class object_class g :
  d !! "object_name" = Some (VStr name) →
  object_map !! name = Some similar_class →
  get_similar_objects_query similar_class = None →
  similar object_map (VDict d) object_class g =
    Ok (PExc (BadQueryException
                ("{} does not define weights to count " +:+
                 "relationships similarity")
                [VStr (cls_name similar_class)]), g).
Proof.
  intros Hn Hc Hs. unfold similar. cbn [py_getitem]. rewrite Hn.
  rewrite Py_bind_lift_Ok. unfold object_map_getitem, object_map_get.
  cbn [mbind result_bind]. rewrite Hc. rewrite Py_bind_lift_Ok. by rewrite Hs.
Qed.

(** [relevant] on the marker [__previous__]. *)
Lemma relevant_previous query (d q : gmap string value) (i : nat) rest
    object_class related_type related_ids :
  d !! "object_name" = Some (VStr "__previous__") →
  d !! "ids" = Some (VList (VInt (Z.of_nat i) :: rest)) →
  query !! i = Some (VDict q) →
  q !! "object_name" = Some related_type →
  q !! "ids" = Some related_ids →
  relevant get_ids_related_to query (VDict d) object_class =
    Ok (PIdIn (get_ids_related_to (cls_name object_class)
                 related_type related_ids)).
Proof.
  intros Hn Hids Hq Ht Hi. unfold relevant. cbn [py_getitem].
  rewrite Hn. cbn [mbind result_bind str_eq].
  change (String.eqb "__previous__" "__previous__") with true. cbv iota.
  rewrite Hids. cbn [mbind result_bind py_first].
  unfold list_getitem.
  destruct (Z.ltb_spec (Z.of_nat i) 0); [lia|].
  apply lookup_lt_Some in Hq as Hlt.
  destruct (Z.leb_spec 0 (Z.of_nat i)); [|lia].
  destruct (Z.ltb_spec (Z.of_nat i) (Z.of_nat (length query))); [|lia].
  cbn [andb]. rewrite Nat2Z.id, Hq. cbn [mbind result_bind py_getitem].
  rewrite Ht. cbn [mbind result_bind]. by rewrite Hi.
Qed.

(** The comparison [=] on a field without custom filter compares the
    attribute with the literal [autocast] returns. *)
Lemma build_expression_eq query (d o : gmap string value) k v key a
    object_class fields g :
  d !! "op" = Some (VDict o) →
  o !! "name" = Some (VStr "=") →
  d !! "left" = Some (VStr k) →
  d !! "right" = Some v →
  attr_name_map_get object_class (lower k) = (key, None) →
  cls_getattr object_class key = Some a →
  _build_expression object_map get_ids_related_to query (VDict d)
    object_class fields g =
    match autocast object_class (VStr k) v with
    | Ok v' => Ok (PEq a v', g)
    | Raise e => Raise e
    end.
Proof.
  intros Hop Hname Hl Hr Hmap Hattr. cbn [_build_expression].
  rewrite bool_decide_true by (rewrite Hop; eauto).
  cbn [py_getitem]. rewrite Hop. rewrite Py_bind_lift_Ok.
  cbn [py_getitem]. rewrite Hname. rewrite Py_bind_lift_Ok.
  change (String.eqb "=" "AND") with false.
  change (String.eqb "=" "OR") with false.
  change (String.eqb "=" "=") with true. cbv iota.
  rewrite Hl. rewrite Py_bind_lift_Ok. unfold with_key.
  rewrite Hmap, Hattr, Hr. cbn [mbind result_bind].
  unfold mbind, Py_bind, lift.
  by destruct (autocast object_class (VStr k) v).
Qed.

(** So the comparison of a date field with ["2/30/2020"] fails with
    the [BadQueryException] of [autocast]. *)
Lemma comparison_on_date_field query (d o : gmap string value) k key a
    object_class fields g :
  d !! "op" = Some (VDict o) →
  o !! "name" = Some (VStr "=") →
  d !! "left" = Some (VStr k) →
  d !! "right" = Some (VStr "2/30/2020") →
  attr_name_map_get object_class (lower k) = (key, None) →
  cls_getattr object_class key = Some a →
  date_key (attr_name_map_get object_class k).1 = true →
  _build_expression object_map get_ids_related_to query (VDict d)
    object_class fields g = Raise (date_field_error (VStr k)).
Proof.
  intros Hop Hname Hl Hr Hmap Hattr Hdate.
  rewrite (build_expression_eq query d o k (VStr "2/30/2020") key a) by done.
  unfold autocast. by rewrite Hdate.
Qed.
(** Each comparison operator, on a field without custom filter,
    builds its clause from the attribute and the literal [autocast]
    returns. *)
Lemma build_expression_comparison query (d o : gmap string value) s k v key a
    object_class fields g :
  d !! "op" = Some (VDict o) →
  o !! "name" = Some (VStr s) →
  s ∈ comparison_operators →
  d !! "left" = Some (VStr k) →
  d !! "right" = Some v →
  attr_name_map_get object_class (lower k) = (key, None) →
  cls_getattr object_class key = Some a →
  _build_expression object_map get_ids_related_to query (VDict d)
    object_class fields g =
    match autocast object_class (VStr k) v with
    | Ok v' => Ok (comparison_clause s a v', g)
    | Raise e => Raise e
    end.
Proof.
  intros Hop Hname Hs Hl Hr Hmap Hattr. cbn [_build_expression].
  rewrite bool_decide_true by (rewrite Hop; eauto).
  cbn [py_getitem]. rewrite Hop. rewrite Py_bind_lift_Ok.
  cbn [py_getitem]. rewrite Hname. rewrite Py_bind_lift_Ok.
  rewrite Hl, Hr. unfold comparison_operators in Hs.
  repeat (apply elem_of_cons in Hs as [->|Hs]);
    [| | | | | |by apply elem_of_nil in Hs];
    simpl (String.eqb _ _); cbv iota;
    unfold comparison_clause; simpl (String.eqb _ _); cbv iota;
    unfold with_key, mbind, Py_bind, result_bind, lift, mret, Py_ret;
    rewrite Hmap, Hattr;
    by destruct (autocast object_class (VStr k) v).
Qed.

(** C2, as amended.  Let a comparison ([=], [!=], [~], [!~], [<] or [>])
    have a left field [k] that [with_key] resolves (in lower case, through
    the attribute name map, without custom filter) to the attribute [a],
    and that is a date field for [autocast], which looks [k] up as it is
    written.  Both ["02/30/2020"] and ["2/30/2020"] parse as month 2, day
    30 and year 2020, the date constructor rejects that day with a
    [ValueError], and since the construction lies inside the [try] of
    [autocast], with either literal the comparison fails with the
    [BadQueryException] of the field.  Whatever the right-hand side, the
    comparison compiles to a clause on a date or raises that exception:
    no error of the date constructor leaves a comparison. *)
Theorem C2_date_autocast query (d o : gmap string value) s k key a
    object_class fields g :
  d !! "op" = Some (VDict o) →
  o !! "name" = Some (VStr s) →
  s ∈ comparison_operators →
  d !! "left" = Some (VStr k) →
  attr_name_map_get object_class (lower k) = (key, None) →
  cls_getattr object_class key = Some a →
  date_key (attr_name_map_get object_class k).1 = true →
  let compile (right_ : value) :=
    _build_expression object_map get_ids_related_to query
      (VDict (<["right" := right_]> d)) object_class fields g in
  mapM py_int (VStr <$> split "/" "02/30/2020") = Ok [2; 30; 2020]
  ∧ mapM py_int (VStr <$> split "/" "2/30/2020") = Ok [2; 30; 2020]
  ∧ date 2020 2 30 = Raise ValueError
  ∧ compile (VStr "02/30/2020") = Raise (date_field_error (VStr k))
  ∧ compile (VStr "2/30/2020") = Raise (date_field_error (VStr k))
  ∧ ∀ v, (∃ year month day,
            compile v = Ok (comparison_clause s a (VDate year month day), g))
         ∨ compile v = Raise (date_field_error (VStr k)).
Proof.
  intros Hop Hname Hs Hl Hmap Hattr Hdate compile.
  assert (∀ v, compile v =
               match autocast object_class (VStr k) v with
               | Ok v' => Ok (comparison_clause s a v', g)
               | Raise e => Raise e
               end) as Hcompile.
  { intros v. unfold compile.
    apply (build_expression_comparison query _ o s k v key a); try done;
      by rewrite ?lookup_insert_eq, ?lookup_insert_ne by done. }
  do 3 (split; [vm_compute; reflexivity|]).
  split; [|split].
  - rewrite Hcompile. unfold autocast. by rewrite Hdate.
  - rewrite Hcompile. unfold autocast. by rewrite Hdate.
  - intros v. rewrite Hcompile.
    destruct (autocast_date_field object_class k v Hdate)
      as [(y & m & dd & ->)| ->]; [left; eauto|by right].
Qed.

(** C6.  A [relevant] leaf whose [object_name] is [__previous__] and whose
    first id is [i] compiles, whatever its own further entries, to the
    membership of the object's id in the ids that the relationship
    helper returns for the [object_name] and the [ids] of entry [i] of
    the batch: the [ids] that entry carries when the leaf is compiled,
    which [get_ids] has stored there when the entry comes earlier in the
    batch. *)
Theorem C6_relevant_previous query (d o q : gmap string value) (i : nat) rest
    object_class fields related_type related_ids g :
  d !! "op" = Some (VDict o) →
  o !! "name" = Some (VStr "relevant") →
  d !! "object_name" = Some (VStr "__previous__") →
  d !! "ids" = Some (VList (VInt (Z.of_nat i) :: rest)) →
  query !! i = Some (VDict q) →
  q !! "object_name" = Some related_type →
  q !! "ids" = Some related_ids →
  _build_expression object_map get_ids_related_to query (VDict d)
    object_class fields g =
    Ok (PIdIn (get_ids_related_to (cls_name object_class)
                 related_type related_ids), g).
Proof.
  intros Hop Hname Hn Hids Hq Ht Hi.
  rewrite (build_expression_relevant query d o) by done.
  by rewrite (relevant_previous query d q i rest object_class
                related_type related_ids).
Qed.

End Compiler.

(** C2, as stated, fails: on the date field [start_date] the comparison
    with ["2/30/2020"] does not fail with the error of the date
    constructor, the [ValueError] that the parse inside [autocast]
    raises, but with [BadQueryException]. *)
Lemma C2_counterexample :
  parse_date (VStr "2/30/2020") = Raise ValueError
  ∧ _build_expression ex_object_map ex_get_ids_related_to []
      (leaf "=" "start_date" (VStr "2/30/2020")) ex_Program (VList [])
      (FlaskG None) ≠ Raise ValueError
  ∧ _build_expression ex_object_map ex_get_ids_related_to []
      (leaf "=" "start_date" (VStr "2/30/2020")) ex_Program (VList [])
      (FlaskG None) = Raise (date_field_error (VStr "start_date")).
Proof. by vm_compute. Qed.

Lemma C2_date_autocast_witness :
  _build_expression ex_object_map ex_get_ids_related_to []
    (VDict (<["right" := VStr "02/30/2020"]>
              {[ "op" := VDict {[ "name" := VStr "<" ]};
                 "left" := VStr "effective date" ]}))
    ex_Program (VList []) (FlaskG None) =
    Raise (date_field_error (VStr "effective date"))
  ∧ _build_expression ex_object_map ex_get_ids_related_to []
      (VDict (<["right" := VStr "2/30/2020"]>
                {[ "op" := VDict {[ "name" := VStr "<" ]};
                   "left" := VStr "effective date" ]}))
      ex_Program (VList []) (FlaskG None) =
      Raise (date_field_error (VStr "effective date")).
Proof.
  destruct (C2_date_autocast ex_object_map ex_get_ids_related_to []
              {[ "op" := VDict {[ "name" := VStr "<" ]};
                 "left" := VStr "effective date" ]}
              {[ "name" := VStr "<" ]} "<" "effective date" "start_date"
              (Attr "Program" "start_date" Scalar) ex_Program (VList [])
              (FlaskG None))
    as (_ & _ & _ & H1 & H2 & _);
    [vm_compute; reflexivity | vm_compute; reflexivity
    | unfold comparison_operators; set_solver
    | vm_compute; reflexivity | vm_compute; reflexivity
    | vm_compute; reflexivity | vm_compute; reflexivity |].
  split; [exact H1 | exact H2].
Defined.


Lemma C6_relevant_previous_witness :
  _build_expression ex_object_map ex_get_ids_related_to
    [VDict {[ "object_name" := VStr "Program";
              "ids" := VList [VInt 1; VInt 3] ]}]
    (VDict {[ "op" := VDict {[ "name" := VStr "relevant" ]};
              "object_name" := VStr "__previous__";
              "ids" := VList [VInt 0] ]})
    ex_Facility (VList []) (FlaskG None) =
    Ok (PIdIn [11; 13], FlaskG None).
Proof.
  apply (C6_relevant_previous ex_object_map ex_get_ids_related_to _ _
           {[ "name" := VStr "relevant" ]}
           {[ "object_name" := VStr "Program";
              "ids" := VList [VInt 1; VInt 3] ]} 0 []
           ex_Facility (VList []) (VStr "Program")
           (VList [VInt 1; VInt 3]) (FlaskG None));
    vm_compute; reflexivity.
Defined.

(** The batch of the example above, run as a whole: the second query
    selects the facilities related to the programs the first one
    returned. *)
Lemma ex_run_previous :
  ex_run
    [object_query_of "Program" (VDict {[ "left" := VStr "title" ]});
     object_query_of "Facility"
       (VDict {[ "op" := VDict {[ "name" := VStr "relevant" ]};
                 "object_name" := VStr "__previous__";
                 "ids" := VList [VStr "0"] ]})] =
  Ok [py_setitem
        (object_query_of "Program"
           (VDict {[ "left" := VStr "title"; "ids" := VList [] ]}))
        "ids" (VList [VInt 1; VInt 3]);
      py_setitem
        (object_query_of "Facility"
           (VDict {[ "op" := VDict {[ "name" := VStr "relevant" ]};
                     "object_name" := VStr "__previous__";
                     "ids" := VList [VInt 0] ]}))
        "ids" (VList [VInt 11])].
Proof. vm_compute. reflexivity. Qed.

(** C1: the code does not raise.  A [similar] leaf on [Facility], which
    declares no [get_similar_objects_query], compiles to a value, the
    instance of [BadQueryException] that [similar] returns; the query
    then fails only where the store is handed that value as a clause,
    and not with [BadQueryException]. *)
Theorem C1_similar_returns_exception :
  let exp := VDict {[ "op" := VDict {[ "name" := VStr "similar" ]};
                      "object_name" := VStr "Facility";
                      "id" := VInt 1 ]} in
  let e := BadQueryException
             ("{} does not define weights to count " +:+
              "relationships similarity") [VStr "Facility"] in
  (∀ query g,
     _build_expression ex_object_map ex_get_ids_related_to query exp
       ex_Program (VList []) g = Ok (PExc e, g))
  ∧ (∀ query g,
     _build_expression ex_object_map ex_get_ids_related_to query exp
       ex_Program (VList []) g ≠ Raise e)
  ∧ ex_run [object_query_of "Program" exp] = Raise ArgumentError.
Proof.
  intros exp e.
  assert (∀ query g,
     _build_expression ex_object_map ex_get_ids_related_to query exp
       ex_Program (VList []) g = Ok (PExc e, g)) as H.
  { intros query g. unfold exp.
    rewrite (build_expression_similar _ _ _ _
               {[ "name" := VStr "similar" ]}) by (vm_compute; reflexivity).
    by rewrite (similar_no_contract _ _ "Facility" ex_Facility)
      by (vm_compute; reflexivity). }
  split; [exact H|]. split; [intros query g; by rewrite H|].
  vm_compute. reflexivity.
Qed.

(** * Properties of the driver *)

Lemma mapM_result_Forall2 {A B} (f : A → result B) l k :
  mapM f l = Ok k → Forall2 (λ x y, f x = Ok y) l k.
Proof.
  revert k. induction l as [|x l IH]; intros k H; cbn in H.
  - injection H as <-. constructor.
  - destruct (f x) as [y|] eqn:Hx; [|done]. cbn in H.
    destruct (mapM f l) as [k'|]; [|done]. cbn in H.
    injection H as <-. constructor; auto.
Qed.

Lemma no_expression_get q :
  no_expression q →
  py_get (default (VDict ∅) (q !! "filters")) "expression" VNone = Ok VNone.
Proof.
  intros [-> | (f & -> & [He | He])]; cbn; by rewrite ?lookup_empty, ?He.
Qed.

Section Driver.

Variable object_map : gmap string pyclass.
Variable get_ids_related_to : string → value → value → list Z.
Variable db_filter : pyclass → pyexpr → list obj → result (list obj).
Variable db_order_by : list order_item → list obj → list obj.
Variable is_allowed_read_for : obj → bool.
Variable is_allowed_update_for : obj → bool.

(** The functions of the driver, at the environment of this section. *)
Abbreviation objects_query' :=
  (objects_query object_map get_ids_related_to db_filter db_order_by).
Abbreviation _get_objects' :=
  (_get_objects object_map get_ids_related_to db_filter db_order_by
     is_allowed_read_for is_allowed_update_for).
Abbreviation get_ids_loop' :=
  (get_ids_loop object_map get_ids_related_to db_filter db_order_by
     is_allowed_read_for is_allowed_update_for).
Abbreviation get_ids' :=
  (get_ids object_map get_ids_related_to db_filter db_order_by
     is_allowed_read_for is_allowed_update_for).
Abbreviation permission_check' :=
  (permission_check is_allowed_read_for is_allowed_update_for).

Lemma Py_bind_Ok {A B} (m : Py A) (f : A → Py B) g a g' :
  m g = Ok (a, g') → (m ≫= f) g = f a g'.
Proof. intros H. unfold mbind, Py_bind. by rewrite H. Qed.

Lemma Py_bind_inv {A B} (m : Py A) (f : A → Py B) g b g' :
  (m ≫= f) g = Ok (b, g') → ∃ a g1, m g = Ok (a, g1) ∧ f a g1 = Ok (b, g').
Proof.
  unfold mbind, Py_bind. destruct (m g) as [[a g1]|]; [eauto|done].
Qed.

Lemma lift_inv {A} (r : result A) g a g' :
  lift r g = Ok (a, g') → r = Ok a ∧ g' = g.
Proof. destruct r; cbn; [|done]. by intros [= -> ->]. Qed.

(** Only a dictionary brings [objects_query] beyond its first line. *)
Lemma objects_query_dict query object_query g r :
  objects_query' query object_query g = Ok r → ∃ q, object_query = VDict q.
Proof.
  unfold objects_query. intros H.
  destruct r as [rows g']. apply Py_bind_inv in H as (a & g1 & H & _).
  apply lift_inv in H as [H _]. destruct object_query; try done. eauto.
Qed.

Lemma get_objects_dict query object_query g r :
  _get_objects' query object_query g = Ok r → ∃ q, object_query = VDict q.
Proof.
  unfold _get_objects. intros H. destruct r as [objs g'].
  apply Py_bind_inv in H as (a & g1 & H & _). by eapply objects_query_dict.
Qed.

Lemma get_ids_loop_Ok todo : ∀ done g res g',
  get_ids_loop' done todo g = Ok (res, g') →
  ∃ todo',
    res = done ++ todo' ∧
    Forall2 (λ oq oq', ∃ q ids,
               oq = VDict q ∧
               oq' = VDict (<["ids" := VList (VInt <$> ids)]> q)) todo todo'.
Proof.
  induction todo as [|oq todo IH]; intros done g res g' H; cbn in H.
  - injection H as <- <-. exists []. split; [by rewrite app_nil_r|constructor].
  - apply Py_bind_inv in H as (objs & g1 & Hobjs & H).
    apply Py_bind_inv in H as (limit & g2 & _ & H).
    apply Py_bind_inv in H as (objs' & g3 & _ & H).
    apply get_objects_dict in Hobjs as [q ->].
    apply IH in H as (todo' & -> & Htodo).
    exists (VDict (<["ids" := VList (VInt <$> ids_of objs')]> q) :: todo').
    split; [by rewrite <-app_assoc|]. constructor; eauto.
Qed.

Lemma clean_object_query_Ok object_query object_query' :
  clean_object_query object_map object_query = Ok object_query' →
  ∃ q q', object_query = VDict q ∧ object_query' = VDict q' ∧
          ∀ k, k ≠ "filters" → q' !! k = q !! k.
Proof.
  unfold clean_object_query. intros H.
  destruct object_query as [| | | | | |q]; try done.
  cbn [py_get mbind result_bind] in H.
  destruct (py_get _ "expression" _) as [expression|] eqn:He; [|done].
  cbn [mbind result_bind] in H.
  destruct (_clean_filters object_map expression) as [expression'|]; [|done].
  cbn [mbind result_bind] in H.
  set (oq1 := match expression with VDict _ => _ | _ => _ end) in H.
  assert (∃ q1, oq1 = VDict q1 ∧ ∀ k, k ≠ "filters" → q1 !! k = q !! k)
    as (q1 & -> & Hq1).
  { unfold oq1. destruct expression; cbn; eauto.
    eexists. split; [done|]. intros k ?. by rewrite lookup_insert_ne. }
  unfold _macro_expand_object_query in H.
  cbn [py_getitem py_get] in H.
  destruct (q1 !! "object_name") as [object_name|]; [|done].
  cbn [mbind result_bind] in H.
  destruct (str_eq object_name "TaskGroupTask"); [|simplify_eq; eauto].
  destruct (default VNone (q1 !! "filters")) eqn:Hf; try done;
    try (simplify_eq; by eauto);
    (destruct (py_getitem _ "expression") as [exp|]; [|done];
     cbn [mbind result_bind] in H;
     destruct (_expression_keys exp) as [keys|]; [|done];
     cbn [mbind result_bind] in H;
     destruct (_ || _); [|simplify_eq; by eauto];
     destruct (expand_task_dates exp) as [exp'|]; [|done];
     cbn [mbind result_bind py_setitem] in H; simplify_eq;
     eexists _, _; split; [done|]; split; [done|];
     intros k ?; by rewrite lookup_insert_ne, Hq1).
Qed.

(** C4.  When the helper is built from the batch [raw] and [get_ids]
    returns, the batch returned has as many object queries as [raw], and
    its entry [i] is entry [i] of [raw] (a dictionary; sanitizing touches
    only its [filters]) with [ids] set to a list of integers, possibly
    empty: no entry is dropped, added or moved. *)
Theorem C4_get_ids_preserves_batch raw query g query' g' :
  QueryHelper_init object_map raw = Ok query →
  get_ids' query g = Ok (query', g') →
  length query' = length raw ∧
  ∀ i oq, raw !! i = Some oq →
    ∃ q q1 ids,
      oq = VDict q ∧ query !! i = Some (VDict q1) ∧
      (∀ k, k ≠ "filters" → q1 !! k = q !! k) ∧
      query' !! i = Some (VDict (<["ids" := VList (VInt <$> ids)]> q1)).
Proof.
  unfold QueryHelper_init, _clean_query, get_ids. intros Hinit Hids.
  destruct (mapM _ raw) as [cleaned|] eqn:Hclean; [|done].
  cbn [mbind result_bind] in Hinit.
  destruct (_set_attr_name_map _ _); [|done]. cbn in Hinit. simplify_eq.
  apply mapM_result_Forall2 in Hclean.
  apply get_ids_loop_Ok in Hids as (todo' & -> & Hloop). cbn [app].
  split.
  { by rewrite <-(Forall2_length _ _ _ Hloop), (Forall2_length _ _ _ Hclean). }
  intros i oq Hi.
  destruct (Forall2_lookup_l _ _ _ _ _ Hclean Hi) as (oq1 & Hi1 & Hoq1).
  destruct (Forall2_lookup_l _ _ _ _ _ Hloop Hi1) as (oq' & Hi' & Hoq').
  apply clean_object_query_Ok in Hoq1 as (q & q1 & -> & -> & Hq1).
  destruct Hoq' as (q1' & ids & [= <-] & ->).
  by exists q, q1, ids.
Qed.

(** ** Queries without an expression, and without an operator *)

Lemma objects_query_no_expression query (q : gmap string value) object_name g :
  q !! "object_name" = Some object_name →
  py_get (default (VDict ∅) (q !! "filters")) "expression" VNone = Ok VNone →
  objects_query' query (VDict q) g = Ok (None, g).
Proof.
  intros Hn He. unfold objects_query. cbn [py_getitem py_get].
  rewrite Hn. by rewrite !Py_bind_lift_Ok, He.
Qed.

Lemma get_objects_no_expression query (q : gmap string value) g :
  is_Some (q !! "object_name") →
  no_expression q →
  _get_objects' query (VDict q) g = Ok (EmptySet, g).
Proof.
  intros [n Hn] He. unfold _get_objects.
  by rewrite (Py_bind_Ok _ _ _ _ _
                (objects_query_no_expression query q n g Hn
                   (no_expression_get q He))).
Qed.

Lemma apply_limit_set limit :
  py_truthy limit = true → _apply_limit EmptySet limit = Raise bad_limit.
Proof.
  intros Ht. unfold _apply_limit. rewrite Ht.
  destruct (unpack2 limit) as [[a b]|]; reflexivity.
Qed.

(** One turn of the loop of [get_ids] on a query without expression. *)
Lemma get_ids_loop_no_expression done (q : gmap string value) rest g :
  is_Some (q !! "object_name") →
  no_expression q →
  get_ids_loop' done (VDict q :: rest) g =
    if py_truthy (default VNone (q !! "limit")) then Raise bad_limit
    else get_ids_loop' (done ++ [VDict (<["ids" := VList []]> q)]) rest g.
Proof.
  intros Hn He. cbn [get_ids_loop].
  rewrite (Py_bind_Ok _ _ _ _ _ (get_objects_no_expression _ q g Hn He)).
  cbn [py_get]. rewrite Py_bind_lift_Ok.
  destruct (py_truthy _) eqn:Ht.
  - by rewrite (apply_limit_set _ Ht).
  - unfold _apply_limit. rewrite Ht. by rewrite Py_bind_lift_Ok.
Qed.

Lemma objects_query_no_op query (q f d : gmap string value) name
    object_class g :
  q !! "object_name" = Some (VStr name) →
  object_map !! name = Some object_class →
  q !! "filters" = Some (VDict f) →
  f !! "expression" = Some (VDict d) →
  d !! "op" = None →
  objects_query' query (VDict q) g =
    (rows ← (if py_truthy (default VNone (q !! "order_by"))
             then _apply_order_by db_order_by object_class
                    (cls_query object_class) (default VNone (q !! "order_by"))
             else mret (cls_query object_class));
     mret (Some rows)) g.
Proof.
  intros Hn Hc Hf He Hop. unfold objects_query.
  cbn [py_getitem py_get]. rewrite Hn, Hf. rewrite !Py_bind_lift_Ok.
  cbn [default from_option id py_get]. rewrite He. rewrite !Py_bind_lift_Ok.
  cbn [default from_option id].
  unfold object_map_getitem, object_map_get. cbn [mbind result_bind].
  rewrite Hc. rewrite !Py_bind_lift_Ok.
  rewrite build_expression_no_op by done.
  reflexivity.
Qed.

Lemma get_objects_permission query (q : gmap string value) g :
  _get_objects' query (VDict q) g =
    (rows ← objects_query' query (VDict q);
     match rows with
     | None => mret EmptySet
     | Some rows => mret (ObjList (List.filter (permission_check' q) rows))
     end) g.
Proof.
  unfold _get_objects, permission_check, mbind, Py_bind.
  destruct (objects_query' _ _ _) as [[[rows|] g']|]; try done.
  cbn. by destruct (str_eq _ _).
Qed.

Lemma objects_query_permissions query (q : gmap string value) p :
  objects_query' query (VDict (<["permissions" := p]> q)) =
    objects_query' query (VDict q)
  ∧ objects_query' query (VDict (delete "permissions" q)) =
    objects_query' query (VDict q).
Proof.
  unfold objects_query. cbn [py_getitem py_get].
  by rewrite !lookup_insert_ne, !lookup_delete_ne.
Qed.

Lemma str_eq_neq v s : v ≠ VStr s → str_eq v s = false.
Proof.
  intros H. destruct v; try done. cbn.
  destruct (String.eqb_spec s0 s); congruence.
Qed.

(** C10.  For every value [p] of [permissions] other than the string
    ["update"], and when [permissions] is absent, [_get_objects] does
    what it does for ["read"]; where [rows] are the rows the query
    selects before the permission checks, read mode keeps those
    [is_allowed_read_for] accepts and ["update"] keeps those
    [is_allowed_update_for] accepts. *)
Theorem C10_permissions query (q : gmap string value) p g :
  (p ≠ VStr "update" →
     _get_objects' query (VDict (<["permissions" := p]> q)) g =
       _get_objects' query (VDict (<["permissions" := VStr "read"]> q)) g)
  ∧ _get_objects' query (VDict (delete "permissions" q)) g =
      _get_objects' query (VDict (<["permissions" := VStr "read"]> q)) g
  ∧ ∀ rows g',
      objects_query' query (VDict q) g = Ok (Some rows, g') →
      _get_objects' query (VDict (<["permissions" := VStr "read"]> q)) g =
        Ok (ObjList (List.filter is_allowed_read_for rows), g')
      ∧ _get_objects' query (VDict (<["permissions" := VStr "update"]> q)) g =
        Ok (ObjList (List.filter is_allowed_update_for rows), g').
Proof.
  assert (∀ p', _get_objects' query (VDict (<["permissions" := p']> q)) g =
    (rows ← objects_query' query (VDict q);
     match rows with
     | None => mret EmptySet
     | Some rows =>
       mret (ObjList (List.filter
               (if str_eq p' "update" then is_allowed_update_for
                else is_allowed_read_for) rows))
     end) g) as Hins.
  { intros p'. rewrite get_objects_permission.
    rewrite (proj1 (objects_query_permissions query q p')).
    unfold permission_check. by rewrite lookup_insert_eq. }
  split; [|split].
  - intros Hp. rewrite !Hins. by rewrite (str_eq_neq p "update").
  - rewrite Hins, get_objects_permission.
    rewrite (proj2 (objects_query_permissions query q VNone)).
    unfold permission_check. by rewrite lookup_delete_eq.
  - intros rows g' Hrows. rewrite !Hins. unfold mbind, Py_bind.
    by rewrite Hrows.
Qed.

Lemma get_objects_no_op query (q f d : gmap string value) name
    object_class g :
  q !! "object_name" = Some (VStr name) →
  object_map !! name = Some object_class →
  q !! "filters" = Some (VDict f) →
  f !! "expression" = Some (VDict d) →
  d !! "op" = None →
  _get_objects' query (VDict q) g =
    (rows ← (if py_truthy (default VNone (q !! "order_by"))
             then _apply_order_by db_order_by object_class
                    (cls_query object_class) (default VNone (q !! "order_by"))
             else mret (cls_query object_class));
     mret (ObjList (List.filter (permission_check' q) rows))) g.
Proof.
  intros Hn Hc Hf He Hop.
  rewrite get_objects_permission. unfold mbind at 1, Py_bind at 1.
  rewrite (objects_query_no_op query q f d name object_class) by done.
  unfold mbind, Py_bind, mret, Py_ret.
  destruct (py_truthy _); [|done].
  by destruct (_apply_order_by _ _ _ _ g) as [[rows g']|].
Qed.

(** C9, as amended.  For an object query of a known type whose
    expression is a dictionary without [op]: the expression compiles to
    [None], no filter is applied, and the objects selected before
    pagination are those rows of the query of the type, ordered by
    [order_by] if one is given, that pass the permission check.  The
    [ids] stored for the query are the ids of these objects after
    [_apply_limit]: all of them when the limit is absent or false in a
    condition, those of the slice [[from:to]] of them when the limit is
    a pair of integers.  In contrast a query without expression selects
    nothing. *)
Theorem C9_expression_without_op query (q f d : gmap string value) name
    object_class fields done rest g :
  q !! "object_name" = Some (VStr name) →
  object_map !! name = Some object_class →
  q !! "filters" = Some (VDict f) →
  f !! "expression" = Some (VDict d) →
  d !! "op" = None →
  let order_by := default VNone (q !! "order_by") in
  let limit := default VNone (q !! "limit") in
  let permitted := List.filter (permission_check' q) in
  let ordered : Py (list obj) :=
    if py_truthy order_by
    then _apply_order_by db_order_by object_class
           (cls_query object_class) order_by
    else mret (cls_query object_class) in
  let store (ids : list Z) := VDict (<["ids" := VList (VInt <$> ids)]> q) in
  _build_expression object_map get_ids_related_to query (VDict d)
    object_class fields g = Ok (PNone, g)
  ∧ _get_objects' query (VDict q) g =
      (rows ← ordered; mret (ObjList (permitted rows))) g
  ∧ (py_truthy order_by = false →
     _get_objects' query (VDict q) g =
       Ok (ObjList (permitted (cls_query object_class)), g))
  ∧ (py_truthy order_by = false → py_truthy limit = false →
     get_ids_loop' done (VDict q :: rest) g =
       get_ids_loop'
         (done ++ [store (obj_id <$> permitted (cls_query object_class))])
         rest g)
  ∧ (∀ q0 : gmap string value,
       is_Some (q0 !! "object_name") → no_expression q0 →
       _get_objects' query (VDict q0) g = Ok (EmptySet, g))
  ∧ get_ids_loop' done (VDict q :: rest) g =
      (rows ← ordered;
       objs ← lift (_apply_limit (ObjList (permitted rows)) limit);
       get_ids_loop' (done ++ [store (ids_of objs)]) rest) g
  ∧ (∀ rows g1,
       ordered g = Ok (rows, g1) →
       (py_truthy limit = false →
        get_ids_loop' done (VDict q :: rest) g =
          get_ids_loop' (done ++ [store (obj_id <$> permitted rows)]) rest g1)
       ∧ (∀ from_ to_,
            limit = VList [VInt from_; VInt to_] →
            get_ids_loop' done (VDict q :: rest) g =
              get_ids_loop'
                (done ++ [store (obj_id <$> list_slice (permitted rows)
                                               (Some from_) (Some to_))])
                rest g1)).
Proof.
  intros Hn Hc Hf He Hop order_by limit permitted ordered store.
  pose proof (λ query', get_objects_no_op query' q f d name object_class g
                          Hn Hc Hf He Hop) as Hget.
  fold order_by permitted ordered in Hget.
  assert (get_ids_loop' done (VDict q :: rest) g =
      (rows ← ordered;
       objs ← lift (_apply_limit (ObjList (permitted rows)) limit);
       get_ids_loop' (done ++ [store (ids_of objs)]) rest) g) as Hloop.
  { cbn [get_ids_loop]. unfold mbind at 1 4, Py_bind at 1 4.
    rewrite Hget. unfold mbind at 1 3, Py_bind at 1 3.
    destruct (ordered g) as [[rows g1]|]; [|done].
    cbn [mret Py_ret py_get]. rewrite Py_bind_lift_Ok. fold limit.
    reflexivity. }
  split; [by rewrite build_expression_no_op|].
  split; [apply Hget|]. split; [|split; [|split; [|split]]].
  - intros Ho. rewrite Hget. unfold ordered. by rewrite Ho.
  - intros Ho Hl. rewrite Hloop. unfold ordered. rewrite Ho.
    unfold _apply_limit. rewrite Hl. reflexivity.
  - intros q0 Hn0 He0. by apply get_objects_no_expression.
  - exact Hloop.
  - intros rows g1 Hrows. split.
    + intros Hl. rewrite Hloop. unfold mbind at 1, Py_bind at 1.
      rewrite Hrows. unfold _apply_limit. rewrite Hl. reflexivity.
    + intros from_ to_ Hl. rewrite Hloop. unfold mbind at 1, Py_bind at 1.
      rewrite Hrows, Hl. reflexivity.
Qed.
End Driver.

Lemma C4_get_ids_preserves_batch_witness :
  length ex_batch_ids = length ex_batch ∧
  ∀ i oq, ex_batch !! i = Some oq →
    ∃ q q1 ids,
      oq = VDict q ∧ ex_batch_clean !! i = Some (VDict q1) ∧
      (∀ k, k ≠ "filters" → q1 !! k = q !! k) ∧
      ex_batch_ids !! i = Some (VDict (<["ids" := VList (VInt <$> ids)]> q1)).
Proof.
  apply (C4_get_ids_preserves_batch ex_object_map ex_get_ids_related_to
           ex_db_filter ex_db_order_by ex_is_allowed_read_for
           ex_is_allowed_update_for ex_batch ex_batch_clean (FlaskG None)
           ex_batch_ids (FlaskG None)); vm_compute; reflexivity.
Defined.

(** C8: the code fails on a query without expression that carries a
    limit.  [_get_objects] returns [set()], which [_apply_limit] cannot
    slice, and the bare [except] turns the [TypeError] into the
    [BadQueryException] of an invalid limit; without limit the [ids] are
    the empty list, as the claim says. *)
Theorem C8_no_expression_with_limit :
  ex_run [VDict {[ "object_name" := VStr "Program";
                   "limit" := VList [VInt 0; VInt 10] ]}] = Raise bad_limit
  ∧ ex_run [VDict {[ "object_name" := VStr "Program" ]}] =
      Ok [VDict {[ "object_name" := VStr "Program"; "ids" := VList [] ]}].
Proof. split; vm_compute; reflexivity. Qed.

(** C9, as stated, fails: with the limit [[0, 1]] the [ids] of the query
    hold one of the two programs the reader may read. *)
Lemma C9_counterexample :
  ids_fields
    (ex_run [VDict (<["limit" := VList [VInt 0; VInt 1]]> ex_no_op_query)]) =
    Ok [Ok (VList [VInt 1])]
  ∧ Obj 3 ∅ ∈ cls_query ex_Program
  ∧ ex_is_allowed_read_for (Obj 3 ∅) = true.
Proof.
  split; [vm_compute; reflexivity|]. split; [|reflexivity].
  cbn. apply list_elem_of_In. cbn. tauto.
Qed.

Lemma C9_expression_without_op_witness :
  _get_objects ex_object_map ex_get_ids_related_to ex_db_filter
    ex_db_order_by ex_is_allowed_read_for ex_is_allowed_update_for
    [] (VDict ex_no_op_query) (FlaskG None) =
    Ok (ObjList [Obj 1 ∅; Obj 3 ∅], FlaskG None)
  ∧ get_ids ex_object_map ex_get_ids_related_to ex_db_filter
      ex_db_order_by ex_is_allowed_read_for ex_is_allowed_update_for
      [VDict ex_no_op_query] (FlaskG None) =
    Ok ([VDict (<["ids" := VList [VInt 1; VInt 3]]> ex_no_op_query)],
        FlaskG None)
  ∧ get_ids ex_object_map ex_get_ids_related_to ex_db_filter
      ex_db_order_by ex_is_allowed_read_for ex_is_allowed_update_for
      [VDict (<["limit" := VList [VInt 1; VInt 5]]> ex_no_op_query)]
      (FlaskG None) =
    Ok ([VDict (<["ids" := VList [VInt 3]]>
                  (<["limit" := VList [VInt 1; VInt 5]]> ex_no_op_query))],
        FlaskG None).
Proof.
  destruct (C9_expression_without_op ex_object_map ex_get_ids_related_to
              ex_db_filter ex_db_order_by ex_is_allowed_read_for
              ex_is_allowed_update_for [] ex_no_op_query
              {[ "expression" := VDict {[ "left" := VStr "title" ]} ]}
              {[ "left" := VStr "title" ]} "Program" ex_Program (VList [])
              [] [] (FlaskG None))
    as (_ & _ & Hget & Hloop & _);
    [vm_compute; reflexivity | vm_compute; reflexivity
    | vm_compute; reflexivity | vm_compute; reflexivity
    | vm_compute; reflexivity |].
  destruct (C9_expression_without_op ex_object_map ex_get_ids_related_to
              ex_db_filter ex_db_order_by ex_is_allowed_read_for
              ex_is_allowed_update_for []
              (<["limit" := VList [VInt 1; VInt 5]]> ex_no_op_query)
              {[ "expression" := VDict {[ "left" := VStr "title" ]} ]}
              {[ "left" := VStr "title" ]} "Program" ex_Program (VList [])
              [] [] (FlaskG None))
    as (_ & _ & _ & _ & _ & _ & Hlimit);
    [vm_compute; reflexivity | vm_compute; reflexivity
    | vm_compute; reflexivity | vm_compute; reflexivity
    | vm_compute; reflexivity |].
  split; [|split].
  - rewrite Hget by (vm_compute; reflexivity). vm_compute. reflexivity.
  - unfold get_ids. rewrite Hloop by (vm_compute; reflexivity).
    vm_compute. reflexivity.
  - destruct (Hlimit (cls_query ex_Program) (FlaskG None)) as [_ Hslice];
      [vm_compute; reflexivity|].
    unfold get_ids. rewrite (Hslice 1 5) by (vm_compute; reflexivity).
    vm_compute. reflexivity.
Defined.

Lemma C10_permissions_witness :
  _get_objects ex_object_map ex_get_ids_related_to ex_db_filter
    ex_db_order_by ex_is_allowed_read_for ex_is_allowed_update_for
    [] (VDict (<["permissions" := VStr "Update"]> ex_no_op_query))
    (FlaskG None) =
  _get_objects ex_object_map ex_get_ids_related_to ex_db_filter
    ex_db_order_by ex_is_allowed_read_for ex_is_allowed_update_for
    [] (VDict (<["permissions" := VStr "read"]> ex_no_op_query))
    (FlaskG None)
  ∧ _get_objects ex_object_map ex_get_ids_related_to ex_db_filter
      ex_db_order_by ex_is_allowed_read_for ex_is_allowed_update_for
      [] (VDict (<["permissions" := VStr "update"]> ex_no_op_query))
      (FlaskG None) = Ok (ObjList [Obj 1 ∅], FlaskG None).
Proof.
  destruct (C10_permissions ex_object_map ex_get_ids_related_to ex_db_filter
              ex_db_order_by ex_is_allowed_read_for ex_is_allowed_update_for
              [] ex_no_op_query (VStr "Update") (FlaskG None))
    as (Hother & _ & Hrows).
  split; [apply Hother; discriminate|].
  destruct (Hrows (cls_query ex_Program) (FlaskG None)) as [_ Hupdate];
    [vm_compute; reflexivity|].
  rewrite Hupdate. reflexivity.
Defined.

(** * Further properties of pagination *)

Lemma list_slice_segment {A} (l : list A) a b :
  ∃ pre post, l = pre ++ list_slice l a b ++ post.
Proof.
  unfold list_slice.
  set (m := Z.to_nat _). set (n := Z.to_nat _).
  exists (take n l), (drop m (drop n l)).
  by rewrite take_drop, take_drop.
Qed.

Lemma apply_limit_list_inv l limit objs :
  _apply_limit (ObjList l) limit = Ok objs →
  ∃ a b, objs = ObjList (list_slice l a b).
Proof.
  unfold _apply_limit. destruct (py_truthy limit).
  - destruct (unpack2 limit) as [[from_ to_]|]; [|done]. cbn.
    destruct (slice_index from_) as [a|]; [|done]. cbn.
    destruct (slice_index to_) as [b|]; [|done]. cbn.
    intros [= <-]. eauto.
  - intros [= <-]. exists None, None. unfold list_slice, clamp.
    rewrite Z.sub_0_r, Nat2Z.id. cbn. by rewrite firstn_all.
Qed.

(** X1.  Whatever the limit, when [_apply_limit] returns on a list of
    objects it returns one contiguous stretch of that list: the objects
    given are the result with some objects before it and some after it.
    Pagination adds, repeats and reorders nothing. *)
Theorem apply_limit_segment (l : list obj) limit objs :
  _apply_limit (ObjList l) limit = Ok objs →
  ∃ pre l' post, objs = ObjList l' ∧ l = pre ++ l' ++ post.
Proof.
  intros H. apply apply_limit_list_inv in H as (a & b & ->).
  destruct (list_slice_segment l a b) as (pre & post & Hl).
  by exists pre, (list_slice l a b), post.
Qed.

Lemma apply_limit_segment_witness :
  ∃ pre l' post,
    ObjList [Obj 2 ∅; Obj 3 ∅; Obj 4 ∅] = ObjList l' ∧
    ex_ten = pre ++ l' ++ post.
Proof.
  apply (apply_limit_segment ex_ten (VList [VInt 2; VInt 5])).
  vm_compute. reflexivity.
Defined.

(** X2.  A window that starts at a position [from >= 0] and ends at or
    before it ([0 <= to <= from]), or that starts at or beyond the end of
    the list, selects nothing: the result is the empty list, not an
    error. *)
Theorem apply_limit_empty_window (l : list obj) (from_ to_ : Z) :
  0 ≤ from_ →
  (0 ≤ to_ ≤ from_ ∨ Z.of_nat (length l) ≤ from_) →
  _apply_limit (ObjList l) (VList [VInt from_; VInt to_]) = Ok (ObjList []).
Proof.
  intros Hf Hw. cbn. do 2 f_equal. unfold list_slice, clamp.
  destruct (Z.ltb_spec from_ 0); [lia|].
  destruct Hw as [Hw|Hw].
  - destruct (Z.ltb_spec to_ 0); [lia|].
    replace (Z.to_nat _) with 0%nat by lia. done.
  - apply length_zero_iff_nil. rewrite length_take, length_drop.
    destruct (to_ <? 0); lia.
Qed.

Lemma apply_limit_empty_window_witness :
  _apply_limit (ObjList ex_ten) (VList [VInt 5; VInt 2]) = Ok (ObjList [])
  ∧ _apply_limit (ObjList ex_ten) (VList [VInt 10; VInt 20]) = Ok (ObjList []).
Proof.
  split.
  - apply (apply_limit_empty_window ex_ten 5 2); [lia | left; lia].
  - apply (apply_limit_empty_window ex_ten 10 20); [lia | right; vm_compute; discriminate].
Defined.

(** * Further properties of the expression compiler *)

Lemma lower_ascii_idemp c : lower_ascii (lower_ascii c) = lower_ascii c.
Proof. by destruct c as [[] [] [] [] [] [] [] []]. Qed.

Lemma lower_idemp s : lower (lower s) = lower s.
Proof.
  induction s as [|c s IH]; cbn; [done|]. by rewrite lower_ascii_idemp, IH.
Qed.

Lemma days_in_month_le year month : days_in_month year month ≤ 31.
Proof. unfold days_in_month. repeat case_match; lia. Qed.

Lemma date_invalid year month day :
  c_int year && c_int month && c_int day = true →
  ¬ valid_date year month day → date year month day = Raise ValueError.
Proof.
  unfold valid_date, date. intros -> H.
  destruct (_ && _) eqn:E; [|done]. exfalso. apply H.
  repeat (apply andb_true_iff in E as [E ?]). lia.
Qed.

Lemma date_overflow year month day :
  c_int year && c_int month && c_int day = false →
  date year month day = Raise OverflowError.
Proof. unfold date. by intros ->. Qed.

Lemma date_valid year month day :
  valid_date year month day → date year month day = Ok (VDate year month day).
Proof.
  unfold valid_date, date. intros H.
  pose proof (days_in_month_le year month).
  assert (c_int year && c_int month && c_int day = true) as ->.
  { unfold c_int. repeat (apply andb_true_iff; split); lia. }
  destruct (_ && _) eqn:E; [done|]. exfalso.
  repeat (apply andb_false_iff in E as [E|E]); lia.
Qed.

(** A date is handed through by [autocast], on every field. *)
Lemma autocast_date object_class o_key year month day :
  autocast object_class o_key (VDate year month day) =
    Ok (VDate year month day).
Proof. unfold autocast. destruct o_key; try done. by destruct (date_key _). Qed.

Section Operators.
Variable object_map : gmap string pyclass.
Variable get_ids_related_to : string → value → value → list Z.

Abbreviation build := (_build_expression object_map get_ids_related_to).

(** The dispatch of [_build_expression] on the name of the operator. *)
Lemma build_expression_op query (d o : gmap string value) name
    object_class fields :
  d !! "op" = Some (VDict o) →
  o !! "name" = Some name →
  let rhs : Py value :=
    lift (left_ ← py_getitem (VDict d) "left";
          right_ ← py_getitem (VDict d) "right";
          autocast object_class left_ right_) in
  let with_left (p : pyattr → Py pyexpr) : Py pyexpr :=
    left_ ← lift (py_getitem (VDict d) "left");
    with_key object_class left_ p in
  let lift_bin (f : list pyexpr → pyexpr) : Py pyexpr :=
    l ← default (raise KeyError)
          ((λ e, build query e object_class fields) <$> d !! "left");
    r ← default (raise KeyError)
          ((λ e, build query e object_class fields) <$> d !! "right");
    mret (f [l; r]) in
  build query (VDict d) object_class fields =
    match name with
    | VStr s =>
      if String.eqb s "AND" then lift_bin PAnd
      else if String.eqb s "OR" then lift_bin POr
      else if String.eqb s "=" then
        with_left (λ l, v ← rhs; mret (PEq l v))
      else if String.eqb s "!=" then
        e ← with_left (λ l, v ← rhs; mret (PEq l v)); mret (PNot e)
      else if String.eqb s "~" then
        with_left (λ l, v ← rhs; mret (PILike l v))
      else if String.eqb s "!~" then
        e ← with_left (λ l, v ← rhs; mret (PILike l v)); mret (PNot e)
      else if String.eqb s "<" then
        with_left (λ l, v ← rhs; mret (PLt l v))
      else if String.eqb s ">" then
        with_left (λ l, v ← rhs; mret (PGt l v))
      else if String.eqb s "relevant" then
        lift (relevant get_ids_related_to query (VDict d) object_class)
      else if String.eqb s "text_search" then
        text_search (VDict d) object_class fields
      else if String.eqb s "similar" then
        similar object_map (VDict d) object_class
      else unknown (VDict d)
    | VList _ | VDict _ => raise TypeError
    | _ => unknown (VDict d)
    end.
Proof.
  intros Hop Hname. cbn [_build_expression].
  rewrite bool_decide_true by (rewrite Hop; eauto).
  cbn [py_getitem]. rewrite Hop. rewrite Py_bind_lift_Ok.
  cbn [py_getitem]. rewrite Hname. rewrite Py_bind_lift_Ok.
  rewrite !lookup_fmap. reflexivity.
Qed.



(** X4.  The operator [!=] compiles to the negation of what [=] compiles
    to on the same expression, and [!~] to the negation of [~]: same
    clause under [not_], same exception when the comparison raises, same
    effect on [flask.g]. *)
Theorem negated_comparisons query (d o : gmap string value)
    object_class fields :
  d !! "op" = Some (VDict o) →
  let with_op (s : string) :=
    VDict (<["op" := VDict {[ "name" := VStr s ]}]> d) in
  (o !! "name" = Some (VStr "!=") →
   build query (VDict d) object_class fields =
     e ← build query (with_op "=") object_class fields; mret (PNot e))
  ∧ (o !! "name" = Some (VStr "!~") →
     build query (VDict d) object_class fields =
       e ← build query (with_op "~") object_class fields; mret (PNot e)).
Proof.
  intros Hop with_op. unfold with_op.
  split; intros Hname.
  - rewrite (build_expression_op query d o (VStr "!=")) by done.
    rewrite (build_expression_op query _ {[ "name" := VStr "=" ]} (VStr "="))
      by (by rewrite ?lookup_insert_eq).
    simpl (String.eqb _ _). cbv iota. cbn [py_getitem].
    by rewrite !(lookup_insert_ne d "op") by done.
  - rewrite (build_expression_op query d o (VStr "!~")) by done.
    rewrite (build_expression_op query _ {[ "name" := VStr "~" ]} (VStr "~"))
      by (by rewrite ?lookup_insert_eq).
    simpl (String.eqb _ _). cbv iota. cbn [py_getitem].
    by rewrite !(lookup_insert_ne d "op") by done.
Qed.

(** X5.  The name of a field is read without regard to letter case where
    the attribute is resolved: [with_key] (the left-hand side of a
    comparison, a field of a text search) and [join_and_order] (the
    [name] of an [order_by] clause) do for a name what they do for its
    lower-case form. *)
Theorem field_names_ignore_case (object_class : pyclass) (name : string)
    (p : pyattr → Py pyexpr) (c : gmap string value) :
  with_key object_class (VStr name) p =
    with_key object_class (VStr (lower name)) p
  ∧ join_and_order object_class (VDict (<["name" := VStr name]> c)) =
      join_and_order object_class (VDict (<["name" := VStr (lower name)]> c)).
Proof.
  split.
  - unfold with_key. by rewrite lower_idemp.
  - unfold join_and_order. cbn [py_getitem py_get]. rewrite !lookup_insert_eq.
    rewrite !Py_bind_lift_Ok. rewrite lower_idemp.
    by rewrite !(lookup_insert_ne c "name") by done.
Qed.

(** X6.  [autocast], unlike [with_key], looks the left-hand side up as it
    is written.  A comparison [=] whose field [k] resolves, once in lower
    case, to the attribute [a], but which as written is no key of the
    attribute name map and holds neither ["date"] nor the names
    [start_date] and [end_date], compares [a] with the literal as it
    stands: the literal is not parsed as a date, and no error is raised
    for it, even when [a] is a date field. *)
Theorem autocast_is_case_sensitive query (d o : gmap string value) k v key a
    object_class fields g :
  d !! "op" = Some (VDict o) →
  o !! "name" = Some (VStr "=") →
  d !! "left" = Some (VStr k) →
  d !! "right" = Some v →
  attr_name_map_get object_class (lower k) = (key, None) →
  cls_getattr object_class key = Some a →
  cls_attr_name_map object_class !! k = None →
  date_key k = false →
  build query (VDict d) object_class fields g = Ok (PEq a v, g).
Proof.
  intros Hop Hname Hl Hr Hmap Hattr Hk Hd.
  rewrite (build_expression_eq _ _ query d o k v key a) by done.
  unfold autocast, attr_name_map_get. rewrite Hk. cbn. by rewrite Hd.
Qed.

(** X7.  In a [relevant] leaf on [__previous__] a negative first id counts
    from the end of the batch, as Python's subscript does: the id [-k],
    for [k] between 1 and the length of the batch, stands for the entry
    [k] places before the end, whose [object_name] and [ids] are handed
    to the relationship helper. *)
Theorem relevant_previous_from_end query (d o q : gmap string value) (k : nat)
    rest object_class fields related_type related_ids g :
  d !! "op" = Some (VDict o) →
  o !! "name" = Some (VStr "relevant") →
  d !! "object_name" = Some (VStr "__previous__") →
  d !! "ids" = Some (VList (VInt (- Z.of_nat k) :: rest)) →
  (0 < k ≤ length query)%nat →
  query !! (length query - k)%nat = Some (VDict q) →
  q !! "object_name" = Some related_type →
  q !! "ids" = Some related_ids →
  build query (VDict d) object_class fields g =
    Ok (PIdIn (get_ids_related_to (cls_name object_class)
                 related_type related_ids), g).
Proof.
  intros Hop Hname Hn Hids Hk Hq Ht Hi.
  rewrite (build_expression_relevant _ _ query d o) by done.
  unfold relevant. cbn [py_getitem]. rewrite Hn.
  cbn [mbind result_bind str_eq].
  change (String.eqb "__previous__" "__previous__") with true. cbv iota.
  rewrite Hids. cbn [mbind result_bind py_first]. unfold list_getitem.
  destruct (Z.ltb_spec (- Z.of_nat k) 0); [|lia].
  destruct (Z.leb_spec 0 (- Z.of_nat k + Z.of_nat (length query))); [|lia].
  destruct (Z.ltb_spec (- Z.of_nat k + Z.of_nat (length query))
              (Z.of_nat (length query))); [|lia].
  cbn [andb].
  replace (Z.to_nat (- Z.of_nat k + Z.of_nat (length query)))
    with (length query - k)%nat by lia.
  rewrite Hq. cbn [mbind result_bind py_getitem].
  rewrite Ht. cbn [mbind result_bind]. by rewrite Hi.
Qed.

(** X8.  A [relevant] leaf on [__previous__] that refers to nothing fails
    with the error of the subscript, not with [BadQueryException]: an
    empty [ids] and a first id outside the batch (at or beyond its
    length, or below minus its length) raise [IndexError]; a first id
    that names an entry without [ids] (an entry that [get_ids] has not
    reached yet and that the request gave no [ids]) raises [KeyError]. *)
Theorem relevant_previous_dangling query (d o : gmap string value)
    object_class fields g :
  d !! "op" = Some (VDict o) →
  o !! "name" = Some (VStr "relevant") →
  d !! "object_name" = Some (VStr "__previous__") →
  (d !! "ids" = Some (VList []) →
   build query (VDict d) object_class fields g = Raise IndexError)
  ∧ (∀ i rest,
       d !! "ids" = Some (VList (VInt i :: rest)) →
       i < - Z.of_nat (length query) ∨ Z.of_nat (length query) ≤ i →
       build query (VDict d) object_class fields g = Raise IndexError)
  ∧ (∀ (i : nat) rest (q : gmap string value),
       d !! "ids" = Some (VList (VInt (Z.of_nat i) :: rest)) →
       query !! i = Some (VDict q) →
       is_Some (q !! "object_name") →
       q !! "ids" = None →
       build query (VDict d) object_class fields g = Raise KeyError).
Proof.
  intros Hop Hname Hn.
  rewrite (build_expression_relevant _ _ query d o) by done.
  unfold relevant. cbn [py_getitem]. rewrite Hn.
  cbn [mbind result_bind str_eq].
  change (String.eqb "__previous__" "__previous__") with true. cbv iota.
  split; [|split].
  - by intros ->.
  - intros i rest -> Hi. cbn [mbind result_bind py_first]. unfold list_getitem.
    destruct (Z.ltb_spec i 0).
    + destruct (Z.leb_spec 0 (i + Z.of_nat (length query))); [|done].
      destruct (Z.ltb_spec (i + Z.of_nat (length query))
                  (Z.of_nat (length query))); [lia|done].
    + destruct (Z.leb_spec 0 i); [|lia].
      destruct (Z.ltb_spec i (Z.of_nat (length query))); [lia|done].
  - intros i rest q -> Hq [n Hn'] Hi. cbn [mbind result_bind py_first].
    unfold list_getitem.
    apply lookup_lt_Some in Hq as Hlt.
    destruct (Z.ltb_spec (Z.of_nat i) 0); [lia|].
    destruct (Z.leb_spec 0 (Z.of_nat i)); [|lia].
    destruct (Z.ltb_spec (Z.of_nat i) (Z.of_nat (length query))); [|lia].
    cbn [andb]. rewrite Nat2Z.id, Hq. cbn [mbind result_bind py_getitem].
    rewrite Hn'. cbn [mbind result_bind]. by rewrite Hi.
Qed.

(** X9.  A [similar] leaf on a class that declares
    [get_similar_objects_query] compiles to the membership in the ids of
    the query that class returns, and leaves that query in
    [flask.g.similar_objects_query], whatever was there.  With that query
    in [flask.g] an [order_by] clause named [__similarity__] (in any
    letter case) joins it and orders by its weight; with nothing there
    the clause raises [BadQueryException]. *)
Theorem similar_enables_similarity_order query (d o c : gmap string value)
    name similar_class get_query id_ object_class fields model order_name g :
  d !! "op" = Some (VDict o) →
  o !! "name" = Some (VStr "similar") →
  d !! "object_name" = Some (VStr name) →
  object_map !! name = Some similar_class →
  get_similar_objects_query similar_class = Some get_query →
  d !! "id" = Some id_ →
  c !! "name" = Some (VStr order_name) →
  lower order_name = "__similarity__" →
  let weights := get_query id_ [cls_name object_class] in
  let desc := py_truthy (default (VBool false) (c !! "desc")) in
  build query (VDict d) object_class fields g =
    Ok (PIdIn weights.*1, FlaskG (Some weights))
  ∧ join_and_order model (VDict c) (FlaskG (Some weights)) =
      Ok (OrderItem (Some (JoinSimilar weights)) OrdSimilarityWeight desc,
          FlaskG (Some weights))
  ∧ join_and_order model (VDict c) (FlaskG None) =
      Raise (BadQueryException "Can't order by '__similarity__' when no "
               [VStr "'similar' filter was applied."]).
Proof.
  intros Hop Hname Hn Hc Hs Hid Hcn Hlow weights desc.
  split; [|split].
  - rewrite (build_expression_similar _ _ query d o) by done.
    unfold similar. cbn [py_getitem]. rewrite Hn. rewrite Py_bind_lift_Ok.
    unfold object_map_getitem, object_map_get. cbn [mbind result_bind].
    rewrite Hc. rewrite Py_bind_lift_Ok. rewrite Hs. rewrite Hid.
    by rewrite Py_bind_lift_Ok.
  - unfold join_and_order. cbn [py_getitem py_get]. rewrite Hcn.
    rewrite Py_bind_lift_Ok. rewrite Hlow. reflexivity.
  - unfold join_and_order. cbn [py_getitem py_get]. rewrite Hcn.
    rewrite Py_bind_lift_Ok. rewrite Hlow. reflexivity.
Qed.




(** X11.  Macro expansion and compilation fit together.  In a
    [TaskGroupTask] query, a comparison [=], [<] or [>] of [start] (resp.
    [end]) with a literal [MM/DD/YYYY] that names a day of the calendar
    is expanded to a leaf that compiles, on a class with the attribute
    [start_date] (resp. [end_date]) under no other display name, to the
    comparison of that attribute with the date: [autocast] hands the
    date through. *)
Theorem task_date_filter_compiles (q f d o : gmap string value) op key s
    month day year a object_class fields query g :
  q !! "object_name" = Some (VStr "TaskGroupTask") →
  d !! "op" = Some (VDict o) →
  o !! "name" = Some (VStr op) →
  op = "=" ∨ op = "<" ∨ op = ">" →
  d !! "left" = Some (VStr key) →
  key = "start" ∨ key = "end" →
  d !! "right" = Some (VStr s) →
  mapM py_int (VStr <$> split "/" s) = Ok [month; day; year] →
  valid_date year month day →
  attr_name_map_get object_class (key +:+ "_date") = (key +:+ "_date", None) →
  cls_getattr object_class (key +:+ "_date") = Some a →
  ∃ d',
    _macro_expand_object_query
      (VDict (<["filters" := VDict (<["expression" := VDict d]> f)]> q)) =
      Ok (VDict (<["filters" := VDict (<["expression" := VDict d']> f)]> q))
    ∧ build query (VDict d') object_class fields g =
        Ok (comparison op a (VDate year month day), g).
Proof.
  intros Hq Hop Hname Hcmp Hleft Hkey Hright Hints Hvalid Hmap Hattr.
  assert (is_and_or (VStr op) = false) as Hao.
  { by destruct Hcmp as [-> | [-> | ->]]. }
  exists (<["right" := VDate year month day]>
            (<["left" := VStr (key +:+ "_date")]> d)).
  split.
  - rewrite (macro_expand_leaf q f d o (VStr op) key) by done.
    rewrite (expand_task_dates_leaf d o (VStr op) key s) by done.
    destruct (split "/" s) as [|p1 [|p2 [|p3 [|p4 ps]]]] eqn:Hsplit;
      try (apply mapM_result_Forall2, Forall2_length in Hints;
           discriminate Hints).
    cbn [fmap list_fmap] in Hints. rewrite Hints.
    cbn [except_Exception mbind result_bind].
    by rewrite (date_valid _ _ _ Hvalid).
  - rewrite (build_expression_op query _ o (VStr op))
      by (by rewrite ?lookup_insert_ne by done).
    cbn [py_getitem]. rewrite lookup_insert_eq.
    rewrite (lookup_insert_ne _ "right" "left"), lookup_insert_eq by done.
    cbn [mbind result_bind]. rewrite autocast_date.
    rewrite !Py_bind_lift_Ok. unfold with_key.
    assert (lower (key +:+ "_date") = key +:+ "_date") as ->.
    { by destruct Hkey as [-> | ->]. }
    rewrite Hmap, Hattr.
    by destruct Hcmp as [-> | [-> | ->]].
Qed.

End Operators.


Lemma negated_comparisons_witness :
  _build_expression ex_object_map ex_get_ids_related_to []
    (VDict {[ "op" := VDict {[ "name" := VStr "!=" ]};
              "left" := VStr "title"; "right" := VStr "x" ]})
    ex_Program (VList []) =
  e ← _build_expression ex_object_map ex_get_ids_related_to []
        (VDict (<["op" := VDict {[ "name" := VStr "=" ]}]>
                  {[ "op" := VDict {[ "name" := VStr "!=" ]};
                     "left" := VStr "title"; "right" := VStr "x" ]}))
        ex_Program (VList []);
  mret (PNot e).
Proof.
  apply (negated_comparisons ex_object_map ex_get_ids_related_to []
           _ {[ "name" := VStr "!=" ]} ex_Program (VList []));
    vm_compute; reflexivity.
Defined.

Lemma autocast_is_case_sensitive_witness :
  _build_expression ex_object_map ex_get_ids_related_to []
    (leaf "=" "Effective Date" (VStr "2/30/2020"))
    ex_Program (VList []) (FlaskG None) =
    Ok (PEq (Attr "Program" "start_date" Scalar) (VStr "2/30/2020"),
        FlaskG None)
  ∧ date_key "start_date" = true.
Proof.
  split; [|reflexivity].
  apply (autocast_is_case_sensitive ex_object_map ex_get_ids_related_to []
           _ {[ "name" := VStr "=" ]} "Effective Date" (VStr "2/30/2020")
           "start_date" (Attr "Program" "start_date" Scalar));
    vm_compute; reflexivity.
Defined.

Lemma relevant_previous_from_end_witness :
  _build_expression ex_object_map ex_get_ids_related_to
    [VDict {[ "object_name" := VStr "Program";
              "ids" := VList [VInt 1; VInt 3] ]};
     VDict {[ "object_name" := VStr "Facility" ]}]
    (VDict {[ "op" := VDict {[ "name" := VStr "relevant" ]};
              "object_name" := VStr "__previous__";
              "ids" := VList [VInt (-2)] ]})
    ex_Facility (VList []) (FlaskG None) =
    Ok (PIdIn [11; 13], FlaskG None).
Proof.
  apply (relevant_previous_from_end ex_object_map ex_get_ids_related_to _ _
           {[ "name" := VStr "relevant" ]}
           {[ "object_name" := VStr "Program";
              "ids" := VList [VInt 1; VInt 3] ]} 2 []
           ex_Facility (VList []) (VStr "Program")
           (VList [VInt 1; VInt 3]) (FlaskG None));
    try (vm_compute; reflexivity).
  cbn. lia.
Defined.

Lemma relevant_previous_dangling_witness :
  _build_expression ex_object_map ex_get_ids_related_to
    [VDict {[ "object_name" := VStr "Program" ]}]
    (VDict {[ "op" := VDict {[ "name" := VStr "relevant" ]};
              "object_name" := VStr "__previous__";
              "ids" := VList [VInt 1] ]})
    ex_Facility (VList []) (FlaskG None) = Raise IndexError
  ∧ _build_expression ex_object_map ex_get_ids_related_to
      [VDict {[ "object_name" := VStr "Program" ]}]
      (VDict {[ "op" := VDict {[ "name" := VStr "relevant" ]};
                "object_name" := VStr "__previous__";
                "ids" := VList [VInt 0] ]})
      ex_Facility (VList []) (FlaskG None) = Raise KeyError.
Proof.
  split.
  - destruct (relevant_previous_dangling ex_object_map ex_get_ids_related_to
                [VDict {[ "object_name" := VStr "Program" ]}]
                {[ "op" := VDict {[ "name" := VStr "relevant" ]};
                   "object_name" := VStr "__previous__";
                   "ids" := VList [VInt 1] ]}
                {[ "name" := VStr "relevant" ]}
                ex_Facility (VList []) (FlaskG None))
      as (_ & H & _); [vm_compute; reflexivity .. |].
    apply (H 1 []); [vm_compute; reflexivity|]. right. cbn. lia.
  - destruct (relevant_previous_dangling ex_object_map ex_get_ids_related_to
                [VDict {[ "object_name" := VStr "Program" ]}]
                {[ "op" := VDict {[ "name" := VStr "relevant" ]};
                   "object_name" := VStr "__previous__";
                   "ids" := VList [VInt 0] ]}
                {[ "name" := VStr "relevant" ]}
                ex_Facility (VList []) (FlaskG None))
      as (_ & _ & H); [vm_compute; reflexivity .. |].
    apply (H 0%nat [] {[ "object_name" := VStr "Program" ]});
      [vm_compute; reflexivity | vm_compute; reflexivity | |
       vm_compute; reflexivity].
    exists (VStr "Program"). vm_compute. reflexivity.
Defined.

Lemma similar_enables_similarity_order_witness :
  _build_expression ex_object_map ex_get_ids_related_to []
    (VDict {[ "op" := VDict {[ "name" := VStr "similar" ]};
              "object_name" := VStr "Program"; "id" := VInt 1 ]})
    ex_Program (VList []) (FlaskG None) =
    Ok (PIdIn [2; 3], FlaskG (Some [(2, 10); (3, 5)]))
  ∧ join_and_order ex_Program
      (VDict {[ "name" := VStr "__Similarity__"; "desc" := VBool true ]})
      (FlaskG (Some [(2, 10); (3, 5)])) =
      Ok (OrderItem (Some (JoinSimilar [(2, 10); (3, 5)]))
            OrdSimilarityWeight true,
          FlaskG (Some [(2, 10); (3, 5)]))
  ∧ join_and_order ex_Program
      (VDict {[ "name" := VStr "__Similarity__"; "desc" := VBool true ]})
      (FlaskG None) =
      Raise (BadQueryException "Can't order by '__similarity__' when no "
               [VStr "'similar' filter was applied."]).
Proof.
  refine (similar_enables_similarity_order ex_object_map ex_get_ids_related_to
            []
            {[ "op" := VDict {[ "name" := VStr "similar" ]};
               "object_name" := VStr "Program"; "id" := VInt 1 ]}
            {[ "name" := VStr "similar" ]}
            {[ "name" := VStr "__Similarity__"; "desc" := VBool true ]}
            "Program" ex_Program (λ _ _, [(2, 10); (3, 5)]) (VInt 1)
            ex_Program (VList []) ex_Program "__Similarity__" (FlaskG None)
            _ _ _ _ _ _ _ _);
    vm_compute; reflexivity.
Defined.


Lemma task_date_filter_compiles_witness :
  ∃ d',
    _macro_expand_object_query
      (VDict (<["filters" :=
                  VDict (<["expression" :=
                             leaf "<" "end" (VStr "12/31/2021")]> ∅)]>
                {[ "object_name" := VStr "TaskGroupTask" ]})) =
      Ok (VDict (<["filters" := VDict (<["expression" := VDict d']> ∅)]>
                   {[ "object_name" := VStr "TaskGroupTask" ]}))
    ∧ _build_expression ex_object_map ex_get_ids_related_to []
        (VDict d') ex_TaskGroupTask (VList []) (FlaskG None) =
        Ok (PLt (Attr "TaskGroupTask" "end_date" Scalar) (VDate 2021 12 31),
            FlaskG None).
Proof.
  apply (task_date_filter_compiles ex_object_map ex_get_ids_related_to
           {[ "object_name" := VStr "TaskGroupTask" ]} ∅
           {[ "op" := VDict {[ "name" := VStr "<" ]};
              "left" := VStr "end"; "right" := VStr "12/31/2021" ]}
           {[ "name" := VStr "<" ]} "<" "end" "12/31/2021" 12 31 2021
           (Attr "TaskGroupTask" "end_date" Scalar) ex_TaskGroupTask
           (VList []) [] (FlaskG None));
    try (vm_compute; reflexivity).
  - right; left; reflexivity.
  - right; reflexivity.
  - unfold valid_date. vm_compute. intuition discriminate.
Defined.

(** * Further properties of the sanitizer *)

Lemma mapM_result_app {A B} (f : A → result B) l1 l2 k1 k2 :
  mapM f l1 = Ok k1 → mapM f l2 = Ok k2 → mapM f (l1 ++ l2) = Ok (k1 ++ k2).
Proof.
  revert k1. induction l1 as [|x l1 IH]; intros k1 H1 H2; cbn in *.
  - by injection H1 as <-.
  - destruct (f x) as [y|]; [|done]. cbn in *.
    destruct (mapM f l1) as [k|]; [|done]. cbn in *.
    injection H1 as <-. by rewrite (IH k eq_refl H2).
Qed.

Lemma mapM_py_int_VInt l : mapM py_int (VInt <$> l) = Ok l.
Proof. induction l as [|z l IH]; cbn; [done|]. cbn in IH. by rewrite IH. Qed.

Section Slugs.
Variable object_map : gmap string pyclass.

(** X12.  A node with slugs (a value that is true in a condition) and a
    string [object_name] gets the ids its slugs resolve to appended after
    the ids it came with, all coerced to integers; a name that is no
    class of the object map resolves to no id, without an error.  The
    entry [slugs] stays in the node.  On a node without operands nothing
    else changes. *)
Theorem slugs_resolved_after_ids (d : gmap string value) slugs name l ints :
  d !! "slugs" = Some slugs →
  py_truthy slugs = true →
  d !! "object_name" = Some (VStr name) →
  default (VList []) (d !! "ids") = VList l →
  mapM py_int l = Ok ints →
  let found :=
    match object_map !! name with
    | Some object_class => cls_slug_in object_class slugs
    | None => []
    end in
  (∀ e', _clean_filters object_map (VDict d) = Ok e' →
     py_getitem e' "ids" = Ok (VList (VInt <$> (ints ++ found)))
     ∧ py_getitem e' "slugs" = Ok slugs)
  ∧ (d !! "left" = None → d !! "right" = None →
     _clean_filters object_map (VDict d) =
       Ok (VDict (<["ids" := VList (VInt <$> (ints ++ found))]> d))).
Proof.
  intros Hs Ht Hn Hl Hints found.
  assert (d ≠ ∅) as Hd by (intros ->; by rewrite lookup_empty in Hs).
  assert (resolve_slugs object_map d =
            Ok (<["ids" := VList (l ++ (VInt <$> found))]> d)) as Hres.
  { unfold resolve_slugs. rewrite Hs. cbn [default from_option id].
    rewrite Ht, Hl.
    cbn [mbind result_bind py_getitem]. rewrite Hn. cbn [mbind result_bind].
    unfold _slugs_to_ids, object_map_get. cbn [mbind result_bind].
    unfold found. by destruct (object_map !! name). }
  assert (coerce_ids (<["ids" := VList (l ++ (VInt <$> found))]> d) =
            Ok (ints ++ found)) as Hco.
  { unfold coerce_ids. rewrite lookup_insert_eq.
    cbn [default from_option id py_iter mbind result_bind].
    by rewrite (mapM_result_app py_int l (VInt <$> found) ints found Hints
                  (mapM_py_int_VInt found)). }
  split.
  - intros e' H.
    destruct (_clean_filters_Ok object_map d e' Hd H)
      as (d1 & ints' & d' & -> & Hd1 & Hc & Hi & _ & Hk).
    rewrite Hres in Hd1. injection Hd1 as <-. rewrite Hco in Hc.
    injection Hc as <-. cbn [py_getitem]. rewrite Hi.
    rewrite Hk by done. by rewrite Hs.
  - intros Hleft Hright. rewrite _clean_filters_unfold.
    apply py_truthy_dict in Hd as ->. cbn [negb].
    rewrite Hres. cbn [mbind result_bind]. rewrite Hco.
    cbn [mbind result_bind]. rewrite Hleft, Hright. cbn.
    by rewrite insert_insert_eq.
Qed.

(** X13.  When [QueryHelper(query)] returns, every object query of
    [self.query] is a dictionary whose [object_name] is a string that
    names a class of the object map: a batch with an entry of another
    shape, or of an unknown type, does not get past the constructor. *)
Theorem init_names_known_classes raw query :
  QueryHelper_init object_map raw = Ok query →
  Forall (λ oq, ∃ q name object_class,
            oq = VDict q ∧ q !! "object_name" = Some (VStr name)
            ∧ object_map !! name = Some object_class) query.
Proof.
  unfold QueryHelper_init. intros H.
  destruct (_clean_query object_map raw) as [query'|]; [|done].
  cbn [mbind result_bind] in H.
  destruct (_set_attr_name_map object_map query') as [classes|] eqn:Hc;
    [|done].
  cbn in H. injection H as <-.
  apply mapM_result_Forall2 in Hc.
  induction Hc as [|oq cls query classes Hoq _ IH]; constructor; [|done].
  destruct oq as [| | | | | |q]; try done. cbn [py_getitem] in Hoq.
  destruct (q !! "object_name") as [n|] eqn:Hn; [|done].
  cbn [mbind result_bind] in Hoq.
  unfold object_map_getitem, object_map_get in Hoq.
  destruct n as [| | |name| | |]; cbn [mbind result_bind] in Hoq; try done.
  destruct (object_map !! name) as [c|] eqn:Hcl; [|done]. eauto 10.
Qed.

End Slugs.

Lemma slugs_resolved_after_ids_witness :
  _clean_filters ex_market_map
    (VDict {[ "op" := VDict {[ "name" := VStr "relevant" ]};
              "object_name" := VStr "Market";
              "slugs" := VList [VStr "MARKET-9"; VStr "x"; VStr "MARKET-7"];
              "ids" := VList [VStr "3"] ]}) =
    Ok (VDict (<["ids" := VList (VInt <$> ([3] ++ [9; 7]))]>
                 {[ "op" := VDict {[ "name" := VStr "relevant" ]};
                    "object_name" := VStr "Market";
                    "slugs" := VList [VStr "MARKET-9"; VStr "x";
                                      VStr "MARKET-7"];
                    "ids" := VList [VStr "3"] ]})).
Proof.
  destruct (slugs_resolved_after_ids ex_market_map
              {[ "op" := VDict {[ "name" := VStr "relevant" ]};
                 "object_name" := VStr "Market";
                 "slugs" := VList [VStr "MARKET-9"; VStr "x"; VStr "MARKET-7"];
                 "ids" := VList [VStr "3"] ]}
              (VList [VStr "MARKET-9"; VStr "x"; VStr "MARKET-7"])
              "Market" [VStr "3"] [3])
    as [_ H]; [vm_compute; reflexivity .. |].
  apply H; vm_compute; reflexivity.
Defined.

Lemma init_names_known_classes_witness :
  Forall (λ oq, ∃ q name object_class,
            oq = VDict q ∧ q !! "object_name" = Some (VStr name)
            ∧ ex_object_map !! name = Some object_class) ex_batch_clean.
Proof.
  apply (init_names_known_classes ex_object_map ex_batch).
  vm_compute. reflexivity.
Defined.

(** ** Macro expansion *)

(** The start of [_macro_expand_object_query] on a [TaskGroupTask] query
    with an expression. *)
Lemma macro_expand_task (q f : gmap string value) exp :
  q !! "object_name" = Some (VStr "TaskGroupTask") →
  _macro_expand_object_query
    (VDict (<["filters" := VDict (<["expression" := exp]> f)]> q)) =
  keys ← _expression_keys exp;
  if key_in "start" keys || key_in "end" keys then
    exp' ← expand_task_dates exp;
    Ok (VDict (<["filters" := VDict (<["expression" := exp']> f)]> q))
  else Ok (VDict (<["filters" := VDict (<["expression" := exp]> f)]> q)).
Proof.
  intros Hq. unfold _macro_expand_object_query. cbn [py_getitem py_get].
  rewrite (lookup_insert_ne _ "filters" "object_name"), Hq by done.
  rewrite lookup_insert_eq.
  cbn [mbind result_bind str_eq String.eqb Ascii.eqb Bool.eqb default
       from_option id py_getitem py_setitem].
  rewrite lookup_insert_eq. cbn [mbind result_bind].
  destruct (_expression_keys exp) as [keys|]; [|done]. cbn [mbind result_bind].
  destruct (_ || _); [|done].
  destruct (expand_task_dates exp) as [exp'|]; [|done]. cbn.
  by rewrite !insert_insert_eq.
Qed.

(** X14.  In a [TaskGroupTask] query, the expansion reads [left] of every
    leaf below [AND] and [OR] by subscript.  When the left operand of an
    [AND] or [OR] holds a key [start] or [end] and expands, and the right
    operand is a leaf without [left] (as the leaves of [relevant],
    [text_search] and [similar] are), the expansion, and with it the
    constructor, fails with [KeyError]. *)
Theorem macro_expansion_needs_left (q f d o r ro : gmap string value)
    operator rname l l' keys :
  q !! "object_name" = Some (VStr "TaskGroupTask") →
  d !! "op" = Some (VDict o) →
  o !! "name" = Some operator →
  is_and_or operator = true →
  d !! "left" = Some l →
  _expression_keys l = Ok keys →
  key_in "start" keys || key_in "end" keys = true →
  expand_task_dates l = Ok l' →
  d !! "right" = Some (VDict r) →
  r !! "op" = Some (VDict ro) →
  ro !! "name" = Some rname →
  is_and_or rname = false →
  r !! "left" = None →
  _macro_expand_object_query
    (VDict (<["filters" := VDict (<["expression" := VDict d]> f)]> q)) =
    Raise KeyError.
Proof.
  intros Hq Hop Hname Hao Hl Hkeys Hin Hexp Hr Hrop Hrname Hrao Hrl.
  rewrite macro_expand_task by done.
  rewrite (expression_keys_and_or d o operator) by done.
  rewrite Hl, Hr. cbn [fmap option_fmap option_map default from_option id].
  rewrite Hkeys. cbn [mbind result_bind].
  assert (_expression_keys (VDict r) = Ok []) as ->.
  { cbn [_expression_keys py_get]. rewrite Hrop.
    cbn [default from_option id py_get mbind result_bind]. rewrite Hrname.
    cbn [default from_option id mbind result_bind]. by rewrite Hrao, Hrl. }
  cbn [mbind result_bind]. rewrite app_nil_r, Hin.
  rewrite (expand_task_dates_and_or d o operator) by done.
  rewrite Hl, Hr. cbn [fmap option_fmap option_map default from_option id].
  rewrite Hexp. cbn [mbind result_bind].
  assert (expand_task_dates (VDict r) = Raise KeyError) as ->; [|done].
  cbn [expand_task_dates]. rewrite bool_decide_true by (rewrite Hrop; eauto).
  cbn [py_getitem]. rewrite Hrop. cbn [mbind result_bind py_getitem].
  rewrite Hrname. cbn [mbind result_bind]. by rewrite Hrao, Hrl.
Qed.

(** X15.  In a [TaskGroupTask] query, a leaf on [start] or [end] whose
    right-hand side has three parts fails in three ways: when a part is
    no integer literal, with the [BadQueryException] "Date must consist
    of numbers"; when the three parts are integers, with the error of
    [datetime.date] itself, which lies outside the [try]: [ValueError]
    when they fit the C type [int] but name no day of the calendar,
    [OverflowError] when one of them does not fit. *)
Theorem macro_expansion_date_errors (q f d o : gmap string value)
    operator key s a b c :
  q !! "object_name" = Some (VStr "TaskGroupTask") →
  d !! "op" = Some (VDict o) →
  o !! "name" = Some operator →
  is_and_or operator = false →
  d !! "left" = Some (VStr key) →
  key = "start" ∨ key = "end" →
  d !! "right" = Some (VStr s) →
  split "/" s = [a; b; c] →
  let expanded :=
    _macro_expand_object_query
      (VDict (<["filters" := VDict (<["expression" := VDict d]> f)]> q)) in
  (int_of_str a = None ∨ int_of_str b = None ∨ int_of_str c = None →
   expanded = Raise (BadQueryException "Date must consist of numbers" []))
  ∧ (∀ month day year,
       int_of_str a = Some month →
       int_of_str b = Some day →
       int_of_str c = Some year →
       (c_int year && c_int month && c_int day = true →
        ¬ valid_date year month day →
        expanded = Raise ValueError)
       ∧ (c_int year && c_int month && c_int day = false →
          expanded = Raise OverflowError)).
Proof.
  intros Hq Hop Hname Hao Hleft Hkey Hright Hsplit expanded.
  assert (expanded =
          mdy ← except_Exception (mapM py_int [VStr a; VStr b; VStr c])
                  (BadQueryException "Date must consist of numbers" []);
          exp' ← match mdy with
                 | [month; day; year] =>
                   d' ← date year month day;
                   Ok (VDict (<["right" := d']>
                                (<["left" := VStr (key +:+ "_date")]> d)))
                 | _ => Raise ValueError
                 end;
          Ok (VDict (<["filters" := VDict (<["expression" := exp']> f)]> q)))
    as ->.
  { unfold expanded.
    rewrite (macro_expand_leaf q f d o operator key) by done.
    rewrite (expand_task_dates_leaf d o operator key s) by done.
    rewrite Hsplit.
    by destruct (except_Exception _ _). }
  split.
  - intros Hbad. cbn [mapM mbind result_bind py_int].
    destruct (int_of_str a); [|done]. cbn [mbind result_bind].
    destruct (int_of_str b); [|done]. cbn [mbind result_bind].
    destruct (int_of_str c); [|done].
    by destruct Hbad as [?|[?|?]].
  - intros month day year Ha Hb Hc.
    cbn [mapM mbind result_bind py_int]. rewrite Ha, Hb, Hc.
    cbn [mbind result_bind fmap result_fmap mret result_ret
         except_Exception].
    split.
    + intros Hfit Hinv. by rewrite date_invalid.
    + intros Hfit. by rewrite date_overflow.
Qed.

Lemma macro_expansion_needs_left_witness :
  _macro_expand_object_query
    (VDict (<["filters" :=
      VDict (<["expression" :=
        VDict {[ "op" := VDict {[ "name" := VStr "AND" ]};
                 "left" := leaf "=" "start" (VStr "15");
                 "right" := VDict {[ "op" := VDict {[ "name" := VStr "relevant" ]};
                                     "object_name" := VStr "Program";
                                     "ids" := VList [VInt 1] ]} ]}]> ∅)]>
      {[ "object_name" := VStr "TaskGroupTask" ]})) = Raise KeyError.
Proof.
  apply (macro_expansion_needs_left
           {[ "object_name" := VStr "TaskGroupTask" ]} ∅
           {[ "op" := VDict {[ "name" := VStr "AND" ]};
              "left" := leaf "=" "start" (VStr "15");
              "right" := VDict {[ "op" := VDict {[ "name" := VStr "relevant" ]};
                                  "object_name" := VStr "Program";
                                  "ids" := VList [VInt 1] ]} ]}
           {[ "name" := VStr "AND" ]}
           {[ "op" := VDict {[ "name" := VStr "relevant" ]};
              "object_name" := VStr "Program"; "ids" := VList [VInt 1] ]}
           {[ "name" := VStr "relevant" ]}
           (VStr "AND") (VStr "relevant")
           (leaf "=" "start" (VStr "15"))
           (leaf "=" "relative_start_day" (VStr "15"))
           [VStr "start"]);
    vm_compute; reflexivity.
Defined.

Lemma macro_expansion_date_errors_witness :
  _macro_expand_object_query
    (VDict (<["filters" :=
               VDict (<["expression" := leaf "=" "start" (VStr "3/x/2021")]> ∅)]>
              {[ "object_name" := VStr "TaskGroupTask" ]})) =
    Raise (BadQueryException "Date must consist of numbers" [])
  ∧ _macro_expand_object_query
      (VDict (<["filters" :=
                 VDict (<["expression" :=
                            leaf "=" "start" (VStr "2/30/2021")]> ∅)]>
                {[ "object_name" := VStr "TaskGroupTask" ]})) =
      Raise ValueError
  ∧ _macro_expand_object_query
      (VDict (<["filters" :=
                 VDict (<["expression" :=
                            leaf "=" "start"
                              (VStr "1/1/99999999999999999999")]> ∅)]>
                {[ "object_name" := VStr "TaskGroupTask" ]})) =
      Raise OverflowError.
Proof.
  split; [|split].
  - destruct (macro_expansion_date_errors
                {[ "object_name" := VStr "TaskGroupTask" ]} ∅
                {[ "op" := VDict {[ "name" := VStr "=" ]};
                   "left" := VStr "start"; "right" := VStr "3/x/2021" ]}
                {[ "name" := VStr "=" ]} (VStr "=") "start" "3/x/2021"
                "3" "x" "2021") as [H _];
      [vm_compute; reflexivity | vm_compute; reflexivity
      | vm_compute; reflexivity | vm_compute; reflexivity
      | vm_compute; reflexivity | left; reflexivity
      | vm_compute; reflexivity | vm_compute; reflexivity |].
    apply H. right; left. vm_compute. reflexivity.
  - destruct (macro_expansion_date_errors
                {[ "object_name" := VStr "TaskGroupTask" ]} ∅
                {[ "op" := VDict {[ "name" := VStr "=" ]};
                   "left" := VStr "start"; "right" := VStr "2/30/2021" ]}
                {[ "name" := VStr "=" ]} (VStr "=") "start" "2/30/2021"
                "2" "30" "2021") as [_ H];
      [vm_compute; reflexivity | vm_compute; reflexivity
      | vm_compute; reflexivity | vm_compute; reflexivity
      | vm_compute; reflexivity | left; reflexivity
      | vm_compute; reflexivity | vm_compute; reflexivity |].
    destruct (H 2 30 2021) as [H' _]; [vm_compute; reflexivity ..|].
    apply H'; [vm_compute; reflexivity|].
    unfold valid_date. vm_compute. intros (_ & _ & _ & H''). by apply H''.
  - destruct (macro_expansion_date_errors
                {[ "object_name" := VStr "TaskGroupTask" ]} ∅
                {[ "op" := VDict {[ "name" := VStr "=" ]};
                   "left" := VStr "start";
                   "right" := VStr "1/1/99999999999999999999" ]}
                {[ "name" := VStr "=" ]} (VStr "=") "start"
                "1/1/99999999999999999999"
                "1" "1" "99999999999999999999") as [_ H];
      [vm_compute; reflexivity | vm_compute; reflexivity
      | vm_compute; reflexivity | vm_compute; reflexivity
      | vm_compute; reflexivity | left; reflexivity
      | vm_compute; reflexivity | vm_compute; reflexivity |].
    destruct (H 1 1 99999999999999999999) as [_ H'];
      [vm_compute; reflexivity ..|].
    apply H'. vm_compute. reflexivity.
Defined.

(** * A further property of the driver *)

Section Permissions.

Variable object_map : gmap string pyclass.
Variable get_ids_related_to : string → value → value → list Z.
Variable db_filter : pyclass → pyexpr → list obj → result (list obj).
Variable db_order_by : list order_item → list obj → list obj.
Variable is_allowed_read_for : obj → bool.
Variable is_allowed_update_for : obj → bool.

Abbreviation permitted_ids' :=
  (permitted_ids object_map get_ids_related_to db_filter db_order_by
     is_allowed_read_for is_allowed_update_for).

Lemma get_objects_permitted query (q : gmap string value) g objs g'
    limit objs' :
  _get_objects object_map get_ids_related_to db_filter db_order_by
    is_allowed_read_for is_allowed_update_for query (VDict q) g =
    Ok (objs, g') →
  _apply_limit objs limit = Ok objs' →
  permitted_ids' q (ids_of objs').
Proof.
  rewrite get_objects_permission. unfold mbind, Py_bind.
  destruct (objects_query _ _ _ _ query (VDict q) g)
    as [[[rows|] g1]|] eqn:Hq; [| |done].
  - intros [= <- <-] Hl.
    apply apply_limit_list_inv in Hl as (a & b & ->).
    destruct (list_slice_segment
                (List.filter
                   (permission_check is_allowed_read_for
                      is_allowed_update_for q) rows) a b)
      as (pre & post & Hl).
    intros z Hz. cbn [ids_of] in Hz.
    apply list_elem_of_fmap in Hz as (o & -> & Ho).
    assert (o ∈ List.filter
                  (permission_check is_allowed_read_for
                     is_allowed_update_for q) rows) as Hin.
    { rewrite Hl. set_solver. }
    apply list_elem_of_In, filter_In in Hin as [Hin Hp].
    apply list_elem_of_In in Hin. by exists o, rows, query, g, g1.
  - intros [= <- <-] Hl.
    assert (objs' = EmptySet) as ->.
    { unfold _apply_limit in Hl. destruct (py_truthy limit); [|congruence].
      by destruct (unpack2 limit) as [[]|]. }
    intros z Hz. by apply elem_of_nil in Hz.
Qed.

Lemma get_ids_loop_permitted todo : ∀ done g res g',
  get_ids_loop object_map get_ids_related_to db_filter db_order_by
    is_allowed_read_for is_allowed_update_for done todo g = Ok (res, g') →
  ∃ todo',
    res = done ++ todo' ∧
    Forall2 (λ oq oq', ∃ q ids,
               oq = VDict q ∧ permitted_ids' q ids ∧
               oq' = VDict (<["ids" := VList (VInt <$> ids)]> q)) todo todo'.
Proof.
  induction todo as [|oq todo IH]; intros done g res g' H; cbn in H.
  - injection H as <- <-. exists []. split; [by rewrite app_nil_r|constructor].
  - apply Py_bind_inv in H as (objs & g1 & Hobjs & H).
    apply Py_bind_inv in H as (limit & g2 & Hlim & H).
    apply Py_bind_inv in H as (objs' & g3 & Hobjs' & H).
    apply get_objects_dict in Hobjs as Hd. destruct Hd as [q ->].
    apply lift_inv in Hobjs' as [Hobjs' _].
    apply IH in H as (todo' & -> & Htodo).
    exists (VDict (<["ids" := VList (VInt <$> ids_of objs')]> q) :: todo').
    split; [by rewrite <-app_assoc|]. constructor; [|done].
    exists q, (ids_of objs'). split; [done|]. split; [|done].
    by eapply get_objects_permitted.
Qed.

(** X16.  Whatever the store answers, every id that [get_ids] returns
    for an object query is the id of a row that the query of that entry
    selected and that passed the permission check the entry asks for
    ([is_allowed_update_for] for ["update"], [is_allowed_read_for]
    otherwise): filtering, ordering and pagination never let through an
    object that the check refuses. *)
Theorem get_ids_only_permitted query g query' g' :
  get_ids object_map get_ids_related_to db_filter db_order_by
    is_allowed_read_for is_allowed_update_for query g = Ok (query', g') →
  ∀ i oq', query' !! i = Some oq' →
    ∃ q ids,
      query !! i = Some (VDict q)
      ∧ py_getitem oq' "ids" = Ok (VList (VInt <$> ids))
      ∧ permitted_ids' q ids.
Proof.
  unfold get_ids. intros H i oq' Hi.
  apply get_ids_loop_permitted in H as (todo' & -> & Hloop). cbn [app] in Hi.
  destruct (Forall2_lookup_r _ _ _ _ _ Hloop Hi)
    as (oq & Hoq & q & ids & -> & Hp & ->).
  exists q, ids. split; [done|]. split; [|done].
  cbn. by rewrite lookup_insert_eq.
Qed.

End Permissions.

Lemma get_ids_only_permitted_witness :
  ∃ q ids,
    [VDict ex_no_op_query] !! 0%nat = Some (VDict q)
    ∧ py_getitem (VDict (<["ids" := VList [VInt 1; VInt 3]]> ex_no_op_query))
        "ids" = Ok (VList (VInt <$> ids))
    ∧ permitted_ids ex_object_map ex_get_ids_related_to ex_db_filter
        ex_db_order_by ex_is_allowed_read_for ex_is_allowed_update_for
        q ids.
Proof.
  apply (get_ids_only_permitted ex_object_map ex_get_ids_related_to
           ex_db_filter ex_db_order_by ex_is_allowed_read_for
           ex_is_allowed_update_for [VDict ex_no_op_query] (FlaskG None)
           [VDict (<["ids" := VList [VInt 1; VInt 3]]> ex_no_op_query)]
           (FlaskG None));
    vm_compute; reflexivity.
Defined.

(** * Sanitizing twice *)

Lemma map_fold_sum_lookup (m : gmap string nat) k n :
  m !! k = Some n → (n ≤ map_fold (λ _ n acc, (n + acc)%nat) 0%nat m)%nat.
Proof.
  induction m as [|k' n' m Hk' Hfold IH] using map_first_key_ind.
  - by rewrite lookup_empty.
  - rewrite map_fold_insert_first_key by done.
    destruct (decide (k = k')) as [->|Hne].
    + rewrite lookup_insert_eq. intros [= ->]. lia.
    + rewrite lookup_insert_ne by done. intros H. apply IH in H. lia.
Qed.

Lemma value_size_lookup (d : gmap string value) k v :
  d !! k = Some v → (value_size v < value_size (VDict d))%nat.
Proof.
  intros H. cbn [value_size].
  assert ((value_size <$> d) !! k = Some (value_size v)) as Hs
    by (by rewrite lookup_fmap, H).
  apply map_fold_sum_lookup in Hs. lia.
Qed.

Lemma value_tree_ind (P : value → Prop) :
  (∀ v, (∀ d k c, v = VDict d → d !! k = Some c → P c) → P v) →
  ∀ v, P v.
Proof.
  intros Hstep.
  assert (∀ n v, (value_size v < n)%nat → P v) as H.
  { induction n as [|n IH]; intros v Hv; [lia|].
    apply Hstep. intros d k c -> Hc. apply IH.
    apply value_size_lookup in Hc. lia. }
  intros v. apply (H (S (value_size v))). lia.
Qed.

(** The three ways [expand_task_dates] returns. *)
Lemma expand_task_dates_cases e e' :
  expand_task_dates e = Ok e' →
  e' = e
  ∨ (∃ (d o : gmap string value) operator l r l' r',
       e = VDict d ∧ d !! "op" = Some (VDict o) ∧ o !! "name" = Some operator
       ∧ is_and_or operator = true
       ∧ d !! "left" = Some l ∧ d !! "right" = Some r
       ∧ expand_task_dates l = Ok l' ∧ expand_task_dates r = Ok r'
       ∧ e' = VDict (<["right" := r']> (<["left" := l']> d)))
  ∨ (∃ (d o : gmap string value) operator key s,
       e = VDict d ∧ d !! "op" = Some (VDict o) ∧ o !! "name" = Some operator
       ∧ is_and_or operator = false
       ∧ d !! "left" = Some (VStr key) ∧ (key = "start" ∨ key = "end")
       ∧ d !! "right" = Some (VStr s)).
Proof.
  intros H. destruct e as [| | | | | |d]; try (left; cbn in H; congruence).
  destruct (d !! "op") as [op|] eqn:Hop.
  2:{ left. cbn [expand_task_dates] in H.
      rewrite bool_decide_false in H by (rewrite Hop; by intros []).
      congruence. }
  destruct op as [| | | | | |o];
    try (cbn [expand_task_dates] in H;
         rewrite bool_decide_true in H by (rewrite Hop; eauto);
         cbn [py_getitem] in H; rewrite Hop in H; discriminate H).
  destruct (o !! "name") as [operator|] eqn:Hname.
  2:{ cbn [expand_task_dates] in H.
      rewrite bool_decide_true in H by (rewrite Hop; eauto).
      cbn [py_getitem] in H. rewrite Hop in H.
      cbn [mbind result_bind py_getitem] in H. rewrite Hname in H.
      discriminate H. }
  destruct (is_and_or operator) eqn:Hao.
  - right; left.
    rewrite (expand_task_dates_and_or d o operator) in H by done.
    destruct (d !! "left") as [l|] eqn:Hl; [|done].
    cbn [fmap option_fmap option_map default from_option id] in H.
    destruct (expand_task_dates l) as [l'|] eqn:Hl'; [|done].
    cbn [mbind result_bind] in H.
    destruct (d !! "right") as [r|] eqn:Hr; [|done].
    cbn [fmap option_fmap option_map default from_option id] in H.
    destruct (expand_task_dates r) as [r'|] eqn:Hr'; [|done].
    cbn [mbind result_bind] in H. injection H as <-.
    by exists d, o, operator, l, r, l', r'.
  - cbn [expand_task_dates] in H.
    rewrite bool_decide_true in H by (rewrite Hop; eauto).
    cbn [py_getitem] in H. rewrite Hop in H.
    cbn [mbind result_bind py_getitem] in H. rewrite Hname in H.
    cbn [mbind result_bind] in H. rewrite Hao in H.
    destruct (d !! "left") as [lv|] eqn:Hl; [|done].
    cbn [mbind result_bind] in H.
    destruct lv as [| | |key| | |]; try (left; congruence).
    destruct (String.eqb key "start" || String.eqb key "end") eqn:Hkey;
      [|left; congruence].
    destruct (d !! "right") as [rv|] eqn:Hr; [|done].
    cbn [mbind result_bind] in H.
    destruct rv as [| | |s| | |]; try done.
    right; right. exists d, o, operator, key, s.
    repeat (split; [done|]). split; [|done].
    apply orb_true_iff in Hkey as [Hk|Hk]; apply String.eqb_eq in Hk; auto.
Qed.

(** A leaf on a key other than [start] and [end] is left as it is. *)
Lemma expand_task_dates_other_leaf (d o : gmap string value) operator left_ :
  d !! "op" = Some (VDict o) →
  o !! "name" = Some operator →
  is_and_or operator = false →
  d !! "left" = Some left_ →
  (∀ key, left_ = VStr key → key ≠ "start" ∧ key ≠ "end") →
  expand_task_dates (VDict d) = Ok (VDict d).
Proof.
  intros Hop Hname Hao Hl Hkey. cbn [expand_task_dates].
  rewrite bool_decide_true by (rewrite Hop; eauto).
  cbn [py_getitem]. rewrite Hop. cbn [mbind result_bind py_getitem].
  rewrite Hname. cbn [mbind result_bind]. rewrite Hao, Hl.
  cbn [mbind result_bind]. destruct left_ as [| | |key| | |]; try done.
  destruct (Hkey key eq_refl) as [H1 H2].
  apply String.eqb_neq in H1, H2. by rewrite H1, H2.
Qed.

Lemma relative_leaf_lookup operator l r :
  is_and_or operator = false →
  ∃ d o : gmap string value,
    relative_leaf operator l r = VDict d
    ∧ d !! "op" = Some (VDict o) ∧ o !! "name" = Some operator
    ∧ d !! "left" = Some (VStr l).
Proof.
  intros _. unfold relative_leaf. eexists _, _. split; [done|].
  split; [|split]; reflexivity.
Qed.

Lemma expand_task_dates_relative_leaf operator key part r :
  is_and_or operator = false →
  key = "start" ∨ key = "end" →
  expand_task_dates
    (relative_leaf operator ("relative_" +:+ key +:+ part) r) =
    Ok (relative_leaf operator ("relative_" +:+ key +:+ part) r).
Proof.
  intros Hao Hkey.
  destruct (relative_leaf_lookup operator ("relative_" +:+ key +:+ part) r Hao)
    as (d & o & -> & Hop & Hname & Hl).
  apply (expand_task_dates_other_leaf d o operator _ Hop Hname Hao Hl).
  intros k [= <-]. by destruct Hkey as [-> | ->].
Qed.

Lemma expression_keys_relative_leaf operator l r :
  is_and_or operator = false →
  _expression_keys (relative_leaf operator l r) = Ok [VStr l].
Proof.
  intros Hao.
  destruct (relative_leaf_lookup operator l r Hao)
    as (d & o & -> & Hop & Hname & Hl).
  by rewrite (expression_keys_leaf d o operator (VStr l)).
Qed.

(** What a leaf on [start] or [end] becomes, when it expands. *)
Lemma expand_task_dates_leaf_Ok (d o : gmap string value) operator key s e' :
  d !! "op" = Some (VDict o) →
  o !! "name" = Some operator →
  is_and_or operator = false →
  d !! "left" = Some (VStr key) →
  key = "start" ∨ key = "end" →
  d !! "right" = Some (VStr s) →
  expand_task_dates (VDict d) = Ok e' →
  (∃ date_, e' = VDict (<["right" := date_]>
                          (<["left" := VStr (key +:+ "_date")]> d)))
  ∨ (∃ month day,
       e' = VDict
         (<["right" := relative_leaf operator
                         ("relative_" +:+ key +:+ "_day") day]>
         (<["left" := relative_leaf operator
                         ("relative_" +:+ key +:+ "_month") month]>
         (<["op" := VDict {[ "name" := VStr "AND" ]}]> d))))
  ∨ e' = VDict (<["left" := VStr ("relative_" +:+ key +:+ "_day")]> d).
Proof.
  intros Hop Hname Hao Hl Hkey Hr H.
  rewrite (expand_task_dates_leaf d o operator key s) in H by done.
  destruct (split "/" s) as [|p1 [|p2 [|p3 [|p4 ps]]]]; try done.
  - right; right. congruence.
  - right; left. injection H as <-. eauto.
  - left. destruct (except_Exception _ _) as [mdy|]; [|done].
    cbn [mbind result_bind] in H.
    destruct mdy as [|m [|dd [|y [|]]]]; try done.
    destruct (date y m dd) as [date_|]; [|done]. cbn in H.
    injection H as <-. eauto.
Qed.

Lemma expand_task_dates_idemp : ∀ e e',
  expand_task_dates e = Ok e' → expand_task_dates e' = Ok e'.
Proof.
  induction e as [e IH] using value_tree_ind. intros e' H.
  destruct (expand_task_dates_cases e e' H)
    as [->|[(d & o & operator & l & r & l' & r' & -> & Hop & Hname & Hao
             & Hl & Hr & Hl' & Hr' & ->)
           |(d & o & operator & key & s & -> & Hop & Hname & Hao
             & Hl & Hkey & Hr)]]; [done| |].
  - rewrite (expand_task_dates_and_or _ o operator)
      by (by rewrite ?lookup_insert_ne by done).
    rewrite (lookup_insert_ne _ "right" "left"), !lookup_insert_eq by done.
    cbn [fmap option_fmap option_map default from_option id].
    rewrite (IH d "left" l eq_refl Hl l' Hl').
    cbn [mbind result_bind].
    rewrite (IH d "right" r eq_refl Hr r' Hr').
    cbn [mbind result_bind]. do 2 f_equal.
    rewrite (insert_insert_ne _ "left" "right") by done.
    by rewrite !insert_insert_eq.
  - destruct (expand_task_dates_leaf_Ok d o operator key s e'
                Hop Hname Hao Hl Hkey Hr H)
      as [[date_ ->]|[(month & day & ->)| ->]].
    + apply (expand_task_dates_other_leaf _ o operator
               (VStr (key +:+ "_date")));
        rewrite ?lookup_insert_eq, ?lookup_insert_ne by done; try done.
      * by rewrite lookup_insert_eq.
      * intros k [= <-]. by destruct Hkey as [-> | ->].
    + rewrite (expand_task_dates_and_or _ {[ "name" := VStr "AND" ]}
                 (VStr "AND"));
        [|by rewrite !lookup_insert_ne, lookup_insert_eq by done|done|done].
      rewrite (lookup_insert_ne _ "right" "left"), !lookup_insert_eq by done.
      cbn [fmap option_fmap option_map default from_option id].
      rewrite !expand_task_dates_relative_leaf by done.
      cbn [mbind result_bind]. do 2 f_equal.
      rewrite (insert_insert_ne _ "left" "right") by done.
      by rewrite !insert_insert_eq.
    + apply (expand_task_dates_other_leaf _ o operator
               (VStr ("relative_" +:+ key +:+ "_day")));
        rewrite ?lookup_insert_eq, ?lookup_insert_ne by done; try done.
      intros k [= <-]. by destruct Hkey as [-> | ->].
Qed.

Lemma expression_keys_and_or_inv (d o : gmap string value) operator keys :
  d !! "op" = Some (VDict o) →
  o !! "name" = Some operator →
  is_and_or operator = true →
  _expression_keys (VDict d) = Ok keys →
  ∃ l r kl kr, d !! "left" = Some l ∧ d !! "right" = Some r
    ∧ _expression_keys l = Ok kl ∧ _expression_keys r = Ok kr.
Proof.
  intros Hop Hname Hao H.
  rewrite (expression_keys_and_or d o operator) in H by done.
  destruct (d !! "left") as [l|]; [|done].
  cbn [fmap option_fmap option_map default from_option id] in H.
  destruct (_expression_keys l) as [kl|] eqn:Hkl; [|done].
  cbn [mbind result_bind] in H.
  destruct (d !! "right") as [r|]; [|done].
  cbn [fmap option_fmap option_map default from_option id] in H.
  destruct (_expression_keys r) as [kr|] eqn:Hkr; [|done].
  by exists l, r, kl, kr.
Qed.

Lemma expression_keys_expanded : ∀ e e' keys,
  _expression_keys e = Ok keys →
  expand_task_dates e = Ok e' →
  ∃ keys', _expression_keys e' = Ok keys'.
Proof.
  induction e as [e IH] using value_tree_ind. intros e' keys Hkeys H.
  destruct (expand_task_dates_cases e e' H)
    as [->|[(d & o & operator & l & r & l' & r' & -> & Hop & Hname & Hao
             & Hl & Hr & Hl' & Hr' & ->)
           |(d & o & operator & key & s & -> & Hop & Hname & Hao
             & Hl & Hkey & Hr)]]; [eauto| |].
  - destruct (expression_keys_and_or_inv d o operator keys Hop Hname Hao Hkeys)
      as (l0 & r0 & kl & kr & Hl0 & Hr0 & Hkl & Hkr).
    rewrite Hl in Hl0. rewrite Hr in Hr0. injection Hl0 as <-.
    injection Hr0 as <-.
    destruct (IH d "left" l eq_refl Hl l' kl Hkl Hl') as [kl' Hkl'].
    destruct (IH d "right" r eq_refl Hr r' kr Hkr Hr') as [kr' Hkr'].
    exists (kl' ++ kr').
    rewrite (expression_keys_and_or _ o operator)
      by (by rewrite ?lookup_insert_ne by done).
    rewrite (lookup_insert_ne _ "right" "left"), !lookup_insert_eq by done.
    cbn [fmap option_fmap option_map default from_option id].
    by rewrite Hkl', Hkr'.
  - destruct (expand_task_dates_leaf_Ok d o operator key s e'
                Hop Hname Hao Hl Hkey Hr H)
      as [[date_ ->]|[(month & day & ->)| ->]].
    + eexists.
      apply (expression_keys_leaf _ o operator (VStr (key +:+ "_date")));
        rewrite ?lookup_insert_eq, ?lookup_insert_ne by done; try done.
      by rewrite lookup_insert_eq.
    + eexists.
      rewrite (expression_keys_and_or _ {[ "name" := VStr "AND" ]}
                 (VStr "AND"));
        [|by rewrite !lookup_insert_ne, lookup_insert_eq by done|done|done].
      rewrite (lookup_insert_ne _ "right" "left"), !lookup_insert_eq by done.
      cbn [fmap option_fmap option_map default from_option id].
      by rewrite !expression_keys_relative_leaf by done.
    + eexists.
      apply (expression_keys_leaf _ o operator
               (VStr ("relative_" +:+ key +:+ "_day")));
        rewrite ?lookup_insert_eq, ?lookup_insert_ne by done; done.
Qed.

(** X17.  Macro expansion is idempotent: an object query that
    [_macro_expand_object_query] returns is returned unchanged when it is
    expanded again.  As the constructor rewrites the caller's query in
    place, a query that went through one helper can be given to
    another. *)
Theorem macro_expansion_idempotent object_query object_query' :
  _macro_expand_object_query object_query = Ok object_query' →
  _macro_expand_object_query object_query' = Ok object_query'.
Proof.
  intros H. pose proof H as H0. unfold _macro_expand_object_query in H.
  destruct object_query as [| | | | | |q]; try done.
  cbn [py_getitem py_get] in H.
  destruct (q !! "object_name") as [object_name|] eqn:Hn; [|done].
  cbn [mbind result_bind] in H.
  destruct (str_eq object_name "TaskGroupTask") eqn:Ht; [|congruence].
  destruct object_name as [| | |name| | |]; try done.
  cbn in Ht. apply String.eqb_eq in Ht as ->.
  destruct (q !! "filters") as [filters|] eqn:Hf; [|cbn in H; congruence].
  cbn [default from_option id] in H.
  destruct filters as [| | | | | |f];
    try (cbn in H; congruence).
  cbn [py_getitem] in H.
  destruct (f !! "expression") as [exp|] eqn:He; [|done].
  cbn [mbind result_bind] in H.
  destruct (_expression_keys exp) as [keys|] eqn:Hkeys; [|done].
  cbn [mbind result_bind] in H.
  destruct (key_in "start" keys || key_in "end" keys); [|congruence].
  destruct (expand_task_dates exp) as [exp'|] eqn:Hexp; [|done].
  cbn [mbind result_bind py_setitem] in H. injection H as <-.
  rewrite macro_expand_task by done.
  destruct (expression_keys_expanded exp exp' keys Hkeys Hexp) as [keys' ->].
  cbn [mbind result_bind].
  destruct (key_in "start" keys' || key_in "end" keys'); [|done].
  by rewrite (expand_task_dates_idemp exp exp' Hexp).
Qed.

Lemma has_slugs_false (d : gmap string value) :
  has_slugs (VDict d) = false →
  py_truthy (default VNone (d !! "slugs")) = false
  ∧ ∀ k c, k = "left" ∨ k = "right" → d !! k = Some c → has_slugs c = false.
Proof.
  cbn [has_slugs]. rewrite !lookup_fmap. intros H.
  apply orb_false_iff in H as [H Hr]. apply orb_false_iff in H as [Hs Hl].
  split; [done|]. intros k c [-> | ->] Hk; rewrite Hk in *; done.
Qed.

Section Resanitize.
Variable object_map : gmap string pyclass.

Lemma resolve_slugs_none (d : gmap string value) :
  py_truthy (default VNone (d !! "slugs")) = false →
  resolve_slugs object_map d = Ok d.
Proof. intros H. unfold resolve_slugs. by rewrite H. Qed.

Lemma coerce_ids_ints (d : gmap string value) ints :
  d !! "ids" = Some (VList (VInt <$> ints)) → coerce_ids d = Ok ints.
Proof.
  intros H. unfold coerce_ids. rewrite H.
  cbn [default from_option id py_iter mbind result_bind].
  by rewrite mapM_py_int_VInt.
Qed.

(** X18.  On an expression none of whose nodes carries slugs,
    [_clean_filters] is idempotent: the expression it returns is returned
    unchanged when it is sanitized again.  (With slugs the ids they
    resolve to would be appended once more.) *)
Theorem clean_filters_idempotent : ∀ e e',
  has_slugs e = false →
  _clean_filters object_map e = Ok e' →
  _clean_filters object_map e' = Ok e'.
Proof.
  induction e as [e IH] using value_tree_ind. intros e' Hns H.
  destruct e as [| | | | | |d]; try (cbn in H; by injection H as <-).
  destruct (decide (d = ∅)) as [->|Hd].
  { rewrite _clean_filters_unfold in H.
    destruct (py_truthy (VDict ∅)) eqn:Ht; [by apply py_truthy_dict in Ht|].
    cbn [negb] in H. injection H as <-.
    rewrite _clean_filters_unfold. by rewrite Ht. }
  apply has_slugs_false in Hns as [Hs Hbelow].
  destruct (_clean_filters_Ok object_map d e' Hd H)
    as (d1 & ints & d' & -> & Hd1 & Hc & Hi & Hch & Hfr).
  assert (d' ≠ ∅) as Hd' by (intros ->; by rewrite lookup_empty in Hi).
  assert (py_truthy (default VNone (d' !! "slugs")) = false) as Hs'
    by (by rewrite Hfr).
  rewrite _clean_filters_unfold.
  apply py_truthy_dict in Hd' as ->. cbn [negb].
  rewrite (resolve_slugs_none d' Hs'). cbn [mbind result_bind].
  rewrite (coerce_ids_ints d' ints Hi). cbn [mbind result_bind].
  rewrite (insert_id d' "ids") by done.
  assert (∀ k, k = "left" ∨ k = "right" →
            match d' !! k with
            | Some c' => _clean_filters object_map c' = Ok c'
            | None => True
            end) as Hkids.
  { intros k Hk. specialize (Hch k Hk).
    destruct (d !! k) as [c|] eqn:Hdk.
    - destruct Hch as (c' & Hc' & ->).
      apply (IH d k c eq_refl Hdk); [|done]. by eapply Hbelow.
    - by rewrite Hch. }
  pose proof (Hkids "left" ltac:(by left)) as Hleft.
  pose proof (Hkids "right" ltac:(by right)) as Hright.
  destruct (d' !! "left") as [l'|] eqn:Hl';
    cbn [fmap option_fmap option_map mbind result_bind];
    [rewrite Hleft; cbn [mbind result_bind];
     rewrite (insert_id d' "left") by done|];
    (destruct (d' !! "right") as [r'|] eqn:Hr';
     cbn [fmap option_fmap option_map mbind result_bind];
     [rewrite Hright; cbn [mbind result_bind];
      by rewrite (insert_id d' "right") by done|done]).
Qed.
End Resanitize.

Lemma macro_expansion_idempotent_witness :
  let expanded :=
    VDict (<["filters" :=
      VDict (<["expression" :=
        VDict (<["right" := relative_leaf (VStr "=") "relative_start_day" "15"]>
              (<["left" := relative_leaf (VStr "=") "relative_start_month" "3"]>
              (<["op" := VDict {[ "name" := VStr "AND" ]}]>
                 {[ "op" := VDict {[ "name" := VStr "=" ]};
                    "left" := VStr "start"; "right" := VStr "3/15" ]})))]> ∅)]>
      {[ "object_name" := VStr "TaskGroupTask" ]}) in
  _macro_expand_object_query expanded = Ok expanded.
Proof.
  intros expanded.
  apply (macro_expansion_idempotent
           (VDict (<["filters" :=
                      VDict (<["expression" :=
                                 leaf "=" "start" (VStr "3/15")]> ∅)]>
                     {[ "object_name" := VStr "TaskGroupTask" ]}))).
  vm_compute. reflexivity.
Defined.

Lemma clean_filters_idempotent_witness :
  _clean_filters ex_object_map
    (VDict {[ "op" := VDict {[ "name" := VStr "relevant" ]};
              "object_name" := VStr "Program";
              "ids" := VList [VInt 1; VInt 2] ]}) =
    Ok (VDict {[ "op" := VDict {[ "name" := VStr "relevant" ]};
                 "object_name" := VStr "Program";
                 "ids" := VList [VInt 1; VInt 2] ]}).
Proof.
  apply (clean_filters_idempotent ex_object_map
           (VDict {[ "op" := VDict {[ "name" := VStr "relevant" ]};
                     "object_name" := VStr "Program";
                     "ids" := VList [VStr "1"; VStr " 2 "] ]}));
    vm_compute; reflexivity.
Defined.

(** * The attribute name map *)

Lemma for_each_inv {A S} (P : S → Prop) (f : S → A → result S) l : ∀ s s',
  (∀ s x s', P s → f s x = Ok s' → P s') →
  P s → for_each f s l = Ok s' → P s'.
Proof.
  induction l as [|x l IH]; intros s s' Hf Hs H; cbn in H.
  - by injection H as <-.
  - destruct (f s x) as [s1|] eqn:Hx; [|done]. cbn in H. eauto.
Qed.

Lemma for_each_app {A S} (f : S → A → result S) l1 l2 s :
  for_each f s (l1 ++ l2) = s' ← for_each f s l1; for_each f s' l2.
Proof.
  revert s. induction l1 as [|x l1 IH]; intros s; cbn; [done|].
  destruct (f s x); cbn; [apply IH|done].
Qed.

Lemma lower_case_map_insert m name key filter_by :
  lower_case_map m →
  lower_case_map (<[lower name := (lower key, filter_by)]> m).
Proof.
  intros Hm n k f. destruct (decide (n = lower name)) as [->|Hne].
  - rewrite lookup_insert_eq. intros [= <- <-]. by rewrite !lower_idemp.
  - rewrite lookup_insert_ne by done. apply Hm.
Qed.

Section AttrNameMapProps.
Variable class_getattr : string → option custom_filter.
Variable mk_filter_by_custom : value → custom_filter.

Lemma alias_step_lower m item m' :
  lower_case_map m →
  alias_step class_getattr m item = Ok m' → lower_case_map m'.
Proof.
  intros Hm H. destruct item as [key value_]. unfold alias_step in H.
  destruct (match value_ with VDict _ => _ | _ => _ end)
    as [[filter_by display]|]; [|done].
  cbn [mbind result_bind] in H.
  destruct (py_truthy display); [|by injection H as <-].
  destruct display; try done. cbn in H. injection H as <-.
  by apply lower_case_map_insert.
Qed.

Lemma custom_attr_step_lower m item m' :
  lower_case_map m →
  custom_attr_step mk_filter_by_custom m item = Ok m' → lower_case_map m'.
Proof.
  intros Hm H. destruct item as [key definition]. unfold custom_attr_step in H.
  destruct (negb _); [by injection H as <-|].
  destruct (py_contains _ _) as [named|]; [|done].
  cbn [mbind result_bind] in H.
  destruct (negb named); [by injection H as <-|].
  destruct (_ ≫= py_first) as [attr_id|[]]; try done;
    [|by injection H as <-].
  destruct (py_getitem definition "display_name") as [display|]; [|done].
  cbn [mbind result_bind] in H. destruct display; try done. cbn in H.
  injection H as <-.
  rewrite <-(lower_idemp s) at 2. by apply lower_case_map_insert.
Qed.

(** X19.  Every entry of the attribute name map that
    [_set_attr_name_map] builds for a class is keyed by a display name in
    lower case and names its attribute in lower case, whatever the
    aliases and the custom attribute definitions are.  So a field name
    finds its entry once it is put in lower case, as [with_key] does, and
    only then. *)
Theorem attr_name_map_lower_case ca_disabled aliases custom_attrs m :
  class_attr_name_map class_getattr mk_filter_by_custom ca_disabled
    aliases custom_attrs = Ok m →
  lower_case_map m.
Proof.
  unfold class_attr_name_map. intros H.
  destruct (for_each _ ∅ aliases) as [m0|] eqn:Ha; [|done].
  cbn [mbind result_bind] in H.
  assert (lower_case_map m0) as Hm0.
  { apply (for_each_inv lower_case_map (alias_step class_getattr)
             aliases ∅ m0); [|done|done].
    intros s x s'. apply alias_step_lower. }
  eapply (for_each_inv lower_case_map); [|exact Hm0|exact H].
  intros s x s'. apply custom_attr_step_lower.
Qed.

(** X20.  The custom attribute definitions are read after the aliases:
    the definition visited last, when its key starts with [__custom__:]
    and it has a display name and a first definition id, owns the entry
    of its display name (in lower case), with the filter made for that
    id, even if an alias has the same display name.  With [ca_disabled]
    the definitions are not read at all. *)
Theorem custom_attribute_overrides_alias aliases custom_attrs key
    (definition : gmap string value) name attr_id rest m :
  String.prefix "__custom__:" key = true →
  definition !! "display_name" = Some (VStr name) →
  definition !! "definition_ids" = Some (VList (attr_id :: rest)) →
  class_attr_name_map class_getattr mk_filter_by_custom false
    aliases (custom_attrs ++ [(key, VDict definition)]) = Ok m →
  m !! lower name = Some (lower name, Some (mk_filter_by_custom attr_id))
  ∧ ∀ other, class_attr_name_map class_getattr mk_filter_by_custom true
      aliases other = for_each (alias_step class_getattr) ∅ aliases.
Proof.
  intros Hp Hn Hi H. split.
  - unfold class_attr_name_map in H.
    destruct (for_each _ ∅ aliases) as [m0|]; [|done].
    cbn [mbind result_bind] in H. rewrite for_each_app in H.
    destruct (for_each _ m0 custom_attrs) as [m1|]; [|done].
    cbn [mbind result_bind for_each] in H. unfold custom_attr_step in H.
    rewrite Hp in H. cbn [negb py_contains mbind result_bind] in H.
    rewrite bool_decide_true in H by (rewrite Hn; eauto).
    cbn [negb py_getitem] in H. rewrite Hi, Hn in H. cbn in H.
    injection H as <-. by rewrite lookup_insert_eq.
  - intros other. unfold class_attr_name_map.
    by destruct (for_each _ ∅ aliases).
Qed.
End AttrNameMapProps.

Lemma attr_name_map_lower_case_witness :
  lower_case_map
    {[ "facility url" := ("url", None);
       "title" := ("title", None);
       "risk level" := ("risk level", Some (ex_mk_filter_by_custom (VInt 3))) ]}.
Proof.
  apply (attr_name_map_lower_case ex_class_getattr ex_mk_filter_by_custom
           false ex_aliases ex_custom_attrs).
  vm_compute. reflexivity.
Defined.

Lemma custom_attribute_overrides_alias_witness :
  ({[ "facility url" := ("url", None);
      "title" := ("title", None);
      "risk level" := ("risk level", Some (ex_mk_filter_by_custom (VInt 3))) ]}
     : gmap string (string * option custom_filter)) !! lower "Risk Level" =
    Some (lower "Risk Level", Some (ex_mk_filter_by_custom (VInt 3))).
Proof.
  apply (custom_attribute_overrides_alias ex_class_getattr
           ex_mk_filter_by_custom ex_aliases [] "__custom__:3"
           {[ "display_name" := VStr "Risk Level";
              "definition_ids" := VList [VInt 3] ]}
           "Risk Level" (VInt 3) []);
    vm_compute; reflexivity.
Defined.

(** * Sanitizer, compiler and store together *)

Section Composition.
Variable object_map : gmap string pyclass.
Variable get_ids_related_to : string → value → value → list Z.
Variable db_order_by : list order_item → list obj → list obj.

(** X21.  An object query whose [filters] is a dictionary without
    [expression], or with the expression [None], passes the sanitizer
    unchanged for every type but [TaskGroupTask]; for [TaskGroupTask] the
    macro expansion reads [filters["expression"]] by subscript and calls
    [_expression_keys] on it, and the constructor fails with [KeyError],
    resp. [AttributeError]. *)
Theorem task_query_needs_expression (q f : gmap string value) name :
  q !! "object_name" = Some (VStr name) →
  q !! "filters" = Some (VDict f) →
  (f !! "expression" = None →
   clean_object_query object_map (VDict q) =
     if String.eqb name "TaskGroupTask" then Raise KeyError else Ok (VDict q))
  ∧ (f !! "expression" = Some VNone →
     clean_object_query object_map (VDict q) =
       if String.eqb name "TaskGroupTask" then Raise AttributeError
       else Ok (VDict q)).
Proof.
  intros Hn Hf. unfold clean_object_query. cbn [py_get]. rewrite Hf.
  cbn [default from_option id mbind result_bind py_get].
  split; intros He; rewrite He;
    cbn [default from_option id mbind result_bind _clean_filters];
    unfold _macro_expand_object_query; cbn [py_getitem py_get];
    rewrite Hn; cbn [mbind result_bind str_eq];
    (destruct (String.eqb name "TaskGroupTask"); [|done]);
    rewrite Hf; cbn [default from_option id py_getitem]; by rewrite He.
Qed.

(** X22.  Sanitizer and compiler fit together on a [relevant] leaf that
    names an object type: once the leaf is sanitized, its [ids] are a
    list of integers (the ids given and those of the slugs), and the leaf
    compiles, without error, to the membership in the ids that the
    relationship helper returns for that type and that list. *)
Theorem relevant_after_sanitizing query (d o : gmap string value) name e'
    object_class fields g :
  d !! "op" = Some (VDict o) →
  o !! "name" = Some (VStr "relevant") →
  d !! "object_name" = Some (VStr name) →
  name ≠ "__previous__" →
  _clean_filters object_map (VDict d) = Ok e' →
  ∃ ints,
    py_getitem e' "ids" = Ok (VList (VInt <$> ints))
    ∧ _build_expression object_map get_ids_related_to query e'
        object_class fields g =
        Ok (PIdIn (get_ids_related_to (cls_name object_class) (VStr name)
                     (VList (VInt <$> ints))), g).
Proof.
  intros Hop Hname Hn Hne H.
  assert (d ≠ ∅) as Hd by (intros ->; by rewrite lookup_empty in Hop).
  destruct (_clean_filters_Ok object_map d e' Hd H)
    as (d1 & ints & d' & -> & _ & _ & Hi & _ & Hfr).
  exists ints. cbn [py_getitem]. rewrite Hi. split; [done|].
  assert (d' !! "op" = Some (VDict o)) as Hop' by (by rewrite Hfr).
  assert (d' !! "object_name" = Some (VStr name)) as Hn' by (by rewrite Hfr).
  rewrite (build_expression_relevant _ _ query d' o) by done.
  unfold relevant. cbn [py_getitem]. rewrite Hn'.
  cbn [mbind result_bind str_eq].
  apply String.eqb_neq in Hne as ->.
  cbn [mbind result_bind py_getitem]. rewrite Hn'.
  cbn [mbind result_bind]. by rewrite Hi.
Qed.

Lemma mapM_join_and_order model clauses : ∀ g items g',
  mapM (join_and_order model) clauses g = Ok (items, g') →
  g' = g ∧ Forall2 (λ clause item, join_and_order model clause g = Ok (item, g))
             clauses items.
Proof.
  induction clauses as [|c clauses IH]; intros g items g' H; cbn in H.
  - injection H as <- <-. by split.
  - apply Py_bind_inv in H as (item & g1 & Hc & H).
    apply Py_bind_inv in H as (items' & g2 & Hcs & H).
    injection H as <- <-.
    assert (g1 = g) as ->.
    { unfold join_and_order in Hc.
      apply Py_bind_inv in Hc as (name & ga & Hc1 & Hc).
      apply lift_inv in Hc1 as [_ ->].
      apply Py_bind_inv in Hc as (key & gb & Hc2 & Hc).
      assert (gb = g) as ->.
      { destruct name; try done. by injection Hc2 as _ <-. }
      apply Py_bind_inv in Hc as ([join order] & gc & Hc3 & Hc).
      assert (gc = g) as ->.
      { destruct (String.eqb key "__similarity__").
        - unfold mbind, Py_bind, get_flask_g in Hc3.
          destruct (similar_objects_query g); [|done]. by injection Hc3 as _ _ <-.
        - destruct (cls_getattr model _) as [attr|]; [|done].
          destruct (attr_kind_of attr); try done; by injection Hc3 as _ _ <-. }
      apply Py_bind_inv in Hc as (desc & gd & Hc4 & Hc).
      apply lift_inv in Hc4 as [_ ->]. by injection Hc as _ <-. }
    apply IH in Hcs as [-> Hcs]. split; [done|]. by constructor.
Qed.

(** X23.  When [_apply_order_by] returns on a list of clauses, every
    clause has given its pair of join and order, in the order of the
    list, the rows are those the store returns for these pairs, and
    [flask.g] is as before: ordering reads [flask.g], it does not write
    it. *)
Theorem apply_order_by_items model rows clauses g rows' g' :
  _apply_order_by db_order_by model rows (VList clauses) g = Ok (rows', g') →
  g' = g
  ∧ ∃ items,
      Forall2 (λ clause item, join_and_order model clause g = Ok (item, g))
        clauses items
      ∧ rows' = db_order_by items rows.
Proof.
  unfold _apply_order_by. cbn [py_iter]. rewrite Py_bind_lift_Ok. intros H.
  apply Py_bind_inv in H as (items & g1 & Hitems & H).
  apply mapM_join_and_order in Hitems as [-> Hitems].
  destruct items as [|item items]; [done|].
  injection H as <- <-. split; [done|]. by exists (item :: items).
Qed.
End Composition.

Lemma task_query_needs_expression_witness :
  clean_object_query ex_object_map
    (VDict {[ "object_name" := VStr "TaskGroupTask";
              "filters" := VDict ∅ ]}) = Raise KeyError
  ∧ clean_object_query ex_object_map
      (VDict {[ "object_name" := VStr "Program"; "filters" := VDict ∅ ]}) =
      Ok (VDict {[ "object_name" := VStr "Program"; "filters" := VDict ∅ ]}).
Proof.
  split.
  - destruct (task_query_needs_expression ex_object_map
                {[ "object_name" := VStr "TaskGroupTask";
                   "filters" := VDict ∅ ]} ∅ "TaskGroupTask") as [H _];
      [vm_compute; reflexivity | vm_compute; reflexivity |].
    apply H. reflexivity.
  - destruct (task_query_needs_expression ex_object_map
                {[ "object_name" := VStr "Program"; "filters" := VDict ∅ ]}
                ∅ "Program") as [H _];
      [vm_compute; reflexivity | vm_compute; reflexivity |].
    apply H. reflexivity.
Defined.

Lemma relevant_after_sanitizing_witness :
  ∃ ints,
    py_getitem
      (VDict {[ "op" := VDict {[ "name" := VStr "relevant" ]};
                "object_name" := VStr "Program";
                "ids" := VList [VInt 1; VInt 3] ]}) "ids" =
      Ok (VList (VInt <$> ints))
    ∧ _build_expression ex_object_map ex_get_ids_related_to []
        (VDict {[ "op" := VDict {[ "name" := VStr "relevant" ]};
                  "object_name" := VStr "Program";
                  "ids" := VList [VInt 1; VInt 3] ]})
        ex_Facility (VList []) (FlaskG None) =
        Ok (PIdIn (ex_get_ids_related_to (cls_name ex_Facility)
                     (VStr "Program") (VList (VInt <$> ints))), FlaskG None).
Proof.
  apply (relevant_after_sanitizing ex_object_map ex_get_ids_related_to []
           {[ "op" := VDict {[ "name" := VStr "relevant" ]};
              "object_name" := VStr "Program";
              "ids" := VList [VStr "1"; VStr "3"] ]}
           {[ "name" := VStr "relevant" ]} "Program");
    [vm_compute; reflexivity | vm_compute; reflexivity
    | vm_compute; reflexivity | discriminate | vm_compute; reflexivity].
Defined.

Lemma apply_order_by_items_witness :
  FlaskG None = FlaskG None
  ∧ ∃ items,
      Forall2 (λ clause item,
                 join_and_order ex_Program clause (FlaskG None) =
                   Ok (item, FlaskG None))
        [VDict {[ "name" := VStr "Title"; "desc" := VBool true ]}] items
      ∧ cls_query ex_Program = ex_db_order_by items (cls_query ex_Program).
Proof.
  apply (apply_order_by_items ex_db_order_by ex_Program
           (cls_query ex_Program)
           [VDict {[ "name" := VStr "Title"; "desc" := VBool true ]}]
           (FlaskG None) (cls_query ex_Program) (FlaskG None)).
  vm_compute. reflexivity.
Defined.

(** * Further properties, of pagination and of the sanitizer *)

(** X24.  A limit [[-k, None]] with [k > 0] selects the last [k] objects
    (all of them when there are fewer): the bounds go to Python's slice
    as they are, and a negative bound counts from the end. *)
Theorem apply_limit_from_end (l : list obj) (k : nat) :
  (0 < k)%nat →
  _apply_limit (ObjList l) (VList [VInt (- Z.of_nat k); VNone]) =
    Ok (ObjList (drop (length l - k) l)).
Proof.
  intros Hk. cbn. do 2 f_equal. unfold list_slice, clamp.
  destruct (Z.ltb_spec (- Z.of_nat k) 0); [|lia].
  replace (Z.to_nat ((- Z.of_nat k + Z.of_nat (length l)) `max` 0))
    with (length l - k)%nat by lia.
  apply take_ge. rewrite length_drop. lia.
Qed.

Lemma apply_limit_from_end_witness :
  _apply_limit (ObjList ex_ten) (VList [VInt (- Z.of_nat 3); VNone]) =
    Ok (ObjList (drop (length ex_ten - 3) ex_ten)).
Proof. apply (apply_limit_from_end ex_ten 3). lia. Defined.

Section Frame.
Variable object_map : gmap string pyclass.

(** X25.  What [_clean_filters] leaves alone.  An expression that is no
    dictionary, or the empty one, is returned as it is.  On any other
    dictionary the result, when there is one, is a dictionary with the
    same keys and the key [ids]; its entries other than [ids], [left] and
    [right] are those of the expression: the operator, the object name,
    the slugs and every other entry are never rewritten. *)
Theorem clean_filters_frame :
  (∀ e, (∀ d, e = VDict d → d = ∅) → _clean_filters object_map e = Ok e)
  ∧ ∀ (d : gmap string value) e',
      py_truthy (VDict d) = true →
      _clean_filters object_map (VDict d) = Ok e' →
      ∃ d' : gmap string value,
        e' = VDict d'
        ∧ dom d' = {["ids"]} ∪ dom d
        ∧ ∀ k, k ≠ "ids" → k ≠ "left" → k ≠ "right" → d' !! k = d !! k.
Proof.
  split.
  { intros e He. destruct e as [| | | | | |d]; try done.
    rewrite (He d eq_refl), _clean_filters_unfold.
    destruct (py_truthy (VDict ∅)) eqn:Ht; [by apply py_truthy_dict in Ht|].
    done. }
  intros d e' Hd H. apply py_truthy_dict in Hd.
  destruct (_clean_filters_Ok object_map d e' Hd H)
    as (d1 & ints & d' & -> & _ & _ & Hi & Hch & Hfr).
  exists d'. split; [done|]. split; [|done].
  apply set_eq. intros k.
  rewrite elem_of_union, elem_of_singleton, !elem_of_dom.
  destruct (decide (k = "ids")) as [->|Hk1].
  { rewrite Hi. split; [by left|eauto]. }
  assert (∀ k', k' = "left" ∨ k' = "right" →
            is_Some (d' !! k') ↔ is_Some (d !! k')) as Hkids.
  { intros k' Hk'. specialize (Hch k' Hk').
    destruct (d !! k') as [c|].
    - destruct Hch as (c' & _ & ->). split; eauto.
    - by rewrite Hch. }
  destruct (decide (k = "left")) as [->|Hk2].
  { rewrite Hkids by (by left). split; [by right|]. by intros [?|?]. }
  destruct (decide (k = "right")) as [->|Hk3].
  { rewrite Hkids by (by right). split; [by right|]. by intros [?|?]. }
  rewrite Hfr by done. split; [by right|]. by intros [?|?].
Qed.

End Frame.

Lemma clean_filters_frame_witness :
  ∃ d' : gmap string value,
    VDict {[ "op" := VDict {[ "name" := VStr "=" ]};
             "left" := VStr "title"; "right" := VStr "x";
             "ids" := VList [] ]} = VDict d'
    ∧ dom d' = {["ids"]} ∪ dom ({[ "op" := VDict {[ "name" := VStr "=" ]};
                                   "left" := VStr "title";
                                   "right" := VStr "x" ]} : gmap string value)
    ∧ ∀ k, k ≠ "ids" → k ≠ "left" → k ≠ "right" →
        d' !! k = ({[ "op" := VDict {[ "name" := VStr "=" ]};
                      "left" := VStr "title";
                      "right" := VStr "x" ]} : gmap string value) !! k.
Proof.
  apply (proj2 (clean_filters_frame ex_object_map)
           {[ "op" := VDict {[ "name" := VStr "=" ]};
              "left" := VStr "title"; "right" := VStr "x" ]});
    vm_compute; reflexivity.
Defined.

(** * Macro expansion below [AND] and [OR] *)

Lemma and_or_node_inv (d : gmap string value) :
  and_or_node d = true →
  ∃ (o : gmap string value) operator,
    d !! "op" = Some (VDict o) ∧ o !! "name" = Some operator
    ∧ is_and_or operator = true.
Proof.
  unfold and_or_node. intros H.
  destruct (d !! "op") as [[| | | | | |o]|]; try done.
  destruct (o !! "name") as [operator|] eqn:Hn; [|done]. eauto.
Qed.

Lemma and_or_node_insert (d : gmap string value) k v :
  k ≠ "op" → and_or_node (<[k := v]> d) = and_or_node d.
Proof. intros Hk. unfold and_or_node. by rewrite lookup_insert_ne. Qed.

Lemma operand_at_cons b p (d : gmap string value) c :
  and_or_node d = true →
  d !! (if b : bool then "right" else "left") = Some c →
  operand_at (b :: p) (VDict d) = operand_at p c.
Proof. intros Hd Hc. cbn [operand_at]. by rewrite Hd, Hc. Qed.

Lemma operand_at_cons_inv b p e n :
  operand_at (b :: p) e = Some n →
  ∃ (d : gmap string value) c,
    e = VDict d ∧ and_or_node d = true
    ∧ d !! (if b : bool then "right" else "left") = Some c
    ∧ operand_at p c = Some n.
Proof.
  cbn [operand_at]. destruct e as [| | | | | |d]; try done.
  destruct (and_or_node d) eqn:Hd; [|done].
  destruct (d !! _) as [c|] eqn:Hc; [|done]. cbn. eauto 10.
Qed.

(** The keys of an operand are among the keys of the expression. *)
Lemma expression_keys_operand p : ∀ e keys n,
  _expression_keys e = Ok keys →
  operand_at p e = Some n →
  ∃ keys', _expression_keys n = Ok keys'
           ∧ ∀ s, key_in s keys' = true → key_in s keys = true.
Proof.
  induction p as [|b p IH]; intros e keys n Hkeys Hn.
  - injection Hn as <-. eauto.
  - apply operand_at_cons_inv in Hn as (d & c & -> & Hd & Hc & Hn).
    apply and_or_node_inv in Hd as (o & operator & Hop & Hname & Hao).
    rewrite (expression_keys_and_or d o operator) in Hkeys by done.
    destruct (d !! "left") as [l|] eqn:Hl; [|done].
    cbn [fmap option_fmap option_map default from_option id] in Hkeys.
    destruct (_expression_keys l) as [kl|] eqn:Hkl; [|done].
    cbn [mbind result_bind] in Hkeys.
    destruct (d !! "right") as [r|] eqn:Hr; [|done].
    cbn [fmap option_fmap option_map default from_option id] in Hkeys.
    destruct (_expression_keys r) as [kr|] eqn:Hkr; [|done].
    cbn [mbind result_bind] in Hkeys. injection Hkeys as <-.
    destruct b.
    + rewrite Hr in Hc. injection Hc as <-.
      destruct (IH r kr n Hkr Hn) as (keys' & Hk' & Hin).
      exists keys'. split; [done|]. intros s Hs. unfold key_in.
      rewrite existsb_app. apply orb_true_iff. right. by apply Hin.
    + rewrite Hl in Hc. injection Hc as <-.
      destruct (IH l kl n Hkl Hn) as (keys' & Hk' & Hin).
      exists keys'. split; [done|]. intros s Hs. unfold key_in.
      rewrite existsb_app. apply orb_true_iff. left. by apply Hin.
Qed.

Lemma expand_task_dates_and_or_Ok (d : gmap string value) e' :
  and_or_node d = true →
  expand_task_dates (VDict d) = Ok e' →
  ∃ l r l' r', d !! "left" = Some l ∧ d !! "right" = Some r
    ∧ expand_task_dates l = Ok l' ∧ expand_task_dates r = Ok r'
    ∧ e' = VDict (<["right" := r']> (<["left" := l']> d)).
Proof.
  intros Hd H.
  apply and_or_node_inv in Hd as (o & operator & Hop & Hname & Hao).
  rewrite (expand_task_dates_and_or d o operator) in H by done.
  destruct (d !! "left") as [l|] eqn:Hl; [|done].
  cbn [fmap option_fmap option_map default from_option id] in H.
  destruct (expand_task_dates l) as [l'|] eqn:Hl'; [|done].
  cbn [mbind result_bind] in H.
  destruct (d !! "right") as [r|] eqn:Hr; [|done].
  cbn [fmap option_fmap option_map default from_option id] in H.
  destruct (expand_task_dates r) as [r'|] eqn:Hr'; [|done].
  cbn [mbind result_bind] in H. injection H as <-.
  by exists l, r, l', r'.
Qed.

(** When the expression expands, so does each of its operands, and the
    expanded expression has the expanded operand in its place. *)
Lemma expand_task_dates_operand p : ∀ e e' n,
  operand_at p e = Some n →
  expand_task_dates e = Ok e' →
  ∃ n', expand_task_dates n = Ok n' ∧ operand_at p e' = Some n'.
Proof.
  induction p as [|b p IH]; intros e e' n Hn He.
  - injection Hn as <-. eauto.
  - apply operand_at_cons_inv in Hn as (d & c & -> & Hd & Hc & Hn).
    destruct (expand_task_dates_and_or_Ok d e' Hd He)
      as (l & r & l' & r' & Hl & Hr & Hl' & Hr' & ->).
    assert (and_or_node (<["right" := r']> (<["left" := l']> d)) = true)
      as Hd' by (by rewrite !and_or_node_insert).
    destruct b.
    + rewrite Hr in Hc. injection Hc as <-.
      destruct (IH r r' n Hn Hr') as (n' & Hn' & Hat).
      exists n'. split; [done|].
      rewrite (operand_at_cons true p _ r'); [done|done|].
      by rewrite lookup_insert_eq.
    + rewrite Hl in Hc. injection Hc as <-.
      destruct (IH l l' n Hn Hl') as (n' & Hn' & Hat).
      exists n'. split; [done|].
      rewrite (operand_at_cons false p _ l'); [done|done|].
      by rewrite lookup_insert_ne, lookup_insert_eq.
Qed.

(** The error of an operand is the error of the expression, when the
    operands visited before it expand. *)
Lemma expand_task_dates_operand_error p : ∀ e n err,
  operand_at p e = Some n →
  expand_task_dates n = Raise err →
  left_operands_expand p e →
  expand_task_dates e = Raise err.
Proof.
  induction p as [|b p IH]; intros e n err Hn Herr Hleft.
  - by injection Hn as <-.
  - apply operand_at_cons_inv in Hn as (d & c & -> & Hd & Hc & Hn).
    pose proof Hd as Hd0.
    apply and_or_node_inv in Hd as (o & operator & Hop & Hname & Hao).
    rewrite (expand_task_dates_and_or d o operator) by done.
    destruct b.
    + destruct (Hleft [] p eq_refl) as (l & l' & Hl & Hl').
      cbn [app] in Hl. apply operand_at_cons_inv in Hl
        as (d0 & l0 & [= <-] & _ & Hl0 & [= <-]).
      rewrite Hl0, Hc.
      cbn [fmap option_fmap option_map default from_option id].
      rewrite Hl'. cbn [mbind result_bind].
      rewrite (IH c n err Hn Herr); [done|].
      intros p1 p2 ->.
      destruct (Hleft (true :: p1) p2 eq_refl) as (x & x' & Hx & Hx').
      exists x, x'. split; [|done].
      by rewrite <-(operand_at_cons true (p1 ++ [false]) d c).
    + rewrite Hc.
      cbn [fmap option_fmap option_map default from_option id].
      rewrite (IH c n err Hn Herr); [done|].
      intros p1 p2 ->.
      destruct (Hleft (false :: p1) p2 eq_refl) as (x & x' & Hx & Hx').
      exists x, x'. split; [|done].
      by rewrite <-(operand_at_cons false (p1 ++ [false]) d c).
Qed.

(** C3.  In an object query of type [TaskGroupTask] let [d] be a leaf on
    the key [start] (resp. [end]) of the expression, at its root or below
    nodes [AND] and [OR], with any operator and any further entries.  The
    expansion runs on the whole expression, since [_expression_keys]
    finds the key.  By the parts of its right-hand side, the leaf is
    rewritten in place: three parts [MM/DD/YYYY] that name a day of the
    calendar give the left [start_date] and the right the date; two
    parts [MM/DD] give the conjunction [AND] of [relative_start_month]
    against the first part and [relative_start_day] against the second,
    both under the operator of the leaf; one part gives the left
    [relative_start_day] and leaves the right as it is; any other number
    of parts raises [BadQueryException].  When the expression expands,
    the object query holds the expanded expression, which has the
    rewritten leaf in the place of [d]; when the leaf raises, the
    expansion of the object query does not return, and it raises the
    error of the leaf unless an operand visited before the leaf has
    raised its own. *)
Theorem C3_macro_expansion (q f d : gmap string value) exp keys p
    operator key s :
  q !! "object_name" = Some (VStr "TaskGroupTask") →
  _expression_keys exp = Ok keys →
  operand_at p exp = Some (VDict d) →
  task_date_leaf d operator key s →
  let query_with (e : value) :=
    VDict (<["filters" := VDict (<["expression" := e]> f)]> q) in
  let expansion := _macro_expand_object_query (query_with exp) in
  expansion = (exp' ← expand_task_dates exp; Ok (query_with exp'))
  ∧ (∀ m dd y month day year,
       split "/" s = [m; dd; y] →
       int_of_str m = Some month →
       int_of_str dd = Some day →
       int_of_str y = Some year →
       valid_date year month day →
       expand_task_dates (VDict d) =
         Ok (VDict (<["right" := VDate year month day]>
                      (<["left" := VStr (key +:+ "_date")]> d))))
  ∧ (∀ m dd,
       split "/" s = [m; dd] →
       expand_task_dates (VDict d) =
         Ok (VDict
               (<["right" := relative_leaf operator
                               ("relative_" +:+ key +:+ "_day") dd]>
               (<["left" := relative_leaf operator
                               ("relative_" +:+ key +:+ "_month") m]>
               (<["op" := VDict {[ "name" := VStr "AND" ]}]> d)))))
  ∧ (∀ dd,
       split "/" s = [dd] →
       expand_task_dates (VDict d) =
         Ok (VDict (<["left" := VStr ("relative_" +:+ key +:+ "_day")]> d)))
  ∧ (length (split "/" s) ∉ [1; 2; 3]%nat →
     expand_task_dates (VDict d) =
       Raise (BadQueryException
                ("Field {} should be a date of one of the" +:+
                 " following forms: DD, MM/DD, MM/DD/YYYY") [VStr key]))
  ∧ (∀ exp',
       expand_task_dates exp = Ok exp' →
       expansion = Ok (query_with exp')
       ∧ ∃ leaf', expand_task_dates (VDict d) = Ok leaf'
                  ∧ operand_at p exp' = Some leaf')
  ∧ (∀ err,
       expand_task_dates (VDict d) = Raise err →
       (∀ r, expansion ≠ Ok r)
       ∧ (left_operands_expand p exp → expansion = Raise err)).
Proof.
  intros Hq Hkeys Hat ((o & Hop & Hname) & Hao & Hleft & Hkey & Hright)
    query_with expansion.
  assert (expansion = (exp' ← expand_task_dates exp; Ok (query_with exp')))
    as Hexp.
  { unfold expansion, query_with. rewrite macro_expand_task by done.
    rewrite Hkeys. cbn [mbind result_bind].
    destruct (expression_keys_operand p exp keys (VDict d) Hkeys Hat)
      as (keys' & Hk' & Hin).
    rewrite (expression_keys_leaf d o operator (VStr key)) in Hk' by done.
    cbn [py_hashable] in Hk'. injection Hk' as <-.
    assert (key_in "start" keys || key_in "end" keys = true) as ->; [|done].
    apply orb_true_iff.
    destruct Hkey as [-> | ->]; [left|right]; by apply Hin. }
  pose proof (expand_task_dates_leaf d o operator key s
                Hop Hname Hao Hleft Hkey Hright) as Hleaf.
  split; [done|]. split; [|split; [|split; [|split; [|split]]]].
  - intros m dd y month day year Hs Hm Hdd Hy Hv. rewrite Hleaf, Hs.
    cbn [mapM mbind result_bind py_int]. rewrite Hm, Hdd, Hy.
    cbn [mbind result_bind fmap result_fmap mret result_ret
         except_Exception].
    by rewrite date_valid.
  - intros m dd Hs. by rewrite Hleaf, Hs.
  - intros dd Hs. by rewrite Hleaf, Hs.
  - intros Hlen. rewrite Hleaf.
    destruct (split "/" s) as [|p1 [|p2 [|p3 [|p4 ps]]]];
      cbn [length] in Hlen; try done; exfalso; apply Hlen;
      apply list_elem_of_In; cbn; tauto.
  - intros exp' He. split; [by rewrite Hexp, He|].
    by apply (expand_task_dates_operand p exp exp').
  - intros err Herr. split.
    + intros r Hr. rewrite Hexp in Hr.
      destruct (expand_task_dates exp) as [exp'|] eqn:He; [|done].
      destruct (expand_task_dates_operand p exp exp' (VDict d) Hat He)
        as (n' & Hn' & _). congruence.
    + intros Hl. rewrite Hexp.
      by rewrite (expand_task_dates_operand_error p exp (VDict d) err).
Qed.

Lemma C3_macro_expansion_witness :
  let d (right_ : string) : gmap string value :=
    {[ "op" := VDict {[ "name" := VStr "=" ]};
       "left" := VStr "start"; "right" := VStr right_ ]} in
  let query_with (e : value) :=
    VDict (<["filters" := VDict (<["expression" := e]> ∅)]>
             {[ "object_name" := VStr "TaskGroupTask" ]}) in
  expand_task_dates (VDict (d "3/15/2021")) =
    Ok (VDict (<["right" := VDate 2021 3 15]>
                 (<["left" := VStr "start_date"]> (d "3/15/2021"))))
  ∧ expand_task_dates (VDict (d "3/15")) =
      Ok (VDict
            (<["right" := relative_leaf (VStr "=") "relative_start_day" "15"]>
            (<["left" := relative_leaf (VStr "=") "relative_start_month" "3"]>
            (<["op" := VDict {[ "name" := VStr "AND" ]}]> (d "3/15")))))
  ∧ expand_task_dates (VDict (d "15")) =
      Ok (VDict (<["left" := VStr "relative_start_day"]> (d "15")))
  ∧ (∃ exp' leaf',
       _macro_expand_object_query (query_with (ex_task_expression "3/15")) =
         Ok (query_with exp')
       ∧ expand_task_dates (VDict (d "3/15")) = Ok leaf'
       ∧ operand_at [true] exp' = Some leaf')
  ∧ _macro_expand_object_query
      (query_with (ex_task_expression "3/15/2021/x")) =
      Raise (BadQueryException
               ("Field {} should be a date of one of the" +:+
                " following forms: DD, MM/DD, MM/DD/YYYY") [VStr "start"]).
Proof.
  intros d query_with.
  pose proof (λ right_ Hkeys,
    C3_macro_expansion {[ "object_name" := VStr "TaskGroupTask" ]} ∅
      (d right_) (ex_task_expression right_) [VStr "end"; VStr "start"]
      [true] (VStr "=")
      "start" right_ eq_refl Hkeys eq_refl
      (conj (ex_intro _ {[ "name" := VStr "=" ]} (conj eq_refl eq_refl))
         (conj eq_refl (conj eq_refl (conj (or_introl eq_refl) eq_refl)))))
    as H.
  cbv zeta in H.
  split; [|split; [|split; [|split]]].
  - destruct (H "3/15/2021") as (_ & H3 & _); [vm_compute; reflexivity|].
    apply (H3 "3" "15" "2021" 3 15 2021); try (vm_compute; reflexivity).
    unfold valid_date. vm_compute. intuition discriminate.
  - destruct (H "3/15") as (_ & _ & H2 & _); [vm_compute; reflexivity|].
    apply (H2 "3" "15"). vm_compute. reflexivity.
  - destruct (H "15") as (_ & _ & _ & H1 & _); [vm_compute; reflexivity|].
    apply (H1 "15"). vm_compute. reflexivity.
  - destruct (H "3/15") as (_ & _ & _ & _ & _ & Hok & _);
      [vm_compute; reflexivity|].
    destruct (expand_task_dates (ex_task_expression "3/15")) as [exp'|]
      eqn:He; [|vm_compute in He; discriminate He].
    destruct (Hok exp' eq_refl) as (Hq & leaf' & Hleaf & Hat).
    by exists exp', leaf'.
  - destruct (H "3/15/2021/x") as (_ & _ & _ & _ & Hbad & _ & Herr);
      [vm_compute; reflexivity|].
    destruct (Herr _ (Hbad ltac:(vm_compute; intros Hin;
                                  apply list_elem_of_In in Hin;
                                  cbn in Hin; intuition discriminate)))
      as [_ Hraise].
    apply Hraise. intros p1 p2 Hp.
    destruct p1 as [|b p1]; [|destruct p1; discriminate Hp].
    eexists _, _. split; [vm_compute; reflexivity|].
    vm_compute. reflexivity.
Defined.
